(** * CO2 monitor (SCD40 and SGP30 variants): model and verified properties

    Shallow embedding of [code-for-SCD40-sensor.py] (the SCD40 script and,
    after the marker line, the SGP30 script).  Both scripts are one
    sequential loop over module-level globals, two hardware collaborators
    (sensor, display) and, for the SGP30, one JSON file.

    Modelling conventions.
    - The values of [time.monotonic()] are exact rationals [Q]: the
      scripts only subtract and compare them.
    - The temperature and the humidity of the SCD40 are Python floats,
      taken as IEEE 754 binary64; the arithmetic the script does on them
      rounds as binary64 does, and [int] drops the fractional part of
      the result.
    - Python [int] is [Z]; [None]-or-value globals are [option].
    - Python [str] is [string], holding the UTF-8 bytes of the text.
    - Every function of the script is a computation in a monad that
      threads the globals and the devices, may raise a Python exception,
      and records the externally visible effects it performs (display
      assignments, console lines, sleeps) in the order they happen. *)

From Stdlib Require Import Floats.PrimFloat Floats.SpecFloat Floats.FloatOps.
From Stdlib Require Import ZArith QArith Lqa String Ascii List.
From Stdlib Require DecimalString HexadecimalString.
From stdpp Require Import base option list gmap strings.

Set Warnings "-register-all,-inexact-float".
Set Default Proof Using "Type".

Local Open Scope string_scope.
Local Open Scope Z_scope.

(** ** Python values and exceptions *)

(** The exception classes the scripts and their collaborators can raise.
    All of them derive from [Exception]. *)
Inductive exn :=
  | OSError (errno : Z)
  | KeyError (key : string)
  | ValueError
  | TypeError
  | IndexError
  | RuntimeError
  | OverflowError
  | NameError (name : string).

Global Instance exn_eq_dec : EqDecision exn.
Proof. solve_decision. Defined.

Definition is_OSError (e : exn) : bool :=
  match e with OSError _ => true | _ => false end.

Definition is_KeyError (e : exn) : bool :=
  match e with KeyError _ => true | _ => false end.

(** [str(n)] for an [int]. *)
Definition str (n : Z) : string :=
  DecimalString.NilZero.string_of_int (Z.to_int n).

(** [format(n, "x")] for an [int]. *)
Definition hex (n : Z) : string :=
  HexadecimalString.NilZero.string_of_int (Z.to_hex_int n).

(** [hex(n)] for an [int]. *)
Definition py_hex (n : Z) : string :=
  if n <? 0 then "-0x" ++ hex (- n) else "0x" ++ hex n.

(** [repr(l)] for a list of strings that need no escaping. *)
Definition repr_str_list (l : list string) : string :=
  "[" ++ String.concat ", " (map (fun s => "'" ++ s ++ "'") l) ++ "]".

(** [int(x)] for a float: the fractional part is dropped; a NaN raises
    [ValueError], an infinity [OverflowError].  A finite binary64 value
    is [m * 2 ^ e] with the sign [s]. *)
Definition int_of_float (x : float) : exn + Z :=
  match Prim2SF x with
  | S754_zero _ => inr 0
  | S754_infinity _ => inl OverflowError
  | S754_nan => inl ValueError
  | S754_finite s m e =>
      let magnitude :=
        if 0 <=? e then Z.pos m * 2 ^ e else Z.pos m / 2 ^ (- e) in
      inr (if s then - magnitude else magnitude)
  end.

(** The rational number a finite float stands for, in lowest terms (to
    state properties; the scripts do not compute it). *)
Definition float_value (x : float) : option Q :=
  match Prim2SF x with
  | S754_zero _ => Some 0%Q
  | S754_finite s m e =>
      let mantissa := if s then Z.neg m else Z.pos m in
      Some (Qred match e with
                 | Z.neg p => mantissa # 2 ^ p
                 | _ => inject_Z (mantissa * 2 ^ e)
                 end)
  | S754_infinity _ | S754_nan => None
  end.

(** Python comparisons of numbers. *)
Definition Qgt_bool (a b : Q) : bool := negb (Qle_bool a b).
Definition Qge_bool (a b : Q) : bool := Qle_bool b a.

(** [old != new] where [old] is a dict slot holding [None] or a value and
    [new] is a value: [None] differs from every value. *)
Definition differs {A} `{EqDecision A} (old : option A) (new : A) : bool :=
  negb (bool_decide (old = Some new)).

(** [l[i]] on a Python list: negative indices count from the end, an index
    out of range raises [IndexError] (here: [None]). *)
Definition py_index {A} (l : list A) (i : Z) : option A :=
  if 0 <=? i then l !! Z.to_nat i
  else if 0 <=? Z.of_nat (length l) + i then l !! Z.to_nat (Z.of_nat (length l) + i)
  else None.

(** UTF-8 text of the non-ASCII literals of the scripts. *)
Definition chr (n : nat) : string := String (ascii_of_nat n) EmptyString.

(** U+00B0 DEGREE SIGN. *)
Definition degree_sign : string := chr 194 ++ chr 176.
(** U+F118, the smiling face of the icon font. *)
Definition ICON_OK : string := chr 239 ++ chr 132 ++ chr 152.
(** U+F119, the frowning face of the icon font. *)
Definition ICON_ALERT : string := chr 239 ++ chr 132 ++ chr 153.
Definition newline : string := chr 10.

(** Constants shared by the two scripts. *)
Definition CO2_THRESHOLD : Z := 1000.
Definition UPDATE_INTERVAL : Q := 4.
Definition COLOR_BLACK : Z := 0x000000.
Definition COLOR_WHITE : Z := 0xFFFFFF.
Definition COLOR_GREEN : Z := 0x00FF00.
Definition COLOR_RED : Z := 0xFF0000.
Definition LOADING_INTERVAL : Q := 0.05.
Definition LOADING_PHASE_SLEEP : Q := 0.01.
Definition SPINNER_CHARS : list string := ["|"; "/"; "-"; "\"].

(** What [json.load] returns: the Python value of a JSON text.  An object
    becomes a [dict] with string keys. *)
Inductive json :=
  | JNull
  | JBool (b : bool)
  | JInt (n : Z)
  | JFloat (x : Q)
  | JStr (s : string)
  | JArr (items : list json)
  | JObj (fields : gmap string json).

(** [v[key]] for a value that came out of [json.load] and a string [key]:
    only a [dict] can be subscripted by a string. *)
Definition subscript (v : json) (key : string) : exn + json :=
  match v with
  | JObj fields =>
      match fields !! key with
      | Some x => inr x
      | None => inl (KeyError key)
      end
  | _ => inl TypeError
  end.

(** [f"{v:x}"]: the format code [x] is for integers ([bool] is one);
    [float] and [str] reject it with [ValueError], the other types do not
    take a format code at all. *)
Definition format_x (v : json) : exn + string :=
  match v with
  | JInt n => inr (hex n)
  | JBool b => inr (hex (if b then 1 else 0))
  | JFloat _ | JStr _ => inl ValueError
  | JNull | JArr _ | JObj _ => inl TypeError
  end.

(** ** Effects *)

(** What a [label.Label] shows. *)
Record label := Label { text : string; color : Z }.

Global Instance label_eq_dec : EqDecision label.
Proof. solve_decision. Defined.

(** The effects a script performs on its surroundings, over the script's
    set of display elements [widget].  [InvokeSave] and [BaselineWritten]
    carry the clock value the script had read when it got there. *)
Inductive event {widget : Type} :=
  | Print (line : string)                (* print(line) *)
  | PrintExn (prefix : string) (e : exn) (* print(f"{prefix}{e}") *)
  | SetPalette (c : Z)                   (* color_palette[0] = c *)
  | SetText (w : widget) (s : string)    (* w.text = s *)
  | SetColor (w : widget) (c : Z)        (* w.color = c *)
  | SetLed (b : bool)                    (* led.value = b *)
  | Sleep (seconds : Q)                  (* time.sleep(seconds) *)
  | SetIaqBaseline (eCO2 TVOC : json)    (* sensor.set_iaq_baseline(..) *)
  | SetIaqRelativeHumidity (celsius relative_humidity : Q)
                                 (* sensor.set_iaq_relative_humidity(..) *)
  | InvokeSave (current_time : Q)        (* update_baseline calls save_baseline *)
  | BaselineWritten (current_time : Q) (eCO2 TVOC : Z).
                                         (* the file was rewritten *)
Arguments event : clear implicits.

(** The assignments to something the display shows. *)
Definition is_display_write {widget} (ev : event widget) : bool :=
  match ev with
  | SetPalette _ | SetText _ _ | SetColor _ _ => true
  | _ => false
  end.

(** The assignments to a colour. *)
Definition is_color_write {widget} (ev : event widget) : bool :=
  match ev with
  | SetPalette _ | SetColor _ _ => true
  | _ => false
  end.

(** A computation over the state [W] of a script: it ends with a value or
    a raised exception, in a final state, having performed [emitted].
    State changes and effects made before an exception is raised stay. *)
Section Monad.
Context {W E : Type}.

Record result (A : Type) :=
  Result { outcome : exn + A; final : W; emitted : list E }.
Global Arguments Result {A} _ _ _.
Global Arguments outcome {A} _.
Global Arguments final {A} _.
Global Arguments emitted {A} _.

Definition M (A : Type) : Type := W -> result A.

Definition ret {A} (a : A) : M A := fun w => Result (inr a) w [].

Definition raise {A} (e : exn) : M A := fun w => Result (inl e) w [].

Definition bind {A B} (m : M A) (k : A -> M B) : M B := fun w =>
  match m w with
  | Result (inl e) w1 ev1 => Result (inl e) w1 ev1
  | Result (inr a) w1 ev1 =>
      match k a w1 with
      | Result o w2 ev2 => Result o w2 (ev1 ++ ev2)
      end
  end.

(** [try: m except Exception as e: h e]; a handler that does not want
    [e] raises it again. *)
Definition try_except {A} (m : M A) (h : exn -> M A) : M A := fun w =>
  match m w with
  | Result (inl e) w1 ev1 =>
      match h e w1 with
      | Result o w2 ev2 => Result o w2 (ev1 ++ ev2)
      end
  | Result (inr a) w1 ev1 => Result (inr a) w1 ev1
  end.

Definition gets {A} (f : W -> A) : M A := fun w => Result (inr (f w)) w [].

Definition modify (f : W -> W) : M unit := fun w => Result (inr tt) (f w) [].

Definition emit (ev : E) : M unit := fun w => Result (inr tt) w [ev].

(** Reading a device property that either yields a value or raises. *)
Definition probe {A} (f : W -> exn + A) : M A := fun w => Result (f w) w [].

(** [for x in l: body x]. *)
Fixpoint for_each {A} (l : list A) (body : A -> M unit) : M unit :=
  match l with
  | [] => ret tt
  | x :: l' => bind (body x) (fun _ => for_each l' body)
  end.

(** [if c: m] without an [else]. *)
Definition when (c : bool) (m : M unit) : M unit :=
  if c then m else ret tt.
End Monad.
Arguments M : clear implicits.
Arguments result : clear implicits.

Notation "x <- m ;; k" := (bind m (fun x => k))
  (at level 100, m at next level, right associativity,
   format "'[v' x  <-  m  ;; '/' k ']'").
Notation "m ;;; k" := (bind m (fun _ => k))
  (at level 100, right associativity, format "'[v' m  ;;; '/' k ']'").

(** The display: the one palette entry of the background and, for each
    element [widget] of the script, what it shows. *)
(** Telling the elements of a script apart. *)
Class WidgetEq (widget : Type) := widget_eqb : widget -> widget -> bool.

Section Display.
Context {widget : Type} `{WidgetEq widget}.

Record display := Display { palette0 : Z; labels : widget -> label }.

Definition with_palette0 (c : Z) (d : display) : display :=
  {| palette0 := c; labels := labels d |}.

Definition with_text (wd : widget) (s : string) (d : display) : display :=
  {| palette0 := palette0 d;
     labels := fun x =>
       if widget_eqb x wd then Label s (color (labels d x)) else labels d x |}.

Definition with_color (wd : widget) (c : Z) (d : display) : display :=
  {| palette0 := palette0 d;
     labels := fun x =>
       if widget_eqb x wd then Label (text (labels d x)) c else labels d x |}.

(** Whether an assignment stores the value the element already shows. *)
Definition redundant (d : display) (ev : event widget) : bool :=
  match ev with
  | SetPalette c => bool_decide (palette0 d = c)
  | SetText wd s => bool_decide (text (labels d wd) = s)
  | SetColor wd c => bool_decide (color (labels d wd) = c)
  | _ => false
  end.

(** The display after an effect: only assignments to the display change
    what it shows. *)
Definition apply_write (d : display) (ev : event widget) : display :=
  match ev with
  | SetPalette c => with_palette0 c d
  | SetText wd s => with_text wd s d
  | SetColor wd c => with_color wd c d
  | _ => d
  end.

(** Whether some assignment of the sequence [evs], performed in order from
    [d], stores the value its element shows at that moment. *)
Fixpoint has_redundant (d : display) (evs : list (event widget)) : bool :=
  match evs with
  | [] => false
  | ev :: rest => redundant d ev || has_redundant (apply_write d ev) rest
  end.
End Display.
Arguments display : clear implicits.

(** The arguments of the [time.sleep] calls among the effects. *)
Fixpoint sleeps {widget} (evs : list (event widget)) : list Q :=
  match evs with
  | [] => []
  | Sleep d :: rest => d :: sleeps rest
  | _ :: rest => sleeps rest
  end.

(** The clock values at which [update_baseline] called [save_baseline]. *)
Fixpoint invocations {widget} (evs : list (event widget)) : list Q :=
  match evs with
  | [] => []
  | InvokeSave t :: rest => t :: invocations rest
  | _ :: rest => invocations rest
  end.

(** The clock values ([current_time] of [save_baseline]) of the rewrites
    of the baseline file. *)
Fixpoint write_times {widget} (evs : list (event widget)) : list Q :=
  match evs with
  | [] => []
  | BaselineWritten t _ _ :: rest => t :: write_times rest
  | _ :: rest => write_times rest
  end.

(** Each time of [ts] is more than [gap] after the one before it, the
    first one more than [gap] after [last]. *)
Fixpoint spaced (gap last : Q) (ts : list Q) : Prop :=
  match ts with
  | [] => True
  | t :: rest => (gap < t - last)%Q /\ spaced gap t rest
  end.

(** ** The SCD40 script (CO2, temperature, humidity) *)
Module SCD40.

Inductive widget :=
  co2_label | co2_value | temp_label | humid_label | icon_label.

Global Instance widget_eq_dec : EqDecision widget.
Proof. solve_decision. Defined.

Global Instance widget_same : WidgetEq widget := fun a b =>
  match a, b with
  | co2_label, co2_label
  | co2_value, co2_value
  | temp_label, temp_label
  | humid_label, humid_label
  | icon_label, icon_label => true
  | _, _ => false
  end.

(** What the properties of the [scd4x] driver object yield when read;
    each read talks to the bus and may raise instead. *)
Record sensor := Sensor
  { data_ready : exn + bool;
    CO2 : exn + Z;
    temperature : exn + float;
    relative_humidity : exn + float }.

(** The dictionary [prev_values]; its four keys never change. *)
Record cache := Cache
  { prev_co2 : option Z;
    prev_temp : option Z;
    prev_humidity : option Z;
    prev_is_high : option bool }.

Global Instance cache_eq_dec : EqDecision cache.
Proof. solve_decision. Defined.

(** The globals of the script, the devices, and the number of times the
    clock has been read. *)
Record world := World
  { clock_reads : nat;
    scd4x : sensor;
    prev_values : cache;
    animation_frame : Z;
    last_animation_time : Q;
    screen : display widget }.

Definition with_clock_reads (n : nat) (w : world) : world :=
  World n (scd4x w) (prev_values w) (animation_frame w)
    (last_animation_time w) (screen w).
Definition with_scd4x (s : sensor) (w : world) : world :=
  World (clock_reads w) s (prev_values w) (animation_frame w)
    (last_animation_time w) (screen w).
Definition with_prev_values (c : cache) (w : world) : world :=
  World (clock_reads w) (scd4x w) c (animation_frame w)
    (last_animation_time w) (screen w).
Definition with_animation_frame (n : Z) (w : world) : world :=
  World (clock_reads w) (scd4x w) (prev_values w) n
    (last_animation_time w) (screen w).
Definition with_last_animation_time (t : Q) (w : world) : world :=
  World (clock_reads w) (scd4x w) (prev_values w) (animation_frame w)
    t (screen w).
Definition with_screen (d : display widget) (w : world) : world :=
  World (clock_reads w) (scd4x w) (prev_values w) (animation_frame w)
    (last_animation_time w) d.

Definition Script := M world (event widget).

(** [color_palette[0] = c] *)
Definition set_palette (c : Z) : Script unit :=
  modify (fun w => with_screen (with_palette0 c (screen w)) w) ;;;
  emit (SetPalette c).

(** [wd.text = s] *)
Definition set_text (wd : widget) (s : string) : Script unit :=
  modify (fun w => with_screen (with_text wd s (screen w)) w) ;;;
  emit (SetText wd s).

(** [wd.color = c] *)
Definition set_color (wd : widget) (c : Z) : Script unit :=
  modify (fun w => with_screen (with_color wd c (screen w)) w) ;;;
  emit (SetColor wd c).

Definition print (s : string) : Script unit := emit (Print s).

(** [int(x)] *)
Definition int (x : float) : Script Z := probe (fun _ => int_of_float x).

Section Clock.
(** [monotonic k] is the value of the [k]-th call of
    [time.monotonic()] since the script started. *)
Variable monotonic : nat -> Q.

Definition time_monotonic : Script Q := fun w =>
  Result (inr (monotonic (clock_reads w)))
         (with_clock_reads (S (clock_reads w)) w) [].

Definition update_spinner_animation (frame : Z) : Script unit :=
  match py_index SPINNER_CHARS frame with
  | None => raise IndexError
  | Some c =>
      set_text co2_label ("Loading " ++ c) ;;;
      set_text temp_label c ;;;
      set_text humid_label c
  end.

Definition show_loading_screen : Script unit :=
  set_text co2_label "Loading..." ;;;
  set_text co2_value "" ;;;
  set_text temp_label "..." ;;;
  set_text humid_label "..." ;;;
  set_text icon_label "".

Definition update_labels (co2 temp humidity : Z) (is_high : bool)
  : Script unit :=
  prev <- gets prev_values ;;
  when (differs (prev_is_high prev) is_high) (
    set_palette (if is_high then 0xFFFFFF else 0x000000) ;;;
    let new_color := if is_high then 0x000000 else 0xFFFFFF in
    for_each [co2_label; co2_value; temp_label; humid_label]
      (fun label_obj => set_color label_obj new_color) ;;;
    set_text icon_label (if negb is_high then ICON_OK else ICON_ALERT) ;;;
    set_color icon_label (if negb is_high then 0x00FF00 else 0xFF0000)
  ) ;;;
  prev <- gets prev_values ;;
  when (differs (prev_co2 prev) co2) (
    set_text co2_label ("CO2: " ++ (if is_high then "HIGH" else "good")) ;;;
    set_text co2_value (str co2)
  ) ;;;
  prev <- gets prev_values ;;
  when (differs (prev_temp prev) temp) (
    set_text temp_label (str temp ++ degree_sign ++ "F")
  ) ;;;
  prev <- gets prev_values ;;
  when (differs (prev_humidity prev) humidity) (
    set_text humid_label (str humidity ++ "%")
  ) ;;;
  modify (with_prev_values
            (Cache (Some co2) (Some temp) (Some humidity) (Some is_high))).

Definition update : Script unit :=
  current_time <- time_monotonic ;;
  try_except (
    ready <- probe (fun w => data_ready (scd4x w)) ;;
    if ready then
      co2 <- probe (fun w => CO2 (scd4x w)) ;;
      t <- probe (fun w => temperature (scd4x w)) ;;
      temp <- int (t * (9 / 5) + 32)%float ;;
      h <- probe (fun w => relative_humidity (scd4x w)) ;;
      humidity <- int h ;;
      let is_high := CO2_THRESHOLD <=? co2 in
      print ("CO2: " ++ str co2 ++ "ppm") ;;;
      print ("Temperature: " ++ str temp ++ degree_sign ++ "F") ;;;
      print ("Humidity: " ++ str humidity ++ "%" ++ newline) ;;;
      update_labels co2 temp humidity is_high
    else
      prev <- gets prev_values ;;
      when (bool_decide (prev_co2 prev = None)) (
        last <- gets last_animation_time ;;
        when (Qge_bool (current_time - last) LOADING_INTERVAL) (
          frame <- gets animation_frame ;;
          update_spinner_animation
            (frame `mod` Z.of_nat (length SPINNER_CHARS)) ;;;
          modify (fun w => with_animation_frame (animation_frame w + 1) w) ;;;
          modify (with_last_animation_time current_time)
        )
      )
  ) (fun e => emit (PrintExn "Error reading sensor: " e)).

(** [time.sleep(seconds)] *)
Definition sleep (seconds : Q) : Script unit := emit (Sleep seconds).

(** One turn of [while True]; [s] is what the sensor answers during
    this turn. *)
Definition iteration (s : sensor) : Script unit :=
  modify (with_scd4x s) ;;;
  update ;;;
  prev <- gets prev_values ;;
  if bool_decide (prev_co2 prev = None)
  then sleep LOADING_PHASE_SLEEP
  else sleep UPDATE_INTERVAL.

(** The first [length answers] turns of [while True]. *)
Fixpoint main_loop (answers : list sensor) : Script unit :=
  match answers with
  | [] => ret tt
  | s :: rest => iteration s ;;; main_loop rest
  end.
End Clock.

(** The display as the script creates it: black background, white
    labels with no text, a green icon with no text. *)
Definition display0 : display widget :=
  {| palette0 := 0x000000;
     labels := fun wd =>
       match wd with
       | icon_label => Label "" 0x00FF00
       | _ => Label "" 0xFFFFFF
       end |}.

(** The state in which [while True] is entered when [s] is the sensor:
    [last_animation_time] holds the first clock value, the loading
    screen is shown. *)
Definition startup (monotonic : nat -> Q) (s : sensor) : world :=
  final (show_loading_screen
           (World 1 s (Cache None None None None) 0 (monotonic 0%nat) display0)).

(** *** Vocabulary for the properties of the renderer *)

(** The assignments of [update_labels] in the branch for a changed
    [is_high]. *)
Definition flip_writes (is_high : bool) : list (event widget) :=
  [SetPalette (if is_high then COLOR_WHITE else COLOR_BLACK);
   SetColor co2_label (if is_high then COLOR_BLACK else COLOR_WHITE);
   SetColor co2_value (if is_high then COLOR_BLACK else COLOR_WHITE);
   SetColor temp_label (if is_high then COLOR_BLACK else COLOR_WHITE);
   SetColor humid_label (if is_high then COLOR_BLACK else COLOR_WHITE);
   SetText icon_label (if is_high then ICON_ALERT else ICON_OK);
   SetColor icon_label (if is_high then COLOR_RED else COLOR_GREEN)].

(** Its assignments in the branches for a changed [co2], [temp] and
    [humidity]. *)
Definition co2_writes (co2 : Z) (is_high : bool) : list (event widget) :=
  [SetText co2_label ("CO2: " ++ (if is_high then "HIGH" else "good"));
   SetText co2_value (str co2)].

Definition temp_writes (temp : Z) : list (event widget) :=
  [SetText temp_label (str temp ++ degree_sign ++ "F")].

Definition humidity_writes (humidity : Z) : list (event widget) :=
  [SetText humid_label (str humidity ++ "%")].

(** The comparison with the cache under which [update_labels] makes an
    assignment: each element belongs to the group of one cache key. *)
Definition guard (prev : cache) (co2 temp humidity : Z) (is_high : bool)
    (ev : event widget) : bool :=
  match ev with
  | SetPalette _ | SetColor _ _ | SetText icon_label _ =>
      differs (prev_is_high prev) is_high
  | SetText co2_label _ | SetText co2_value _ => differs (prev_co2 prev) co2
  | SetText temp_label _ => differs (prev_temp prev) temp
  | SetText humid_label _ => differs (prev_humidity prev) humidity
  | _ => true
  end.

(** The cache holds a reading as [update] builds it, and the display
    shows that reading in every element. *)
Definition mirrors (c : cache) (d : display widget) : Prop :=
  match c with
  | Cache (Some co2) (Some temp) (Some humidity) (Some is_high) =>
      let fg := if is_high then COLOR_BLACK else COLOR_WHITE in
      is_high = (CO2_THRESHOLD <=? co2) /\
      palette0 d = (if is_high then COLOR_WHITE else COLOR_BLACK) /\
      labels d co2_label =
        Label ("CO2: " ++ (if is_high then "HIGH" else "good")) fg /\
      labels d co2_value = Label (str co2) fg /\
      labels d temp_label = Label (str temp ++ degree_sign ++ "F") fg /\
      labels d humid_label = Label (str humidity ++ "%") fg /\
      labels d icon_label =
        Label (if is_high then ICON_ALERT else ICON_OK)
              (if is_high then COLOR_RED else COLOR_GREEN)
  | _ => False
  end.

Definition no_reading : cache := Cache None None None None.

End SCD40.

(** ** The SGP30 script (approximate CO2 and VOC, persisted baseline) *)
Module SGP30.

Definition VOC_THRESHOLD : Z := 250.
Definition WARMUP_TIME : Q := 15.
Definition CALIBRATION_TIME : Q := 12 * 3600.
Definition BASELINE_SAVE_INTERVAL : Q := 3600.

Inductive widget :=
  co2_label | co2_value | voc_status | voc_label | icon_label.

Global Instance widget_eq_dec : EqDecision widget.
Proof. solve_decision. Defined.

Global Instance widget_same : WidgetEq widget := fun a b =>
  match a, b with
  | co2_label, co2_label
  | co2_value, co2_value
  | voc_status, voc_status
  | voc_label, voc_label
  | icon_label, icon_label => true
  | _, _ => false
  end.

(** What the [sensor] driver object answers when used: each property
    read and each command talks to the bus and may raise instead. *)
Record sgp30 := Sgp30
  { eCO2 : exn + Z;
    TVOC : exn + Z;
    baseline_eCO2 : exn + Z;
    baseline_TVOC : exn + Z;
    set_iaq_baseline : json -> json -> option exn }.

(** What the devices answer to the initialisation code: the serial
    number of the sensor and its humidity command; the calls that set up
    the display bus and the panel ([displayio.release_displays()] to
    [ST7735R(..)]), taken together; the two calls of
    [bitmap_font.load_font]. *)
Record setup := Setup
  { serial : exn + list Z;
    set_iaq_relative_humidity : option exn;
    display_setup : option exn;
    load_font : option exn;
    load_icons : option exn }.

(** The file [sgp30_baseline.json], seen through [json.load]: its text
    is either the JSON text of a value or no JSON text at all. *)
Inductive file_content :=
  | NotJSON
  | JSON (v : json).

Inductive file_state :=
  | Missing                  (* open(.., "r") raises OSError(2) *)
  | Unreadable (errno : Z)   (* open(.., "r") raises OSError(errno) *)
  | Holds (c : file_content).

(** How the storage medium treats an attempt to rewrite the file. *)
Inductive write_fault :=
  | NoFault
  | OpenFails (errno : Z)    (* open(.., "w") raises; file untouched *)
  | DumpFails (errno : Z).   (* opened, so truncated; then the write raises *)

(** The dictionary [prev_values]. *)
Record cache := Cache
  { prev_co2 : option Z;
    prev_voc : option Z;
    prev_is_high : option bool }.

Global Instance cache_eq_dec : EqDecision cache.
Proof. solve_decision. Defined.

Record world := World
  { clock_reads : nat;
    sensor : sgp30;
    baseline_file : file_state;
    storage : write_fault;
    start_time : option Q;
    last_baseline_save : Q;
    animation_frame : Z;
    last_animation_time : Q;
    prev_values : cache;
    screen : display widget;
    led : bool }.

Definition with_clock_reads (n : nat) (w : world) : world :=
  World n (sensor w) (baseline_file w) (storage w) (start_time w)
    (last_baseline_save w) (animation_frame w) (last_animation_time w)
    (prev_values w) (screen w) (led w).
Definition with_sensor (s : sgp30) (w : world) : world :=
  World (clock_reads w) s (baseline_file w) (storage w) (start_time w)
    (last_baseline_save w) (animation_frame w) (last_animation_time w)
    (prev_values w) (screen w) (led w).
Definition with_baseline_file (f : file_state) (w : world) : world :=
  World (clock_reads w) (sensor w) f (storage w) (start_time w)
    (last_baseline_save w) (animation_frame w) (last_animation_time w)
    (prev_values w) (screen w) (led w).
Definition with_storage (s : write_fault) (w : world) : world :=
  World (clock_reads w) (sensor w) (baseline_file w) s (start_time w)
    (last_baseline_save w) (animation_frame w) (last_animation_time w)
    (prev_values w) (screen w) (led w).
Definition with_start_time (t : option Q) (w : world) : world :=
  World (clock_reads w) (sensor w) (baseline_file w) (storage w) t
    (last_baseline_save w) (animation_frame w) (last_animation_time w)
    (prev_values w) (screen w) (led w).
Definition with_last_baseline_save (t : Q) (w : world) : world :=
  World (clock_reads w) (sensor w) (baseline_file w) (storage w)
    (start_time w) t (animation_frame w) (last_animation_time w)
    (prev_values w) (screen w) (led w).
Definition with_animation_frame (n : Z) (w : world) : world :=
  World (clock_reads w) (sensor w) (baseline_file w) (storage w)
    (start_time w) (last_baseline_save w) n (last_animation_time w)
    (prev_values w) (screen w) (led w).
Definition with_last_animation_time (t : Q) (w : world) : world :=
  World (clock_reads w) (sensor w) (baseline_file w) (storage w)
    (start_time w) (last_baseline_save w) (animation_frame w) t
    (prev_values w) (screen w) (led w).
Definition with_prev_values (c : cache) (w : world) : world :=
  World (clock_reads w) (sensor w) (baseline_file w) (storage w)
    (start_time w) (last_baseline_save w) (animation_frame w)
    (last_animation_time w) c (screen w) (led w).
Definition with_screen (d : display widget) (w : world) : world :=
  World (clock_reads w) (sensor w) (baseline_file w) (storage w)
    (start_time w) (last_baseline_save w) (animation_frame w)
    (last_animation_time w) (prev_values w) d (led w).
Definition with_led (b : bool) (w : world) : world :=
  World (clock_reads w) (sensor w) (baseline_file w) (storage w)
    (start_time w) (last_baseline_save w) (animation_frame w)
    (last_animation_time w) (prev_values w) (screen w) b.

Definition Script := M world (event widget).

Definition set_palette (c : Z) : Script unit :=
  modify (fun w => with_screen (with_palette0 c (screen w)) w) ;;;
  emit (SetPalette c).

Definition set_text (wd : widget) (s : string) : Script unit :=
  modify (fun w => with_screen (with_text wd s (screen w)) w) ;;;
  emit (SetText wd s).

Definition set_color (wd : widget) (c : Z) : Script unit :=
  modify (fun w => with_screen (with_color wd c (screen w)) w) ;;;
  emit (SetColor wd c).

(** [led.value = b] *)
Definition set_led (b : bool) : Script unit :=
  modify (with_led b) ;;; emit (SetLed b).

Definition print (s : string) : Script unit := emit (Print s).

(** A value or the exception raised in its place. *)
Definition lift {A} (x : exn + A) : Script A := probe (fun _ => x).

(** A call made for its effect, or the exception it raises. *)
Definition call (x : option exn) : Script unit :=
  match x with
  | Some e => raise e
  | None => ret tt
  end.

(** The text printed before the exception when a font cannot be
    loaded. *)
Definition FONT_ERROR : string :=
  "Error loading fonts. Your CIRCUITPY board probably doesn't have usable fonts with these names in a folder named 'fonts': ".

(** [with open("sgp30_baseline.json", "r") as f: json.load(f)] *)
Definition open_and_load : Script json := fun w =>
  match baseline_file w with
  | Missing => Result (inl (OSError 2)) w []
  | Unreadable errno => Result (inl (OSError errno)) w []
  | Holds NotJSON => Result (inl ValueError) w []
  | Holds (JSON v) => Result (inr v) w []
  end.

(** [{'eCO2': e, 'TVOC': t}], also what [json.load] makes of the text
    [json.dump] writes for it. *)
Definition baseline_dict (e t : Z) : json :=
  JObj (<["eCO2" := JInt e]> (<["TVOC" := JInt t]> ∅)).

(** [with open("sgp30_baseline.json", "w") as f: json.dump(baseline, f)]
    for [baseline = {'eCO2': e, 'TVOC': t}], at clock value
    [current_time]. *)
Definition open_and_dump (current_time : Q) (e t : Z) : Script unit :=
  fun w =>
  match storage w with
  | NoFault =>
      Result (inr tt)
        (with_baseline_file (Holds (JSON (baseline_dict e t))) w)
        [BaselineWritten current_time e t]
  | OpenFails errno => Result (inl (OSError errno)) w []
  | DumpFails errno =>
      Result (inl (OSError errno)) (with_baseline_file (Holds NotJSON) w) []
  end.

(** [sensor.set_iaq_baseline(e, t)] *)
Definition call_set_iaq_baseline (e t : json) : Script unit :=
  s <- gets sensor ;;
  match set_iaq_baseline s e t with
  | Some err => raise err
  | None => emit (SetIaqBaseline e t)
  end.

Section Clock.
(** [monotonic k] is the value of the [k]-th call of
    [time.monotonic()] since the script started. *)
Variable monotonic : nat -> Q.

Definition time_monotonic : Script Q := fun w =>
  Result (inr (monotonic (clock_reads w)))
         (with_clock_reads (S (clock_reads w)) w) [].

(** [t - start_time]; subtracting [None] raises [TypeError]. *)
Definition minus_start_time (t : Q) : Script Q :=
  start <- gets start_time ;;
  match start with
  | None => raise TypeError
  | Some t0 => ret (t - t0)%Q
  end.

Definition initialize_baseline_tracking : Script unit :=
  now <- time_monotonic ;;
  modify (with_start_time (Some now)).

Definition load_baseline : Script bool :=
  try_except (
    baseline <- open_and_load ;;
    e <- lift (subscript baseline "eCO2") ;;
    t <- lift (subscript baseline "TVOC") ;;
    call_set_iaq_baseline e t ;;;
    print "Loaded stored baseline values:" ;;;
    e <- lift (subscript baseline "eCO2") ;;
    he <- lift (format_x e) ;;
    t <- lift (subscript baseline "TVOC") ;;
    ht <- lift (format_x t) ;;
    print ("eCO2: 0x" ++ he ++ ", TVOC: 0x" ++ ht) ;;;
    ret true
  ) (fun e =>
    if is_OSError e || is_KeyError e then
      print "No stored baseline found - starting fresh calibration" ;;;
      ret false
    else raise e).

Definition save_baseline : Script unit :=
  current_time <- time_monotonic ;;
  elapsed <- minus_start_time current_time ;;
  when (Qgt_bool elapsed CALIBRATION_TIME) (
    elapsed <- minus_start_time current_time ;;
    when (Qgt_bool elapsed CALIBRATION_TIME) (
      try_except (
        e <- probe (fun w => baseline_eCO2 (sensor w)) ;;
        t <- probe (fun w => baseline_TVOC (sensor w)) ;;
        open_and_dump current_time e t ;;;
        print "Saved new baseline values" ;;;
        modify (with_last_baseline_save current_time)
      ) (fun e =>
        match e with
        | OSError errno =>
            if errno =? 30
            then print "Could not save baseline - filesystem is read-only"
            else emit (PrintExn "Error saving baseline: " e)
        | _ => raise e
        end)
    )
  ).

(** The dictionary returned by [check_warmup_status]. *)
Record status := Status
  { warmed_up : bool;
    fully_calibrated : bool;
    elapsed_time : Q }.

Definition check_warmup_status : Script status :=
  now <- time_monotonic ;;
  elapsed <- minus_start_time now ;;
  ret {| warmed_up := Qgt_bool elapsed WARMUP_TIME;
         fully_calibrated := Qgt_bool elapsed CALIBRATION_TIME;
         elapsed_time := elapsed |}.

Definition update_baseline : Script unit :=
  current_time <- time_monotonic ;;
  last <- gets last_baseline_save ;;
  when (Qgt_bool (current_time - last) BASELINE_SAVE_INTERVAL) (
    emit (InvokeSave current_time) ;;;
    save_baseline
  ).

Definition update_spinner_animation (frame : Z) : Script unit :=
  match py_index SPINNER_CHARS frame with
  | None => raise IndexError
  | Some c =>
      set_text co2_label ("Loading " ++ c) ;;;
      set_text voc_label c
  end.

Definition show_loading_screen : Script unit :=
  set_text co2_label "Loading..." ;;;
  set_text co2_value "" ;;;
  set_text voc_status "" ;;;
  set_text voc_label "" ;;;
  set_text icon_label "".

Definition update_labels (co2 voc : Z) (is_high : bool) : Script unit :=
  let voc_is_high := VOC_THRESHOLD <=? voc in
  prev <- gets prev_values ;;
  when (differs (prev_is_high prev) is_high) (
    set_palette (if is_high then 0xFFFFFF else 0x000000) ;;;
    let new_color := if is_high then 0x000000 else 0xFFFFFF in
    for_each [co2_label; co2_value; voc_status; voc_label]
      (fun label_obj => set_color label_obj new_color) ;;;
    set_text icon_label (if negb is_high then ICON_OK else ICON_ALERT) ;;;
    set_color icon_label (if is_high then 0xFF0000 else 0x00FF00)
  ) ;;;
  prev <- gets prev_values ;;
  when (differs (prev_co2 prev) co2) (
    set_text co2_label ("CO2: " ++ (if is_high then "HIGH" else "good")) ;;;
    set_text co2_value (str co2)
  ) ;;;
  prev <- gets prev_values ;;
  when (differs (prev_voc prev) voc) (
    set_text voc_status "VOC:" ;;;
    set_color voc_status
      (if negb voc_is_high then COLOR_GREEN else COLOR_RED) ;;;
    set_text voc_label (str voc)
  ) ;;;
  set_led (if negb is_high && negb voc_is_high then false else true) ;;;
  modify (with_prev_values (Cache (Some co2) (Some voc) (Some is_high))).

Definition update : Script unit :=
  current_time <- time_monotonic ;;
  status <- check_warmup_status ;;
  try_except (
    if negb (warmed_up status) then
      last <- gets last_animation_time ;;
      when (Qge_bool (current_time - last) LOADING_INTERVAL) (
        frame <- gets animation_frame ;;
        update_spinner_animation
          (frame `mod` Z.of_nat (length SPINNER_CHARS)) ;;;
        modify (fun w => with_animation_frame (animation_frame w + 1) w) ;;;
        modify (with_last_animation_time current_time)
      )
    else
      co2 <- probe (fun w => eCO2 (sensor w)) ;;
      voc <- probe (fun w => TVOC (sensor w)) ;;
      let is_high := CO2_THRESHOLD <=? co2 in
      print ("CO2: " ++ str co2 ++ "ppm") ;;;
      print ("VOC: " ++ str voc ++ "ppb") ;;;
      update_labels co2 voc is_high ;;;
      update_baseline
  ) (fun e => emit (PrintExn "Error reading sensor: " e)).

Definition sleep (seconds : Q) : Script unit := emit (Sleep seconds).

(** One turn of [while True]; [s] is what the sensor answers and [f]
    how the storage medium behaves during this turn. *)
Definition iteration (s : sgp30) (f : write_fault) : Script unit :=
  modify (with_sensor s) ;;;
  modify (with_storage f) ;;;
  update ;;;
  prev <- gets prev_values ;;
  if bool_decide (prev_co2 prev = None)
  then sleep LOADING_PHASE_SLEEP
  else sleep UPDATE_INTERVAL.

(** The first [length turns] turns of [while True]. *)
Fixpoint main_loop (turns : list (sgp30 * write_fault)) : Script unit :=
  match turns with
  | [] => ret tt
  | (s, f) :: rest => iteration s f ;;; main_loop rest
  end.

(** The two [bitmap_font.load_font] calls inside their [try], whose
    handler prints the exception: whether the names [font] and [icons]
    are bound afterwards.  When the first call raises, the second one is
    not made. *)
Definition load_fonts (hw : setup) : Script (bool * bool) :=
  match load_font hw with
  | Some e => emit (PrintExn FONT_ERROR e) ;;; ret (false, false)
  | None =>
      match load_icons hw with
      | Some e => emit (PrintExn FONT_ERROR e) ;;; ret (true, false)
      | None => ret (true, true)
      end
  end.

(** The initialisation code between the function definitions and the
    loop; [hw] is what the devices answer to it.  The [sensor] object
    exists, and the display elements are the objects of [display0]; a
    label made with a font whose name is not bound raises
    [NameError]. *)
Definition initialization (hw : setup) : Script unit :=
  set_led false ;;;
  words <- lift (serial hw) ;;
  print ("Serial number: " ++ repr_str_list (map py_hex words)) ;;;
  call (set_iaq_relative_humidity hw) ;;;
  emit (SetIaqRelativeHumidity 22.1%Q 44%Q) ;;;
  initialize_baseline_tracking ;;;
  load_baseline ;;;
  print "Waiting for first measurement...." ;;;
  call (display_setup hw) ;;;
  bound <- load_fonts hw ;;
  set_palette 0x000000 ;;;
  when (negb (fst bound)) (raise (NameError "font")) ;;;
  when (negb (snd bound)) (raise (NameError "icons")) ;;;
  show_loading_screen.

(** The script from its initialisation code on. *)
Definition script (hw : setup) (turns : list (sgp30 * write_fault))
  : Script unit :=
  initialization hw ;;;
  main_loop turns.
End Clock.

Definition display0 : display widget :=
  {| palette0 := 0x000000;
     labels := fun wd =>
       match wd with
       | icon_label => Label "" 0x00FF00
       | _ => Label "" 0xFFFFFF
       end |}.

(** The state after the global variables are set: [last_animation_time]
    holds the first clock value. *)
Definition power_on (monotonic : nat -> Q) (s : sgp30) (file : file_state)
  : world :=
  {| clock_reads := 1;
     sensor := s;
     baseline_file := file;
     storage := NoFault;
     start_time := None;
     last_baseline_save := 0;
     animation_frame := 0;
     last_animation_time := monotonic 0%nat;
     prev_values := Cache None None None;
     screen := display0;
     led := false |}.

(** *** Vocabulary for the properties *)

(** The three states of the warm-up tracker, read off the two flags of
    the dictionary of [check_warmup_status]. *)
Inductive WarmupState := NotWarmedUp | Warmed | FullyCalibrated.

Definition warmup_state (s : status) : WarmupState :=
  if fully_calibrated s then FullyCalibrated
  else if warmed_up s then Warmed
  else NotWarmedUp.

(** The classification in the words of the specification: below the
    warm-up threshold, from it up to the calibration threshold, from the
    calibration threshold on. *)
Definition classify_spec (elapsed : Q) : WarmupState :=
  if Qge_bool elapsed CALIBRATION_TIME then FullyCalibrated
  else if Qge_bool elapsed WARMUP_TIME then Warmed
  else NotWarmedUp.

(** The assignments of [update_labels] in the branch for a changed
    [is_high]. *)
Definition flip_writes (is_high : bool) : list (event widget) :=
  [SetPalette (if is_high then COLOR_WHITE else COLOR_BLACK);
   SetColor co2_label (if is_high then COLOR_BLACK else COLOR_WHITE);
   SetColor co2_value (if is_high then COLOR_BLACK else COLOR_WHITE);
   SetColor voc_status (if is_high then COLOR_BLACK else COLOR_WHITE);
   SetColor voc_label (if is_high then COLOR_BLACK else COLOR_WHITE);
   SetText icon_label (if is_high then ICON_ALERT else ICON_OK);
   SetColor icon_label (if is_high then COLOR_RED else COLOR_GREEN)].

(** Its assignments in the branches for a changed [co2] and [voc]. *)
Definition co2_writes (co2 : Z) (is_high : bool) : list (event widget) :=
  [SetText co2_label ("CO2: " ++ (if is_high then "HIGH" else "good"));
   SetText co2_value (str co2)].

Definition voc_writes (voc : Z) : list (event widget) :=
  [SetText voc_status "VOC:";
   SetColor voc_status (if VOC_THRESHOLD <=? voc then COLOR_RED else COLOR_GREEN);
   SetText voc_label (str voc)].

(** The comparison with the cache under which [update_labels] makes an
    assignment.  The colour of [voc_status] is assigned in two branches. *)
Definition guard (prev : cache) (co2 voc : Z) (is_high : bool)
    (ev : event widget) : bool :=
  match ev with
  | SetColor voc_status _ =>
      differs (prev_is_high prev) is_high || differs (prev_voc prev) voc
  | SetPalette _ | SetColor _ _ | SetText icon_label _ =>
      differs (prev_is_high prev) is_high
  | SetText co2_label _ | SetText co2_value _ => differs (prev_co2 prev) co2
  | SetText voc_status _ | SetText voc_label _ => differs (prev_voc prev) voc
  | _ => true
  end.

(** The cache holds a reading as [update] builds it, and the display
    shows that reading in every element; nothing is said of the colour of
    [voc_status]. *)
Definition mirrors (c : cache) (d : display widget) : Prop :=
  match c with
  | Cache (Some co2) (Some voc) (Some is_high) =>
      let fg := if is_high then COLOR_BLACK else COLOR_WHITE in
      is_high = (CO2_THRESHOLD <=? co2) /\
      palette0 d = (if is_high then COLOR_WHITE else COLOR_BLACK) /\
      labels d co2_label =
        Label ("CO2: " ++ (if is_high then "HIGH" else "good")) fg /\
      labels d co2_value = Label (str co2) fg /\
      text (labels d voc_status) = "VOC:" /\
      labels d voc_label = Label (str voc) fg /\
      labels d icon_label =
        Label (if is_high then ICON_ALERT else ICON_OK)
              (if is_high then COLOR_RED else COLOR_GREEN)
  | _ => False
  end.

Definition no_reading : cache := Cache None None None.

End SGP30.

(** ** Scenarios

    Concrete clocks, devices and states on which the properties below are
    exercised. *)
Module Scenario.

(** A clock whose [k]-th reading is [start + step * k] seconds. *)
Definition ticking (start step : Q) (k : nat) : Q :=
  (start + step * inject_Z (Z.of_nat k))%Q.

(** A clock that always reads [t]. *)
Definition stopped (t : Q) (k : nat) : Q := t.

(** An SCD40 with a sample ready: [co2] ppm at 21.5 degrees Celsius (70 F
    after conversion and truncation) and 40.2 % relative humidity. *)
Definition room (co2 : Z) : SCD40.sensor :=
  SCD40.Sensor (inr true) (inr co2) (inr 21.5%float) (inr 40.2%float).

(** The SCD40 script entering its loop, then after rendering 800 ppm, and
    after rendering 1200 ppm next. *)
Definition scd40_loading : SCD40.world :=
  SCD40.startup (ticking 0 1) (room 800).

Definition scd40_shows_800 : SCD40.world :=
  final (SCD40.update_labels 800 70 40 false scd40_loading).

Definition scd40_shows_1200 : SCD40.world :=
  final (SCD40.update_labels 1200 70 40 true scd40_shows_800).

(** An SGP30 that answers [co2] and [voc], reports the baseline
    (35000, 36000) and accepts every baseline. *)
Definition air (co2 voc : Z) : SGP30.sgp30 :=
  SGP30.Sgp30 (inr co2) (inr voc) (inr 35000) (inr 36000) (fun _ _ => None).

(** A board on which the initialisation code of the SGP30 script meets
    no failure. *)
Definition board : SGP30.setup :=
  SGP30.Setup (inr [0; 434; 51966]) None None None None.

(** The SGP30 script entering its loop with no baseline file. *)
Definition sgp30_loading : SGP30.world :=
  final (SGP30.initialization (ticking 0 1) board
           (SGP30.power_on (ticking 0 1) (air 800 100) SGP30.Missing)).

Definition sgp30_shows_800_100 : SGP30.world :=
  final (SGP30.update_labels 800 100 false sgp30_loading).

(** The reading (1200, 100) rendered after (800, 100), and rendered as the
    first reading. *)
Definition sgp30_1200_after_800 : SGP30.world :=
  final (SGP30.update_labels 1200 100 true sgp30_shows_800_100).

Definition sgp30_1200_at_once : SGP30.world :=
  final (SGP30.update_labels 1200 100 true sgp30_loading).

(** A state of the SGP30 script whose [start_time] is 0. *)
Definition started_at_0 : SGP30.world :=
  SGP30.with_start_time (Some 0%Q) sgp30_loading.

(** The same with a medium mounted read-only. *)
Definition read_only : SGP30.world :=
  SGP30.with_storage (SGP30.OpenFails 30) started_at_0.

(** A turn of the loop made 50000 s after the start, when the sensor
    answers (1200, 100) and the medium is mounted read-only, and the turn
    after it, in which the sensor answers (900, 100). *)
Definition read_only_turn : result SGP30.world (event SGP30.widget) unit :=
  SGP30.iteration (stopped 50000) (air 1200 100) (SGP30.OpenFails 30)
    started_at_0.

Definition turn_after_read_only
  : result SGP30.world (event SGP30.widget) unit :=
  SGP30.iteration (stopped 50000) (air 900 100) (SGP30.OpenFails 30)
    (final read_only_turn).

(** The SGP30 script started 4000 s after the board (a reload does not
    reset [time.monotonic()]), each clock reading 2 s after the one
    before, run for five turns with no baseline file. *)
Definition five_turns : result SGP30.world (event SGP30.widget) unit :=
  SGP30.script (ticking 4000 2) board
    (repeat (air 800 100, SGP30.NoFault) 5)
    (SGP30.power_on (ticking 4000 2) (air 800 100) SGP30.Missing).

(** The SGP30 script on a board whose clock readings are 20000 s apart,
    run for two turns with no baseline file. *)
Definition two_saves : result SGP30.world (event SGP30.widget) unit :=
  SGP30.script (ticking 0 20000) board
    (repeat (air 800 100, SGP30.NoFault) 2)
    (SGP30.power_on (ticking 0 20000) (air 800 100) SGP30.Missing).

(** The SGP30 script started on a baseline file whose text is not JSON. *)
Definition boot_on_broken_file : result SGP30.world (event SGP30.widget) unit :=
  SGP30.script (ticking 0 1) board
    (repeat (air 800 100, SGP30.NoFault) 3)
    (SGP30.power_on (ticking 0 1) (air 800 100) (SGP30.Holds SGP30.NotJSON)).

End Scenario.


(** ** Scenarios with faults *)
Module FaultScenario.

(** A state of the SGP30 script, started at 0, whose baseline file holds
    the JSON object with the one key [eCO2]. *)
Definition one_key_file : SGP30.world :=
  SGP30.with_baseline_file
    (SGP30.Holds (SGP30.JSON (JObj (<["eCO2" := JInt 35000]> ∅))))
    Scenario.started_at_0.

(** A state whose file holds the baseline (35000, 36000). *)
Definition saved_file : SGP30.world :=
  SGP30.with_baseline_file
    (SGP30.Holds (SGP30.JSON (SGP30.baseline_dict 35000 36000)))
    Scenario.started_at_0.

(** An SGP30 whose bus fails with errno 5 when a baseline is set. *)
Definition deaf_air : SGP30.sgp30 :=
  SGP30.Sgp30 (inr 800) (inr 100) (inr 35000) (inr 36000)
    (fun _ _ => Some (OSError 5)).

(** The saved baseline, with that sensor. *)
Definition deaf_with_file : SGP30.world :=
  SGP30.with_sensor deaf_air saved_file.

(** A state, started at 0, whose medium fails with errno 28 once the file
    has been opened for writing. *)
Definition disk_full : SGP30.world :=
  SGP30.with_storage (SGP30.DumpFails 28) Scenario.started_at_0.

(** An SGP30 whose baseline cannot be read: reading [baseline_eCO2]
    raises [e]. *)
Definition mute_air (e : exn) : SGP30.sgp30 :=
  SGP30.Sgp30 (inr 800) (inr 100) (inl e) (inr 36000) (fun _ _ => None).

(** An SCD40 with a sample whose humidity cannot be read. *)
Definition half_dead : SCD40.sensor :=
  SCD40.Sensor (inr true) (inr 800) (inr 21.5%float) (inl (OSError 5)).

(** An SGP30 whose eCO2 value cannot be read. *)
Definition no_eco2 : SGP30.sgp30 :=
  SGP30.Sgp30 (inl (OSError 5)) (inr 100) (inr 35000) (inr 36000)
    (fun _ _ => None).

(** An SCD40 with a sample at 21.11111111111111 degrees Celsius and
    40.2 % relative humidity. *)
Definition warm_room : SCD40.sensor :=
  SCD40.Sensor (inr true) (inr 800) (inr 21.11111111111111%float)
    (inr 40.2%float).

(** A board like [Scenario.board] on which the file of the icon font
    cannot be opened. *)
Definition no_icon_font : SGP30.setup :=
  SGP30.Setup (inr [0; 434; 51966]) None None None (Some (OSError 2)).

(** An SCD40 that has no sample yet. *)
Definition not_ready : SCD40.sensor :=
  SCD40.Sensor (inr false) (inr 0) (inr 0%float) (inr 0%float).

(** The SCD40 script entering its loop while the sensor has no sample. *)
Definition scd40_waiting : SCD40.world :=
  SCD40.startup (Scenario.ticking 0 1) not_ready.

End FaultScenario.

(** * Properties *)

(** ** Comparisons and the monad *)

Lemma Qgt_bool_lt (a b : Q) : Qgt_bool a b = true <-> (b < a)%Q.
Proof.
  unfold Qgt_bool. rewrite negb_true_iff, <- not_true_iff_false, Qle_bool_iff.
  split; [apply Qnot_le_lt | apply Qlt_not_le].
Qed.

Lemma Qgt_bool_le (a b : Q) : Qgt_bool a b = false <-> (a <= b)%Q.
Proof. unfold Qgt_bool. rewrite negb_false_iff. apply Qle_bool_iff. Qed.

Lemma differs_false {A} `{EqDecision A} (old : option A) (new : A) :
  differs old new = false <-> old = Some new.
Proof.
  unfold differs. rewrite negb_false_iff. apply bool_decide_eq_true.
Qed.

Lemma differs_same {A} `{EqDecision A} (x : A) : differs (Some x) x = false.
Proof. by apply differs_false. Qed.

Section MonadFacts.
Context {W E : Type}.
Implicit Types (w : W) (evs : list E).

(** A computation followed by another: the effects are those of the
    first, then those of the second if the first did not raise. *)
Lemma bind_inr {A B} (m : M W E A) (k : A -> M W E B) w a w1 evs :
  m w = Result (inr a) w1 evs ->
  bind m k w =
    Result (outcome (k a w1)) (final (k a w1)) (evs ++ emitted (k a w1)).
Proof. intros Hm. unfold bind. rewrite Hm. by destruct (k a w1). Qed.

Lemma bind_inl {A B} (m : M W E A) (k : A -> M W E B) w e w1 evs :
  m w = Result (inl e) w1 evs -> bind m k w = Result (inl e) w1 evs.
Proof. intros Hm. unfold bind. by rewrite Hm. Qed.

End MonadFacts.

(** ** Reading the effects *)

Lemma sleeps_app {widget} (a b : list (event widget)) :
  sleeps (a ++ b) = (sleeps a ++ sleeps b)%list.
Proof.
  induction a as [|ev a IH]; [done|].
  destruct ev; cbn; by rewrite IH.
Qed.

Lemma write_times_app {widget} (a b : list (event widget)) :
  write_times (a ++ b) = (write_times a ++ write_times b)%list.
Proof.
  induction a as [|ev a IH]; [done|].
  destruct ev; cbn; by rewrite IH.
Qed.

(** ** The SCD40 script *)
Module SCD40_Props.
Import SCD40.

#[local] Arguments str : simpl never.

(** The effects and the final state of [update_labels], branch by
    branch. *)
Lemma scd40_update_labels_run co2 temp humidity is_high w :
  let prev := prev_values w in
  let evs :=
    ((if differs (prev_is_high prev) is_high then flip_writes is_high else [])
     ++ (if differs (prev_co2 prev) co2 then co2_writes co2 is_high else [])
     ++ (if differs (prev_temp prev) temp then temp_writes temp else [])
     ++ (if differs (prev_humidity prev) humidity
         then humidity_writes humidity else []))%list in
  update_labels co2 temp humidity is_high w =
    Result (inr tt)
      (with_prev_values
         (Cache (Some co2) (Some temp) (Some humidity) (Some is_high))
         (with_screen (foldl apply_write (screen w) evs) w))
      evs.
Proof.
  destruct w as [n sn pv af lat [p ls]]. cbn [prev_values].
  unfold update_labels.
  destruct (differs (prev_is_high pv) is_high) eqn:E1,
           (differs (prev_co2 pv) co2) eqn:E2,
           (differs (prev_temp pv) temp) eqn:E3,
           (differs (prev_humidity pv) humidity) eqn:E4.
  all: repeat (cbn; rewrite ?E1, ?E2, ?E3, ?E4).
  all: by destruct is_high.
Qed.

Lemma scd40_update_labels_guarded co2 temp humidity is_high w :
  Forall (fun ev => guard (prev_values w) co2 temp humidity is_high ev = true)
         (emitted (update_labels co2 temp humidity is_high w)).
Proof.
  rewrite scd40_update_labels_run. cbn [emitted].
  rewrite !Forall_app.
  unfold flip_writes, co2_writes, temp_writes, humidity_writes.
  repeat split; case_match; repeat constructor; done.
Qed.

Lemma scd40_update_labels_mirrors co2 temp humidity w :
  let r := update_labels co2 temp humidity (CO2_THRESHOLD <=? co2) w in
  prev_values w = no_reading \/ mirrors (prev_values w) (screen w) ->
  mirrors (prev_values (final r)) (screen (final r)).
Proof.
  intros r Hw. subst r. rewrite scd40_update_labels_run. cbn [final].
  destruct w as [n sn pv af lat [p ls]].
  cbn [prev_values screen with_prev_values with_screen] in *.
  destruct Hw as [-> | Hm].
  - cbn. by destruct (CO2_THRESHOLD <=? co2).
  - destruct pv as [[c0|] [t0|] [h0|] [hi0|]]; try done.
    cbn in Hm. destruct Hm as (-> & Hp & H1 & H2 & H3 & H4 & H5).
    cbn [prev_co2 prev_temp prev_humidity prev_is_high].
    destruct (differs (Some c0) co2) eqn:E2;
      [destruct (differs (Some (CO2_THRESHOLD <=? c0)) (CO2_THRESHOLD <=? co2))
         eqn:E1; [|apply differs_false in E1 as [= E1']; rewrite E1' in *]
      |apply differs_false in E2 as [= ->]; rewrite differs_same].
    all: destruct (differs (Some t0) temp) eqn:E3;
      [|apply differs_false in E3 as [= ->]].
    all: destruct (differs (Some h0) humidity) eqn:E4;
      [|apply differs_false in E4 as [= ->]].
    all: cbn; rewrite ?H1, ?H2, ?H3, ?H4, ?H5; cbn [color text]; subst p.
    all: destruct (CO2_THRESHOLD <=? co2); repeat split; reflexivity.
Qed.
#[local] Arguments update_labels : simpl never.

Lemma scd40_update_labels_sleeps co2 temp humidity is_high w :
  sleeps (emitted (update_labels co2 temp humidity is_high w)) = [].
Proof.
  rewrite scd40_update_labels_run. cbn [emitted]. rewrite !sleeps_app.
  by repeat case_match.
Qed.

(** Running a script as far as its inputs are known. *)
Ltac run_scd40 :=
  cbv beta iota zeta delta
    -[update_labels str hex int_of_float PrimFloat.mul PrimFloat.div
      PrimFloat.add Qge_bool Qgt_bool Qplus Qminus Qmult
      Qdiv Z.modulo Z.leb Z.add Z.of_nat String.append differs
      py_index sleeps LOADING_INTERVAL CO2_THRESHOLD].

Section Clock.
Variable monotonic : nat -> Q.

(** [update] always returns: what goes wrong while reading the sensor is
    reported on the console.  It never sleeps, and it leaves the cache as
    it is or stores the reading the sensor delivered. *)
Lemma scd40_update_run w :
  exists w' evs,
    update monotonic w = Result (inr tt) w' evs /\
    sleeps evs = [] /\
    (prev_values w' = prev_values w \/
     exists co2 t h temp humidity,
       data_ready (scd4x w) = inr true /\ CO2 (scd4x w) = inr co2 /\
       temperature (scd4x w) = inr t /\ relative_humidity (scd4x w) = inr h /\
       int_of_float (t * (9 / 5) + 32)%float = inr temp /\
       int_of_float h = inr humidity /\
       prev_values w' =
         Cache (Some co2) (Some temp) (Some humidity)
               (Some (CO2_THRESHOLD <=? co2))).
Proof.
  destruct w as [n [dr c t h] [pc pt ph phi] af lat sc].
  destruct dr as [e|[|]].
  - run_scd40. eauto 10.
  - destruct c as [e|c]; [run_scd40; eauto 10|].
    destruct t as [e|t]; [run_scd40; eauto 10|].
    run_scd40.
    destruct (int_of_float (t * (9 / 5) + 32)%float) as [e|temp] eqn:Htemp;
      [run_scd40; eauto 10|].
    destruct h as [e|h]; [run_scd40; eauto 10|].
    run_scd40.
    destruct (int_of_float h) as [e|humidity] eqn:Hhum;
      [run_scd40; eauto 10|].
    run_scd40.
    match goal with |- context [update_labels ?a ?b ?c ?d ?w] =>
      pose proof (scd40_update_labels_sleeps a b c d w) as Hs;
      rewrite (scd40_update_labels_run a b c d w) in Hs |- * end.
    cbn in Hs |- *. do 2 eexists. split; [reflexivity|]. split; [exact Hs|].
    right. exists c, t, h, temp, humidity. by repeat split.
  - run_scd40.
    destruct pc as [c0|]; run_scd40; [eauto 10|].
    destruct (Qge_bool _ _); run_scd40; [|eauto 10].
    destruct (py_index _ _) as [ch|]; run_scd40; eauto 10.
Qed.

Ltac run_scd40_loop :=
  cbv beta iota zeta delta
    -[update str hex int_of_float Qge_bool Qgt_bool Qplus Qminus Qmult
      Qdiv Z.modulo Z.leb Z.add Z.of_nat String.append differs app
      py_index sleeps LOADING_INTERVAL CO2_THRESHOLD LOADING_PHASE_SLEEP
      UPDATE_INTERVAL].

(** One turn of the loop: [update], then the sleep chosen by the cache. *)
Lemma scd40_iteration_run s w :
  exists w' evs,
    iteration monotonic s w =
      Result (inr tt) w'
        (evs ++ [Sleep (if prev_co2 (prev_values w') is Some _
                        then UPDATE_INTERVAL else LOADING_PHASE_SLEEP)]) /\
    sleeps evs = [] /\
    (prev_co2 (prev_values w) <> None -> prev_co2 (prev_values w') <> None).
Proof.
  destruct (scd40_update_run (with_scd4x s w)) as (w' & evs & Hupd & Hsl & Hpv).
  exists w', evs.
  destruct w as [n sn pv af lat sc],
           w' as [n' sn' [pc' pt' ph' phi'] af' lat' sc'].
  revert Hupd; run_scd40_loop; intros Hupd. rewrite Hupd.
  cbn in Hpv. split; [|split; [done|]].
  - by destruct pc'.
  - destruct Hpv
      as [<-|(? & ? & ? & ? & ? & _ & _ & _ & _ & _ & _ & [= -> _ _ _])];
      done.
Qed.

(** The sleeps of a run_scd40 of the loop: fast ones while the cache is empty,
    then slow ones only. *)
Lemma scd40_main_loop_run answers : forall w,
  exists w' evs k,
    main_loop monotonic answers w = Result (inr tt) w' evs /\
    (k <= length answers)%nat /\
    sleeps evs =
      (repeat LOADING_PHASE_SLEEP k
       ++ repeat UPDATE_INTERVAL (length answers - k))%list /\
    (prev_co2 (prev_values w) <> None ->
     k = 0%nat /\ prev_co2 (prev_values w') <> None).
Proof.
  induction answers as [|s rest IH]; intros w.
  - exists w, [], 0%nat. by repeat split.
  - destruct (scd40_iteration_run s w) as (w1 & evs1 & Hit & Hsl & Hpv).
    destruct (IH w1) as (w' & evs & k & Hrun & Hk & Hsleeps & Hsteady).
    cbn [main_loop]. rewrite (bind_inr _ _ _ _ _ _ Hit), Hrun. cbn [outcome final emitted].
    destruct (prev_co2 (prev_values w1)) as [c|] eqn:Hc.
    + destruct Hsteady as [-> Hw']; [done|].
      exists w', ((evs1 ++ [Sleep UPDATE_INTERVAL]) ++ evs)%list, 0%nat.
      split; [done|]. split; [lia|]. split; [|done].
      rewrite !sleeps_app, Hsl, Hsleeps. cbn. by rewrite Nat.sub_0_r.
    + exists w', ((evs1 ++ [Sleep LOADING_PHASE_SLEEP]) ++ evs)%list, (S k).
      split; [done|]. split; [cbn; lia|]. split.
      * rewrite !sleeps_app, Hsl, Hsleeps. done.
      * intros Hw. by apply Hpv in Hw.
Qed.

End Clock.
End SCD40_Props.

(** ** The SGP30 script *)
Module SGP30_Props.
Import SGP30.

#[local] Arguments str : simpl never.

Lemma sgp30_update_labels_run co2 voc is_high w :
  let prev := prev_values w in
  let evs :=
    ((if differs (prev_is_high prev) is_high then flip_writes is_high else [])
     ++ (if differs (prev_co2 prev) co2 then co2_writes co2 is_high else [])
     ++ (if differs (prev_voc prev) voc then voc_writes voc else []))%list in
  let lit := is_high || (VOC_THRESHOLD <=? voc) in
  update_labels co2 voc is_high w =
    Result (inr tt)
      (with_prev_values (Cache (Some co2) (Some voc) (Some is_high))
         (with_led lit (with_screen (foldl apply_write (screen w) evs) w)))
      (evs ++ [SetLed lit]).
Proof.
  destruct w as [n sn bf sto st lbs af lat pv [p ls] ld]. cbn [prev_values].
  unfold update_labels.
  destruct (differs (prev_is_high pv) is_high) eqn:E1,
           (differs (prev_co2 pv) co2) eqn:E2,
           (differs (prev_voc pv) voc) eqn:E3.
  all: repeat (cbn; rewrite ?E1, ?E2, ?E3).
  all: by destruct is_high, (VOC_THRESHOLD <=? voc).
Qed.

Lemma sgp30_update_labels_guarded co2 voc is_high w :
  Forall (fun ev => guard (prev_values w) co2 voc is_high ev = true)
         (emitted (update_labels co2 voc is_high w)).
Proof.
  rewrite sgp30_update_labels_run. cbn [emitted].
  rewrite !Forall_app.
  unfold flip_writes, co2_writes, voc_writes.
  repeat split; try case_match.
  all: repeat constructor.
  all: cbn; rewrite ?H, ?orb_true_r; done.
Qed.

Lemma sgp30_update_labels_mirrors co2 voc w :
  let r := update_labels co2 voc (CO2_THRESHOLD <=? co2) w in
  prev_values w = no_reading \/ mirrors (prev_values w) (screen w) ->
  mirrors (prev_values (final r)) (screen (final r)).
Proof.
  intros r Hw. subst r. rewrite sgp30_update_labels_run. cbn [final].
  destruct w as [n sn bf sto st lbs af lat pv [p ls] ld].
  cbn [prev_values screen with_prev_values with_screen with_led] in *.
  destruct Hw as [-> | Hm].
  - cbn. by destruct (CO2_THRESHOLD <=? co2).
  - destruct pv as [[c0|] [v0|] [hi0|]]; try done.
    cbn in Hm. destruct Hm as (-> & Hp & H1 & H2 & H3 & H4 & H5).
    cbn [prev_co2 prev_voc prev_is_high].
    destruct (differs (Some c0) co2) eqn:E2;
      [destruct (differs (Some (CO2_THRESHOLD <=? c0)) (CO2_THRESHOLD <=? co2))
         eqn:E1; [|apply differs_false in E1 as [= E1']; rewrite E1' in *]
      |apply differs_false in E2 as [= ->]; rewrite differs_same].
    all: destruct (differs (Some v0) voc) eqn:E3;
      [|apply differs_false in E3 as [= ->]].
    all: cbn; rewrite ?H1, ?H2, ?H3, ?H4, ?H5; cbn [color text]; subst p.
    all: destruct (CO2_THRESHOLD <=? co2); repeat split; reflexivity.
Qed.

Ltac run_sgp30 :=
  cbv beta iota zeta delta
    -[update_labels update_baseline baseline_dict str hex int_of_float Qge_bool Qgt_bool Qplus Qminus Qmult
      Qdiv Qlt Qle Z.modulo Z.leb Z.eqb Z.add Z.of_nat String.append differs
      py_index sleeps write_times app LOADING_INTERVAL CO2_THRESHOLD VOC_THRESHOLD
      WARMUP_TIME CALIBRATION_TIME BASELINE_SAVE_INTERVAL].

Section Clock.
Variable monotonic : nat -> Q.

Lemma sgp30_update_baseline_spec w :
  let r := update_baseline monotonic w in
  let n := clock_reads w in
  prev_values (final r) = prev_values w /\
  screen (final r) = screen w /\
  led (final r) = led w /\
  start_time (final r) = start_time w /\
  sleeps (emitted r) = [] /\
  ((write_times (emitted r) = [] /\
    last_baseline_save (final r) = last_baseline_save w) \/
   (write_times (emitted r) = [monotonic (S n)] /\
    last_baseline_save (final r) = monotonic (S n) /\
    (BASELINE_SAVE_INTERVAL < monotonic n - last_baseline_save w)%Q)).
Proof.
  destruct w as [n [ec tv bec btv sib] bf sto st lbs af lat pv sc ld].
  unfold update_baseline. run_sgp30.
  destruct (Qgt_bool (monotonic n - lbs) _) eqn:Hgap; run_sgp30; [|by auto 10].
  apply Qgt_bool_lt in Hgap.
  destruct st as [t0|]; run_sgp30; [|by auto 10].
  do 2 (destruct (Qgt_bool _ _); run_sgp30; [|by auto 10]).
  destruct bec as [e|e]; run_sgp30.
  { destruct e; run_sgp30; try (by auto 10). destruct (Z.eqb _ _); run_sgp30; by auto 10. }
  destruct btv as [e'|t]; run_sgp30.
  { destruct e'; run_sgp30; try (by auto 10). destruct (Z.eqb _ _); run_sgp30; by auto 10. }
  destruct sto as [|errno|errno]; run_sgp30.
  - repeat split; try done. right. done.
  - destruct (Z.eqb _ _); run_sgp30; by auto 10.
  - destruct (Z.eqb _ _); run_sgp30; by auto 10.
Qed.


Lemma sgp30_update_labels_quiet co2 voc is_high w :
  let r := update_labels co2 voc is_high w in
  sleeps (emitted r) = [] /\ write_times (emitted r) = [].
Proof.
  cbv zeta. rewrite sgp30_update_labels_run. cbn [emitted].
  rewrite !sleeps_app, !write_times_app.
  by repeat case_match.
Qed.

(** With [start_time] set, [update] always returns and never sleeps; it
    leaves the cache as it is or stores the reading of the sensor; it
    rewrites the baseline file at most once, and then more than
    [BASELINE_SAVE_INTERVAL] after [last_baseline_save], which it sets to
    the time of the rewrite. *)
Lemma sgp30_update_run w t0 :
  start_time w = Some t0 ->
  exists w' evs,
    update monotonic w = Result (inr tt) w' evs /\
    sleeps evs = [] /\
    start_time w' = Some t0 /\
    (prev_values w' = prev_values w \/
     exists co2 voc,
       eCO2 (sensor w) = inr co2 /\ TVOC (sensor w) = inr voc /\
       prev_values w' =
         Cache (Some co2) (Some voc) (Some (CO2_THRESHOLD <=? co2))) /\
    ((write_times evs = [] /\
      last_baseline_save w' = last_baseline_save w) \/
     (exists i j, (i <= j)%nat /\
        write_times evs = [monotonic j] /\
        last_baseline_save w' = monotonic j /\
        (BASELINE_SAVE_INTERVAL < monotonic i - last_baseline_save w)%Q)).
Proof.
  destruct w as [n [ec tv bec btv sib] bf sto st lbs af lat pv sc ld].
  cbn [start_time]. intros ->. run_sgp30.
  destruct (Qgt_bool _ WARMUP_TIME); run_sgp30.
  - destruct ec as [e|co2]; run_sgp30; [eauto 15|].
    destruct tv as [e|voc]; run_sgp30; [eauto 15|].
    match goal with |- context [update_labels ?a ?b ?c ?w] =>
      destruct (sgp30_update_labels_quiet a b c w) as [Hs Hw];
      rewrite (sgp30_update_labels_run a b c w) in Hs, Hw |- * end.
    cbn [emitted] in Hs, Hw.
    match type of Hs with sleeps ?l = _ => set (L := l) in *; clearbody L end.
    run_sgp30.
    match goal with |- context [update_baseline monotonic ?w] =>
      pose proof (sgp30_update_baseline_spec w) as Hub;
      destruct (update_baseline monotonic w)
        as [o [n2 sn2 bf2 sto2 st2 lbs2 af2 lat2 pv2 sc2 ld2] ev2] end.
    cbn in Hub. destruct Hub as (-> & -> & -> & -> & Hsl & Hwr).
    assert (Hcases :
      (write_times ev2 = [] /\ lbs2 = lbs) \/
      (exists i j, (i <= j)%nat /\ write_times ev2 = [monotonic j] /\
         lbs2 = monotonic j /\
         (BASELINE_SAVE_INTERVAL < monotonic i - lbs)%Q)).
    { destruct Hwr as [?|(? & ? & ?)]; [by left|right].
      exists (S (S n)), (S (S (S n))). repeat split; auto. }
    destruct o as [e|[]]; run_sgp30.
    all: do 2 eexists; split; [reflexivity|].
    all: rewrite ?sleeps_app, ?write_times_app.
    all: rewrite Hs, Hw, Hsl; cbn [sleeps write_times app].
    all: rewrite ?app_nil_r.
    all: split; [done|]; split; [done|]; split; [right; eauto|].
    all: exact Hcases.
  - destruct (Qge_bool _ _); run_sgp30; [|eauto 15].
    destruct (py_index _ _) as [ch|]; run_sgp30; eauto 15.
Qed.


Ltac run_sgp30_loop :=
  cbv beta iota zeta delta
    -[update str hex int_of_float Qge_bool Qgt_bool Qplus Qminus Qmult
      Qdiv Qlt Qle Z.modulo Z.leb Z.eqb Z.add Z.of_nat String.append differs
      app py_index sleeps write_times LOADING_INTERVAL CO2_THRESHOLD
      VOC_THRESHOLD WARMUP_TIME CALIBRATION_TIME BASELINE_SAVE_INTERVAL
      LOADING_PHASE_SLEEP UPDATE_INTERVAL].

(** One turn of the loop: [update], then the sleep chosen by the cache. *)
Lemma sgp30_iteration_of_update s f w w' evs :
  update monotonic (with_storage f (with_sensor s w)) = Result (inr tt) w' evs ->
  iteration monotonic s f w =
    Result (inr tt) w'
      (evs ++ [Sleep (if prev_co2 (prev_values w') is Some _
                      then UPDATE_INTERVAL else LOADING_PHASE_SLEEP)]).
Proof.
  destruct w as [n sn bf sto st lbs af lat pv sc ld],
           w' as [n' sn' bf' sto' st' lbs' af' lat' [pc' pv' phi'] sc' ld'].
  run_sgp30_loop; intros Hupd. rewrite Hupd. by destruct pc'.
Qed.

Lemma sgp30_iteration_run s f w t0 :
  start_time w = Some t0 ->
  exists w' evs,
    iteration monotonic s f w =
      Result (inr tt) w'
        (evs ++ [Sleep (if prev_co2 (prev_values w') is Some _
                        then UPDATE_INTERVAL else LOADING_PHASE_SLEEP)]) /\
    sleeps evs = [] /\
    start_time w' = Some t0 /\
    (prev_co2 (prev_values w) <> None -> prev_co2 (prev_values w') <> None) /\
    ((write_times evs = [] /\
      last_baseline_save w' = last_baseline_save w) \/
     (exists i j, (i <= j)%nat /\
        write_times evs = [monotonic j] /\
        last_baseline_save w' = monotonic j /\
        (BASELINE_SAVE_INTERVAL < monotonic i - last_baseline_save w)%Q)).
Proof.
  intros Hst.
  destruct (sgp30_update_run (with_storage f (with_sensor s w)) t0)
    as (w' & evs & Hupd & Hsl & Hst' & Hpv & Hwr).
  { by destruct w. }
  exists w', evs.
  destruct w as [n sn bf sto st lbs af lat pv sc ld],
           w' as [n' sn' bf' sto' st' lbs' af' lat' [pc' pv' phi'] sc' ld'].
  revert Hupd; run_sgp30_loop; intros Hupd. rewrite Hupd.
  cbn in Hpv, Hwr, Hst'. split; [|split; [done|split; [done|split; [|done]]]].
  - by destruct pc'.
  - destruct Hpv as [<-|(? & ? & _ & _ & [= -> _ _])]; done.
Qed.

(** A run_sgp30 of the loop from a state with [start_time] set: every turn is
    completed; the sleeps are fast ones while the cache is empty, then
    slow ones only; under a monotone clock the rewrites of the baseline
    file are more than [BASELINE_SAVE_INTERVAL] apart. *)
Lemma sgp30_main_loop_run turns : forall w t0,
  start_time w = Some t0 ->
  exists w' evs k,
    main_loop monotonic turns w = Result (inr tt) w' evs /\
    (k <= length turns)%nat /\
    sleeps evs =
      (repeat LOADING_PHASE_SLEEP k
       ++ repeat UPDATE_INTERVAL (length turns - k))%list /\
    (prev_co2 (prev_values w) <> None ->
     k = 0%nat /\ prev_co2 (prev_values w') <> None) /\
    ((forall i j, (i <= j)%nat -> (monotonic i <= monotonic j)%Q) ->
     spaced BASELINE_SAVE_INTERVAL (last_baseline_save w) (write_times evs)).
Proof.
  induction turns as [|[s f] rest IH]; intros w t0 Hst.
  - exists w, [], 0%nat. by repeat split.
  - destruct (sgp30_iteration_run s f w t0 Hst)
      as (w1 & evs1 & Hit & Hsl & Hst1 & Hpv & Hwr).
    destruct (IH w1 t0 Hst1)
      as (w' & evs & k & Hrun & Hk & Hsleeps & Hsteady & Hspaced).
    cbn [main_loop]. rewrite (bind_inr _ _ _ _ _ _ Hit), Hrun.
    cbn [outcome final emitted].
    assert (Hsp : (forall i j, (i <= j)%nat -> (monotonic i <= monotonic j)%Q) ->
      forall d, spaced BASELINE_SAVE_INTERVAL (last_baseline_save w)
        (write_times ((evs1 ++ [Sleep d]) ++ evs))).
    { intros Hmono d. specialize (Hspaced Hmono).
      rewrite !write_times_app. cbn [write_times]. rewrite app_nil_r.
      destruct Hwr as [[-> <-]|(i & j & Hij & -> & Hlast & Hgap)]; [done|].
      cbn. rewrite Hlast in Hspaced. split; [|done].
      specialize (Hmono i j Hij). lra. }
    destruct (prev_co2 (prev_values w1)) as [c|] eqn:Hc.
    + destruct Hsteady as [-> Hw']; [done|].
      exists w', ((evs1 ++ [Sleep UPDATE_INTERVAL]) ++ evs)%list, 0%nat.
      split; [done|]. split; [lia|]. split; [|split; [done|by auto]].
      rewrite !sleeps_app, Hsl, Hsleeps. cbn. by rewrite Nat.sub_0_r.
    + exists w', ((evs1 ++ [Sleep LOADING_PHASE_SLEEP]) ++ evs)%list, (S k).
      split; [done|]. split; [cbn; lia|]. split; [|split; [|by auto]].
      * rewrite !sleeps_app, Hsl, Hsleeps. done.
      * intros Hw. by apply Hpv in Hw.
Qed.

End Clock.
End SGP30_Props.

Module SGP30_Store.
Import SGP30 SGP30_Props.

Ltac run_load :=
  cbv beta iota zeta delta
    -[subscript format_x String.append app hex str is_OSError is_KeyError orb].

Section Clock.
Variable monotonic : nat -> Q.

(** [check_warmup_status] with [start_time] set: one clock read, and the
    flags are the two strict comparisons of the elapsed time. *)
Lemma sgp30_check_warmup_status_run w t0 :
  start_time w = Some t0 ->
  let e := (monotonic (clock_reads w) - t0)%Q in
  check_warmup_status monotonic w =
    Result (inr (Status (Qgt_bool e WARMUP_TIME) (Qgt_bool e CALIBRATION_TIME) e))
           (with_clock_reads (S (clock_reads w)) w) [].
Proof.
  destruct w as [n sn bf sto st lbs af lat pv sc ld].
  cbn [start_time]. intros ->. reflexivity.
Qed.

(** Before the calibration time has passed [save_baseline] only reads the
    clock. *)
Lemma sgp30_save_baseline_early w t0 :
  start_time w = Some t0 ->
  (monotonic (clock_reads w) - t0 <= CALIBRATION_TIME)%Q ->
  save_baseline monotonic w =
    Result (inr tt) (with_clock_reads (S (clock_reads w)) w) [].
Proof.
  destruct w as [n sn bf sto st lbs af lat pv sc ld].
  cbn [start_time clock_reads]. intros -> He.
  apply Qgt_bool_le in He.
  unfold save_baseline. run_sgp30. rewrite He. reflexivity.
Qed.

(** Past the calibration time, with the sensor delivering its baseline. *)
Lemma sgp30_save_baseline_late w t0 e t :
  start_time w = Some t0 ->
  (CALIBRATION_TIME < monotonic (clock_reads w) - t0)%Q ->
  baseline_eCO2 (sensor w) = inr e ->
  baseline_TVOC (sensor w) = inr t ->
  let now := monotonic (clock_reads w) in
  let w1 := with_clock_reads (S (clock_reads w)) w in
  save_baseline monotonic w =
    match storage w with
    | NoFault =>
        Result (inr tt)
          (with_last_baseline_save now
             (with_baseline_file (Holds (JSON (baseline_dict e t))) w1))
          [BaselineWritten now e t; Print "Saved new baseline values"]
    | OpenFails errno =>
        Result (inr tt) w1
          [if errno =? 30
           then Print "Could not save baseline - filesystem is read-only"
           else PrintExn "Error saving baseline: " (OSError errno)]
    | DumpFails errno =>
        Result (inr tt) (with_baseline_file (Holds NotJSON) w1)
          [if errno =? 30
           then Print "Could not save baseline - filesystem is read-only"
           else PrintExn "Error saving baseline: " (OSError errno)]
    end.
Proof.
  destruct w as [n [ec tv bec btv sib] bf sto st lbs af lat pv sc ld].
  cbn [start_time clock_reads sensor baseline_eCO2 baseline_TVOC storage].
  intros -> He -> ->.
  apply Qgt_bool_lt in He.
  unfold save_baseline. run_sgp30. rewrite He. run_sgp30. rewrite He.
  destruct sto as [|errno|errno]; run_sgp30; try reflexivity.
  all: by destruct (Z.eqb errno 30).
Qed.


(** A turn after the warm-up in which the sensor answers: the reading is
    rendered and cached whatever becomes of the baseline afterwards. *)
Lemma sgp30_update_warm w t0 co2 voc :
  start_time w = Some t0 ->
  (WARMUP_TIME < monotonic (S (clock_reads w)) - t0)%Q ->
  eCO2 (sensor w) = inr co2 ->
  TVOC (sensor w) = inr voc ->
  let is_high := CO2_THRESHOLD <=? co2 in
  exists w' evs,
    update monotonic w = Result (inr tt) w' evs /\
    prev_values w' = Cache (Some co2) (Some voc) (Some is_high) /\
    led w' = is_high || (VOC_THRESHOLD <=? voc) /\
    screen w' = screen (final (update_labels co2 voc is_high w)).
Proof.
  destruct w as [n [ec tv bec btv sib] bf sto st lbs af lat pv sc ld].
  cbn [start_time clock_reads sensor eCO2 TVOC]. intros -> Hwarm -> ->.
  apply Qgt_bool_lt in Hwarm.
  rewrite sgp30_update_labels_run. cbn [final].
  unfold update. run_sgp30. rewrite Hwarm. run_sgp30.
  match goal with |- context [update_labels ?a ?b ?c ?w] =>
    rewrite (sgp30_update_labels_run a b c w) end.
  run_sgp30.
  match goal with |- context [update_baseline monotonic ?w] =>
    pose proof (sgp30_update_baseline_spec monotonic w) as Hub;
    destruct (update_baseline monotonic w)
      as [o [n2 sn2 bf2 sto2 st2 lbs2 af2 lat2 pv2 sc2 ld2] ev2] end.
  cbn in Hub. destruct Hub as (-> & -> & -> & -> & _ & _).
  destruct o as [e|[]]; run_sgp30; do 2 eexists; split; try reflexivity.
  all: by repeat split.
Qed.

(** [update_baseline] assigns nothing to the display. *)
Lemma sgp30_update_baseline_no_display w :
  List.filter is_display_write (emitted (update_baseline monotonic w)) = [].
Proof.
  destruct w as [n [ec tv bec btv sib] bf sto st lbs af lat pv sc ld].
  unfold update_baseline. run_sgp30.
  destruct (Qgt_bool (monotonic n - lbs) _); run_sgp30; [|done].
  destruct st as [t0|]; run_sgp30; [|done].
  do 2 (destruct (Qgt_bool _ _); run_sgp30; [|done]).
  destruct bec as [e|e]; run_sgp30.
  { destruct e; run_sgp30; try done. by destruct (Z.eqb _ _). }
  destruct btv as [e'|t]; run_sgp30.
  { destruct e'; run_sgp30; try done. by destruct (Z.eqb _ _). }
  destruct sto as [|errno|errno]; run_sgp30; [done| |].
  all: by destruct (Z.eqb _ _).
Qed.

(** [update_baseline] when a save is due and permitted, the sensor
    delivers its baseline and the medium is mounted read-only. *)
Lemma sgp30_update_baseline_read_only w t0 e t :
  start_time w = Some t0 ->
  (BASELINE_SAVE_INTERVAL < monotonic (clock_reads w) - last_baseline_save w)%Q ->
  (CALIBRATION_TIME < monotonic (S (clock_reads w)) - t0)%Q ->
  baseline_eCO2 (sensor w) = inr e ->
  baseline_TVOC (sensor w) = inr t ->
  storage w = OpenFails 30 ->
  update_baseline monotonic w =
    Result (inr tt) (with_clock_reads (S (S (clock_reads w))) w)
      [InvokeSave (monotonic (clock_reads w));
       Print "Could not save baseline - filesystem is read-only"].
Proof.
  destruct w as [n [ec tv bec btv sib] bf sto st lbs af lat pv sc ld].
  cbn [start_time clock_reads last_baseline_save sensor baseline_eCO2
       baseline_TVOC storage].
  intros -> Hdue Hcal -> -> ->.
  apply Qgt_bool_lt in Hdue. apply Qgt_bool_lt in Hcal.
  unfold update_baseline. run_sgp30. rewrite Hdue. run_sgp30.
  rewrite Hcal. run_sgp30. rewrite Hcal. reflexivity.
Qed.

Ltac run_warm :=
  cbv beta iota zeta delta
    -[update_labels update_baseline baseline_dict str hex Qge_bool Qgt_bool
      Qplus Qminus Qmult Qdiv Qlt Qle Z.modulo Z.leb Z.eqb Z.add Z.of_nat
      String.append differs py_index sleeps write_times app List.filter
      is_display_write foldl apply_write LOADING_INTERVAL CO2_THRESHOLD
      VOC_THRESHOLD WARMUP_TIME CALIBRATION_TIME BASELINE_SAVE_INTERVAL
      flip_writes co2_writes voc_writes].

(** A turn after the warm-up in which the sensor answers, with its
    effects: the two console lines, the effects of [update_labels], then
    what [update_baseline] does, which assigns nothing to the display. *)
Lemma sgp30_update_warm_effects w t0 co2 voc :
  start_time w = Some t0 ->
  (WARMUP_TIME < monotonic (S (clock_reads w)) - t0)%Q ->
  eCO2 (sensor w) = inr co2 ->
  TVOC (sensor w) = inr voc ->
  exists w' evs,
    update monotonic w =
      Result (inr tt) w'
        ([Print ("CO2: " ++ str co2 ++ "ppm");
          Print ("VOC: " ++ str voc ++ "ppb")]
         ++ emitted (update_labels co2 voc (CO2_THRESHOLD <=? co2) w)
         ++ evs) /\
    List.filter is_display_write evs = [] /\
    sleeps evs = [] /\
    prev_values w' =
      Cache (Some co2) (Some voc) (Some (CO2_THRESHOLD <=? co2)) /\
    led w' = (CO2_THRESHOLD <=? co2) || (VOC_THRESHOLD <=? voc) /\
    screen w' =
      screen (final (update_labels co2 voc (CO2_THRESHOLD <=? co2) w)).
Proof.
  destruct w as [n [ec tv bec btv sib] bf sto st lbs af lat pv sc ld].
  cbn [start_time clock_reads sensor eCO2 TVOC]. intros -> Hwarm -> ->.
  apply Qgt_bool_lt in Hwarm.
  rewrite sgp30_update_labels_run.
  cbn [final emitted prev_values screen with_prev_values with_led
       with_screen].
  match goal with |- context [foldl apply_write sc ?l] =>
    remember l as EV eqn:HEV; remember (foldl apply_write sc EV) as SC eqn:HSC
  end.
  unfold update. run_warm. rewrite Hwarm. run_warm.
  match goal with |- context [update_labels ?a ?b ?c ?w] =>
    rewrite (sgp30_update_labels_run a b c w) end.
  cbn [prev_values screen with_prev_values with_led with_screen].
  rewrite <- HEV, <- HSC. clear HEV HSC.
  run_warm.
  match goal with |- context [update_baseline monotonic ?w] =>
    pose proof (sgp30_update_baseline_spec monotonic w) as Hub;
    pose proof (sgp30_update_baseline_no_display w) as Hq;
    destruct (update_baseline monotonic w)
      as [o [n2 sn2 bf2 sto2 st2 lbs2 af2 lat2 pv2 sc2 ld2] ev2] end.
  cbn [final emitted prev_values screen led start_time] in Hub, Hq.
  destruct Hub as (-> & -> & -> & -> & Hsl & _).
  destruct o as [e|[]]; run_warm.
  - eexists _, (ev2 ++ [PrintExn "Error reading sensor: " e])%list.
    split; [f_equal; cbn [app]; by rewrite <- ?List.app_assoc|].
    rewrite List.filter_app, sleeps_app, Hq, Hsl. by repeat split.
  - eexists _, ev2.
    split; [f_equal; cbn [app]; by rewrite <- ?List.app_assoc|].
    by repeat split.
Qed.

(** A turn after the warm-up in which a save is due and permitted and
    the medium is mounted read-only: the reading is rendered, the save is
    tried and its failure printed. *)
Lemma sgp30_update_read_only w t0 co2 voc e t :
  start_time w = Some t0 ->
  (WARMUP_TIME < monotonic (S (clock_reads w)) - t0)%Q ->
  eCO2 (sensor w) = inr co2 ->
  TVOC (sensor w) = inr voc ->
  (BASELINE_SAVE_INTERVAL
   < monotonic (S (S (clock_reads w))) - last_baseline_save w)%Q ->
  (CALIBRATION_TIME < monotonic (S (S (S (clock_reads w)))) - t0)%Q ->
  baseline_eCO2 (sensor w) = inr e ->
  baseline_TVOC (sensor w) = inr t ->
  storage w = OpenFails 30 ->
  update monotonic w =
    Result (inr tt)
      (with_clock_reads (S (S (S (S (clock_reads w)))))
         (final (update_labels co2 voc (CO2_THRESHOLD <=? co2) w)))
      ([Print ("CO2: " ++ str co2 ++ "ppm");
        Print ("VOC: " ++ str voc ++ "ppb")]
       ++ emitted (update_labels co2 voc (CO2_THRESHOLD <=? co2) w)
       ++ [InvokeSave (monotonic (S (S (clock_reads w))));
           Print "Could not save baseline - filesystem is read-only"]).
Proof.
  destruct w as [n [ec tv bec btv sib] bf sto st lbs af lat pv sc ld].
  cbn [start_time clock_reads sensor eCO2 TVOC last_baseline_save
       baseline_eCO2 baseline_TVOC storage].
  intros -> Hwarm -> -> Hdue Hcal -> -> ->.
  apply Qgt_bool_lt in Hwarm.
  rewrite sgp30_update_labels_run.
  cbn [final emitted prev_values screen with_prev_values with_led
       with_screen with_clock_reads clock_reads sensor baseline_file storage
       start_time last_baseline_save animation_frame last_animation_time
       led].
  match goal with |- context [foldl apply_write sc ?l] =>
    remember l as EV eqn:HEV; remember (foldl apply_write sc EV) as SC eqn:HSC
  end.
  unfold update. run_warm. rewrite Hwarm. run_warm.
  match goal with |- context [update_labels ?a ?b ?c ?w] =>
    rewrite (sgp30_update_labels_run a b c w) end.
  cbn [prev_values screen with_prev_values with_led with_screen].
  rewrite <- HEV, <- HSC. clear HEV HSC.
  run_warm.
  match goal with |- context [update_baseline monotonic ?w] =>
    rewrite (sgp30_update_baseline_read_only w t0 e t eq_refl Hdue Hcal
               eq_refl eq_refl eq_refl) end.
  run_warm. f_equal; cbn [app]; by rewrite <- ?List.app_assoc.
Qed.

(** [load_baseline] does not look at the clock. *)
Lemma sgp30_load_baseline_clock n w :
  load_baseline (with_clock_reads n w) =
    let r := load_baseline w in
    Result (outcome r) (with_clock_reads n (final r)) (emitted r).
Proof.
  destruct w as [n0 [ec tv bec btv sib] bf sto st lbs af lat pv sc ld].
  destruct bf as [|errno|[|v]]; try reflexivity.
  unfold load_baseline. run_load.
  destruct (subscript v "eCO2") as [e|x]; run_load.
  { destruct (is_OSError e || is_KeyError e); reflexivity. }
  destruct (subscript v "TVOC") as [e|y]; run_load.
  { destruct (is_OSError e || is_KeyError e); reflexivity. }
  destruct (sib x y) as [e|]; run_load.
  { destruct (is_OSError e || is_KeyError e); reflexivity. }
  destruct (format_x x) as [e|hx]; run_load.
  { destruct (is_OSError e || is_KeyError e); reflexivity. }
  destruct (format_x y) as [e|hy]; run_load.
  { destruct (is_OSError e || is_KeyError e); reflexivity. }
  reflexivity.
Qed.

(** No file, or a file that cannot be opened: [False] and a console line. *)
Lemma sgp30_load_baseline_absent w :
  baseline_file w = Missing \/ (exists errno, baseline_file w = Unreadable errno) ->
  load_baseline w =
    Result (inr false) w
      [Print "No stored baseline found - starting fresh calibration"].
Proof.
  destruct w as [n0 sn bf sto st lbs af lat pv sc ld]. cbn [baseline_file].
  intros [->|[errno ->]]; reflexivity.
Qed.

(** A JSON object that lacks one of the two keys: the same. *)
Lemma sgp30_load_baseline_missing_field w fields :
  baseline_file w = Holds (JSON (JObj fields)) ->
  fields !! "eCO2" = None \/ fields !! "TVOC" = None ->
  load_baseline w =
    Result (inr false) w
      [Print "No stored baseline found - starting fresh calibration"].
Proof.
  destruct w as [n0 sn bf sto st lbs af lat pv sc ld]. cbn [baseline_file].
  intros -> Hf. unfold load_baseline. run_load. cbn [subscript].
  destruct (fields !! "eCO2") as [x|] eqn:Hx; [|reflexivity].
  destruct Hf as [|Hy]; [done|]. rewrite Hy. reflexivity.
Qed.

(** A file whose text is not JSON: the [ValueError] of [json.load] is not
    among the exceptions [load_baseline] catches. *)
Lemma sgp30_load_baseline_not_json w :
  baseline_file w = Holds NotJSON ->
  load_baseline w = Result (inl ValueError) w [].
Proof.
  destruct w as [n0 sn bf sto st lbs af lat pv sc ld]. cbn [baseline_file].
  intros ->. reflexivity.
Qed.

(** A JSON text that is not an object: [TypeError] escapes as well. *)
Lemma sgp30_load_baseline_not_object w v :
  baseline_file w = Holds (JSON v) ->
  (forall fields, v <> JObj fields) ->
  load_baseline w = Result (inl TypeError) w [].
Proof.
  destruct w as [n0 sn bf sto st lbs af lat pv sc ld]. cbn [baseline_file].
  intros -> Hv. destruct v; try reflexivity. by destruct (Hv fields).
Qed.

End Clock.
End SGP30_Store.

Module SCD40_Turn.
Import SCD40 SCD40_Props.

Section Clock.
Variable monotonic : nat -> Q.

(** A turn in which the sensor has a sample and answers with numbers
    that [int] accepts: three console lines, then [update_labels] with
    [is_high] computed from the CO2 value. *)
Lemma scd40_update_ready w co2 t h temp humidity :
  data_ready (scd4x w) = inr true ->
  CO2 (scd4x w) = inr co2 ->
  temperature (scd4x w) = inr t ->
  int_of_float (t * (9 / 5) + 32)%float = inr temp ->
  relative_humidity (scd4x w) = inr h ->
  int_of_float h = inr humidity ->
  let r := update_labels co2 temp humidity (CO2_THRESHOLD <=? co2)
             (with_clock_reads (S (clock_reads w)) w) in
  update monotonic w =
    Result (inr tt) (final r)
      ([Print ("CO2: " ++ str co2 ++ "ppm");
        Print ("Temperature: " ++ str temp ++ degree_sign ++ "F");
        Print ("Humidity: " ++ str humidity ++ "%" ++ newline)]
       ++ emitted r).
Proof.
  destruct w as [n [dr c t' h'] pv af lat sc].
  cbn [scd4x data_ready CO2 temperature relative_humidity clock_reads].
  intros -> -> -> Htemp -> Hhum. cbv zeta.
  rewrite scd40_update_labels_run. cbn [final emitted].
  unfold update. run_scd40. rewrite Htemp. run_scd40. rewrite Hhum.
  run_scd40.
  match goal with |- context [update_labels ?a ?b ?c ?d ?w] =>
    rewrite (scd40_update_labels_run a b c d w) end.
  reflexivity.
Qed.

End Clock.
End SCD40_Turn.

(** ** What the renderers assign *)

Lemma scd40_widget_eqb_eq (a b : SCD40.widget) : widget_eqb a b = true -> a = b.
Proof. by destruct a, b. Qed.

Lemma sgp30_widget_eqb_eq (a b : SGP30.widget) : widget_eqb a b = true -> a = b.
Proof. by destruct a, b. Qed.

Section DisplayFacts.
Context {widget : Type} `{WidgetEq widget}.
Hypothesis widget_eqb_eq : forall a b : widget, widget_eqb a b = true -> a = b.

(** An element keeps its text through effects that do not assign it, and
    likewise its colour. *)
Lemma text_untouched (wd : widget) evs : forall d,
  (forall s, ~ In (SetText wd s) evs) ->
  text (labels (foldl apply_write d evs) wd) = text (labels d wd).
Proof using widget_eqb_eq.
  induction evs as [|ev evs IH]; intros d Hno; [done|].
  cbn [foldl]. rewrite IH by (intros s Hin; apply (Hno s); by right).
  destruct ev as [| | |wd' s|wd' c| | | | | |]; try done.
  - cbn. destruct (widget_eqb wd wd') eqn:E; [|done].
    apply widget_eqb_eq in E as ->. destruct (Hno s). by left.
  - cbn. by destruct (widget_eqb wd wd').
Qed.

Lemma color_untouched (wd : widget) evs : forall d,
  (forall c, ~ In (SetColor wd c) evs) ->
  color (labels (foldl apply_write d evs) wd) = color (labels d wd).
Proof using widget_eqb_eq.
  induction evs as [|ev evs IH]; intros d Hno; [done|].
  cbn [foldl]. rewrite IH by (intros c Hin; apply (Hno c); by right).
  destruct ev as [| | |wd' s|wd' c| | | | | |]; try done.
  - cbn. by destruct (widget_eqb wd wd').
  - cbn. destruct (widget_eqb wd wd') eqn:E; [|done].
    apply widget_eqb_eq in E as ->. destruct (Hno c). by left.
Qed.

Lemma palette_untouched evs : forall d : display widget,
  (forall c, ~ In (SetPalette c) evs) ->
  palette0 (foldl apply_write d evs) = palette0 d.
Proof.
  induction evs as [|ev evs IH]; intros d Hno; [done|].
  cbn [foldl]. rewrite IH by (intros c Hin; apply (Hno c); by right).
  destruct ev; try done. destruct (Hno c). by left.
Qed.
End DisplayFacts.

(** The display after [update_labels] is the display before it with the
    assignments of the call applied in order. *)
Lemma scd40_update_labels_screen co2 temp humidity is_high w :
  let r := SCD40.update_labels co2 temp humidity is_high w in
  outcome r = inr tt /\
  SCD40.screen (final r) = foldl apply_write (SCD40.screen w) (emitted r) /\
  SCD40.prev_values (final r) =
    SCD40.Cache (Some co2) (Some temp) (Some humidity) (Some is_high).
Proof.
  cbv zeta. rewrite SCD40_Props.scd40_update_labels_run.
  destruct w; repeat split; reflexivity.
Qed.

Lemma sgp30_update_labels_screen co2 voc is_high w :
  let r := SGP30.update_labels co2 voc is_high w in
  outcome r = inr tt /\
  SGP30.screen (final r) = foldl apply_write (SGP30.screen w) (emitted r) /\
  SGP30.prev_values (final r) = SGP30.Cache (Some co2) (Some voc) (Some is_high).
Proof.
  cbv zeta. rewrite SGP30_Props.sgp30_update_labels_run.
  cbn [outcome final emitted]. rewrite (foldl_app _ _ [SetLed _]).
  destruct w; repeat split; reflexivity.
Qed.

(** * The claims about the renderer *)

(** Claim C2, as the code has it.  [update_labels] has one branch for
    each key of the cache, taken when the cached value of that key
    differs from the new reading, and the effects of a call are exactly
    the assignments of the branches taken, in the order [is_high], [co2],
    then [temp] and [humidity] (SCD40) or [voc] (SGP30); the SGP30 script
    then assigns the LED.  So an assignment to the display is made only
    when the key of a branch that contains it differs:
    - the [is_high] branch assigns the palette entry, the colour of every
      label, the icon text and the icon colour;
    - the [co2] branch assigns the headline text and the CO2 number;
    - the [temp] and [humidity] branches assign the text of their label;
    - the [voc] branch assigns the texts of [voc_status] and [voc_label]
      and, a second time, the colour of [voc_status]: that colour is
      assigned when [is_high] or [voc] differs, the only element with two
      branches.
    A reading equal to the cache therefore assigns nothing to the
    display.  (An element can still be assigned the value it shows, when
    the key of its branch changed and its own value did not.)  After the
    call the cache holds exactly the new reading, the display is the old
    display with the assignments applied, and when [is_high] is
    [co2 >= CO2_THRESHOLD], as [update] computes it, and the display
    showed the cached reading before, it shows the new one after; of the
    colour of [voc_status] this last part says nothing, as it is not
    determined by the cache. *)
Theorem redraw_suppressed_by_group :
  (forall co2 temp humidity is_high (w : SCD40.world),
     let r := SCD40.update_labels co2 temp humidity is_high w in
     let prev := SCD40.prev_values w in
     let reading :=
       SCD40.Cache (Some co2) (Some temp) (Some humidity) (Some is_high) in
     outcome r = inr tt /\
     emitted r =
       ((if differs (SCD40.prev_is_high prev) is_high
         then SCD40.flip_writes is_high else [])
        ++ (if differs (SCD40.prev_co2 prev) co2
            then SCD40.co2_writes co2 is_high else [])
        ++ (if differs (SCD40.prev_temp prev) temp
            then SCD40.temp_writes temp else [])
        ++ (if differs (SCD40.prev_humidity prev) humidity
            then SCD40.humidity_writes humidity else []))%list /\
     Forall (fun ev =>
               SCD40.guard (SCD40.prev_values w) co2 temp humidity is_high ev
               = true) (emitted r) /\
     (SCD40.prev_values w = reading ->
      List.filter is_display_write (emitted r) = []) /\
     SCD40.prev_values (final r) = reading /\
     SCD40.screen (final r) = foldl apply_write (SCD40.screen w) (emitted r) /\
     (is_high = (CO2_THRESHOLD <=? co2) ->
      SCD40.prev_values w = SCD40.no_reading \/
      SCD40.mirrors (SCD40.prev_values w) (SCD40.screen w) ->
      SCD40.mirrors (SCD40.prev_values (final r)) (SCD40.screen (final r))))
  /\
  (forall co2 voc is_high (w : SGP30.world),
     let r := SGP30.update_labels co2 voc is_high w in
     let prev := SGP30.prev_values w in
     let reading := SGP30.Cache (Some co2) (Some voc) (Some is_high) in
     outcome r = inr tt /\
     emitted r =
       ((if differs (SGP30.prev_is_high prev) is_high
         then SGP30.flip_writes is_high else [])
        ++ (if differs (SGP30.prev_co2 prev) co2
            then SGP30.co2_writes co2 is_high else [])
        ++ (if differs (SGP30.prev_voc prev) voc
            then SGP30.voc_writes voc else [])
        ++ [SetLed (is_high || (SGP30.VOC_THRESHOLD <=? voc))])%list /\
     Forall (fun ev =>
               SGP30.guard (SGP30.prev_values w) co2 voc is_high ev = true)
            (emitted r) /\
     (forall c,
        In (SetColor SGP30.voc_status c) (emitted r) <->
        (differs (SGP30.prev_is_high prev) is_high = true /\
         c = (if is_high then COLOR_BLACK else COLOR_WHITE)) \/
        (differs (SGP30.prev_voc prev) voc = true /\
         c = (if SGP30.VOC_THRESHOLD <=? voc then COLOR_RED
              else COLOR_GREEN))) /\
     (SGP30.prev_values w = reading ->
      List.filter is_display_write (emitted r) = []) /\
     SGP30.prev_values (final r) = reading /\
     SGP30.screen (final r) = foldl apply_write (SGP30.screen w) (emitted r) /\
     (is_high = (CO2_THRESHOLD <=? co2) ->
      SGP30.prev_values w = SGP30.no_reading \/
      SGP30.mirrors (SGP30.prev_values w) (SGP30.screen w) ->
      SGP30.mirrors (SGP30.prev_values (final r)) (SGP30.screen (final r)))).
Proof.
  split.
  - intros co2 temp humidity is_high w r prev reading.
    destruct (scd40_update_labels_screen co2 temp humidity is_high w)
      as (Ho & Hs & Hc).
    split; [exact Ho|].
    split; [subst r prev; by rewrite SCD40_Props.scd40_update_labels_run|].
    split; [apply SCD40_Props.scd40_update_labels_guarded|].
    split; [|split; [exact Hc|split; [exact Hs|]]].
    + intros Hw. subst r reading. rewrite SCD40_Props.scd40_update_labels_run, Hw.
      cbn [SCD40.prev_is_high SCD40.prev_co2 SCD40.prev_temp
           SCD40.prev_humidity emitted].
      by rewrite !differs_same.
    + intros ->. apply SCD40_Props.scd40_update_labels_mirrors.
  - intros co2 voc is_high w r prev reading.
    destruct (sgp30_update_labels_screen co2 voc is_high w) as (Ho & Hs & Hc).
    split; [exact Ho|].
    assert (Hrun : emitted r =
      ((if differs (SGP30.prev_is_high prev) is_high
        then SGP30.flip_writes is_high else [])
       ++ (if differs (SGP30.prev_co2 prev) co2
           then SGP30.co2_writes co2 is_high else [])
       ++ (if differs (SGP30.prev_voc prev) voc
           then SGP30.voc_writes voc else [])
       ++ [SetLed (is_high || (SGP30.VOC_THRESHOLD <=? voc))])%list).
    { subst r prev. rewrite SGP30_Props.sgp30_update_labels_run.
      cbn [emitted]. by rewrite <- !List.app_assoc. }
    split; [exact Hrun|].
    split; [apply SGP30_Props.sgp30_update_labels_guarded|].
    split; [|split; [|split; [exact Hc|split; [exact Hs|]]]].
    + intros c. rewrite Hrun.
      unfold SGP30.flip_writes, SGP30.co2_writes, SGP30.voc_writes.
      destruct (differs (SGP30.prev_is_high prev) is_high),
               (differs (SGP30.prev_co2 prev) co2),
               (differs (SGP30.prev_voc prev) voc); cbn [app In].
      all: split;
        [intros H; repeat (destruct H as [H|H]; try discriminate H);
         try (injection H as <-); intuition (auto; congruence)
        |intros [[? ->]|[? ->]]; try discriminate; auto 12].
    + intros Hw. subst r reading. rewrite SGP30_Props.sgp30_update_labels_run, Hw.
      cbn [SGP30.prev_is_high SGP30.prev_co2 SGP30.prev_voc emitted].
      by rewrite !differs_same.
    + intros ->. apply SGP30_Props.sgp30_update_labels_mirrors.
Qed.

(** The third render of the sequence 800, 1200, 1200 ppm assigns nothing
    and leaves a display that shows the cache.  In the SGP30 script,
    rendering (800, 300) after (800, 100) assigns red to [voc_status]
    though [is_high] did not change. *)
Lemma redraw_suppressed_by_group_witness :
  List.filter is_display_write
    (emitted (SCD40.update_labels 1200 70 40 true Scenario.scd40_shows_1200))
    = [] /\
  SCD40.mirrors
    (SCD40.prev_values
       (final (SCD40.update_labels 1200 70 40 true Scenario.scd40_shows_1200)))
    (SCD40.screen
       (final (SCD40.update_labels 1200 70 40 true Scenario.scd40_shows_1200)))
  /\
  In (SetColor SGP30.voc_status COLOR_RED)
     (emitted (SGP30.update_labels 800 300 false Scenario.sgp30_shows_800_100)).
Proof.
  destruct (proj1 redraw_suppressed_by_group 1200 70 40 true
              Scenario.scd40_shows_1200) as (_ & _ & _ & Hsame & _ & _ & Hm).
  destruct (proj2 redraw_suppressed_by_group 800 300 false
              Scenario.sgp30_shows_800_100) as (_ & _ & _ & Hvoc & _).
  split; [|split].
  - apply Hsame. reflexivity.
  - apply Hm; [reflexivity|]. right. vm_compute. repeat split; reflexivity.
  - apply Hvoc. right. split; reflexivity.
Defined.

(** Claim C2 as stated fails twice.  In the SCD40 script, after 800 ppm
    has been rendered the cache holds [is_high = False] and the headline
    shows "CO2: good"; rendering 900 ppm assigns "CO2: good" to the
    headline again.  In the SGP30 script the reading (1200, 100) leaves
    the same cache but a black [voc_status] when it follows (800, 100) and
    a green one when it is the first reading: the display is not
    determined by the cache. *)
Lemma redundant_write_counterexample :
  SCD40.prev_is_high (SCD40.prev_values Scenario.scd40_shows_800) = Some false /\
  text (labels (SCD40.screen Scenario.scd40_shows_800) SCD40.co2_label)
    = "CO2: good" /\
  emitted (SCD40.update_labels 900 70 40 false Scenario.scd40_shows_800)
    = [SetText SCD40.co2_label "CO2: good"; SetText SCD40.co2_value "900"] /\
  has_redundant (SCD40.screen Scenario.scd40_shows_800)
    (emitted (SCD40.update_labels 900 70 40 false Scenario.scd40_shows_800))
    = true /\
  SGP30.prev_values Scenario.sgp30_1200_after_800
    = SGP30.prev_values Scenario.sgp30_1200_at_once /\
  color (labels (SGP30.screen Scenario.sgp30_1200_after_800) SGP30.voc_status)
    = COLOR_BLACK /\
  color (labels (SGP30.screen Scenario.sgp30_1200_at_once) SGP30.voc_status)
    = COLOR_GREEN.
Proof. vm_compute. repeat split; reflexivity. Qed.

(** Claim C6, as the code has it.  When [is_high] equals the cached
    [is_high], [update_labels] makes exactly the assignments of the groups
    whose cached value differs from the new one: for [co2] the texts of
    the headline and of the CO2 number; in the SCD40 script for [temp] and
    [humidity] the text of their label; in the SGP30 script for [voc] the
    texts of [voc_status] and [voc_label] and the colour of [voc_status]
    (red from [VOC_THRESHOLD] on, green below), which is thus a colour
    assigned outside the branch for a changed [is_high].  The palette
    entry keeps its value, and an element keeps its text, and its colour,
    when the call does not assign it. *)
Theorem colors_written_by_group :
  (forall co2 temp humidity is_high (w : SCD40.world),
     SCD40.prev_is_high (SCD40.prev_values w) = Some is_high ->
     let r := SCD40.update_labels co2 temp humidity is_high w in
     let prev := SCD40.prev_values w in
     emitted r =
       ((if differs (SCD40.prev_co2 prev) co2
         then SCD40.co2_writes co2 is_high else [])
        ++ (if differs (SCD40.prev_temp prev) temp
            then SCD40.temp_writes temp else [])
        ++ (if differs (SCD40.prev_humidity prev) humidity
            then SCD40.humidity_writes humidity else []))%list /\
     List.filter is_color_write (emitted r) = [] /\
     palette0 (SCD40.screen (final r)) = palette0 (SCD40.screen w) /\
     (forall wd,
        color (labels (SCD40.screen (final r)) wd)
        = color (labels (SCD40.screen w) wd)) /\
     (forall wd, (forall s, ~ In (SetText wd s) (emitted r)) ->
        text (labels (SCD40.screen (final r)) wd)
        = text (labels (SCD40.screen w) wd)))
  /\
  (forall co2 voc is_high (w : SGP30.world),
     SGP30.prev_is_high (SGP30.prev_values w) = Some is_high ->
     let r := SGP30.update_labels co2 voc is_high w in
     let prev := SGP30.prev_values w in
     emitted r =
       ((if differs (SGP30.prev_co2 prev) co2
         then SGP30.co2_writes co2 is_high else [])
        ++ (if differs (SGP30.prev_voc prev) voc
            then SGP30.voc_writes voc else [])
        ++ [SetLed (is_high || (SGP30.VOC_THRESHOLD <=? voc))])%list /\
     List.filter is_color_write (emitted r) =
       (if differs (SGP30.prev_voc prev) voc
        then [SetColor SGP30.voc_status
                (if SGP30.VOC_THRESHOLD <=? voc then COLOR_RED else COLOR_GREEN)]
        else []) /\
     palette0 (SGP30.screen (final r)) = palette0 (SGP30.screen w) /\
     (forall wd, (forall c, ~ In (SetColor wd c) (emitted r)) ->
        color (labels (SGP30.screen (final r)) wd)
        = color (labels (SGP30.screen w) wd)) /\
     (forall wd, (forall s, ~ In (SetText wd s) (emitted r)) ->
        text (labels (SGP30.screen (final r)) wd)
        = text (labels (SGP30.screen w) wd))).
Proof.
  split.
  - intros co2 temp humidity is_high w Hhi r prev.
    destruct (scd40_update_labels_screen co2 temp humidity is_high w)
      as (_ & Hs & _). fold r in Hs.
    assert (He : emitted r =
       ((if differs (SCD40.prev_co2 prev) co2
         then SCD40.co2_writes co2 is_high else [])
        ++ (if differs (SCD40.prev_temp prev) temp
            then SCD40.temp_writes temp else [])
        ++ (if differs (SCD40.prev_humidity prev) humidity
            then SCD40.humidity_writes humidity else []))%list).
    { subst r prev. rewrite SCD40_Props.scd40_update_labels_run, Hhi.
      by rewrite differs_same. }
    assert (Hnc : forall e, In e (emitted r) -> is_color_write e = false).
    { rewrite He. intros e. rewrite !in_app_iff.
      repeat case_match; cbn; intuition (subst; done). }
    split; [exact He|]. split; [|split; [|split]].
    + rewrite He. by repeat case_match.
    + rewrite Hs. apply palette_untouched.
      intros c Hin. by apply Hnc in Hin.
    + intros wd. rewrite Hs. apply (color_untouched scd40_widget_eqb_eq).
      intros c Hin. by apply Hnc in Hin.
    + intros wd Hno. rewrite Hs.
      by apply (text_untouched scd40_widget_eqb_eq).
  - intros co2 voc is_high w Hhi r prev.
    destruct (sgp30_update_labels_screen co2 voc is_high w) as (_ & Hs & _).
    fold r in Hs.
    assert (He : emitted r =
       ((if differs (SGP30.prev_co2 prev) co2
         then SGP30.co2_writes co2 is_high else [])
        ++ (if differs (SGP30.prev_voc prev) voc
            then SGP30.voc_writes voc else [])
        ++ [SetLed (is_high || (SGP30.VOC_THRESHOLD <=? voc))])%list).
    { subst r prev. rewrite SGP30_Props.sgp30_update_labels_run, Hhi.
      rewrite differs_same. cbn [emitted app].
      symmetry. apply List.app_assoc. }
    split; [exact He|]. split; [|split; [|split]].
    + rewrite He.
      by destruct (differs (SGP30.prev_co2 prev) co2),
                  (differs (SGP30.prev_voc prev) voc).
    + rewrite Hs. apply palette_untouched. rewrite He.
      intros c. rewrite !in_app_iff.
      repeat case_match; cbn; intuition (subst; done).
    + intros wd Hno. rewrite Hs.
      by apply (color_untouched sgp30_widget_eqb_eq).
    + intros wd Hno. rewrite Hs.
      by apply (text_untouched sgp30_widget_eqb_eq).
Qed.

(** A change of the CO2 value alone, 800 to 900 ppm: two texts are
    assigned, no colour, and [temp_label] is left as it was. *)
Lemma colors_written_by_group_witness :
  emitted (SCD40.update_labels 900 70 40 false Scenario.scd40_shows_800)
    = [SetText SCD40.co2_label "CO2: good"; SetText SCD40.co2_value "900"] /\
  List.filter is_color_write
    (emitted (SCD40.update_labels 900 70 40 false Scenario.scd40_shows_800))
    = [] /\
  text (labels (SCD40.screen
                  (final (SCD40.update_labels 900 70 40 false
                            Scenario.scd40_shows_800))) SCD40.temp_label)
    = text (labels (SCD40.screen Scenario.scd40_shows_800) SCD40.temp_label).
Proof.
  destruct (proj1 colors_written_by_group 900 70 40 false
              Scenario.scd40_shows_800 eq_refl) as (He & Hc & _ & _ & Ht).
  split; [exact He|]. split; [exact Hc|].
  apply Ht. intros s. rewrite He. vm_compute. intuition congruence.
Defined.

(** Claim C6 as stated fails in the SGP30 script: after (800, 100) has
    been rendered, the reading (800, 300) leaves [is_high] as cached, and
    the call assigns a colour all the same; [voc_status] turns from green
    to red. *)
Lemma voc_color_counterexample :
  SGP30.prev_is_high (SGP30.prev_values Scenario.sgp30_shows_800_100)
    = Some false /\
  In (SetColor SGP30.voc_status COLOR_RED)
     (emitted (SGP30.update_labels 800 300 false Scenario.sgp30_shows_800_100)) /\
  color (labels (SGP30.screen Scenario.sgp30_shows_800_100) SGP30.voc_status)
    = COLOR_GREEN /\
  color (labels (SGP30.screen
                   (final (SGP30.update_labels 800 300 false
                             Scenario.sgp30_shows_800_100))) SGP30.voc_status)
    = COLOR_RED.
Proof. vm_compute. repeat split; auto. Qed.

(** Claim C7, as the code has it.  When [is_high] differs from the cached
    [is_high], [update_labels] leaves a black background with white text
    when [is_high] is false, and the inverted palette, white background
    with black text, when it is true; the icon becomes the green smiling
    face when not high and the red frowning face when high.  In the SGP30
    script [voc_status] takes the text colour too, unless [voc] changed in
    the same call: then it is red from [VOC_THRESHOLD] on and green
    below. *)
Theorem palette_flip :
  (forall co2 temp humidity is_high (w : SCD40.world),
     differs (SCD40.prev_is_high (SCD40.prev_values w)) is_high = true ->
     let d := SCD40.screen
                (final (SCD40.update_labels co2 temp humidity is_high w)) in
     palette0 d = (if is_high then COLOR_WHITE else COLOR_BLACK) /\
     (forall wd, wd <> SCD40.icon_label ->
        color (labels d wd) = if is_high then COLOR_BLACK else COLOR_WHITE) /\
     labels d SCD40.icon_label =
       Label (if is_high then ICON_ALERT else ICON_OK)
             (if is_high then COLOR_RED else COLOR_GREEN))
  /\
  (forall co2 voc is_high (w : SGP30.world),
     differs (SGP30.prev_is_high (SGP30.prev_values w)) is_high = true ->
     let d := SGP30.screen (final (SGP30.update_labels co2 voc is_high w)) in
     palette0 d = (if is_high then COLOR_WHITE else COLOR_BLACK) /\
     (forall wd, wd <> SGP30.icon_label -> wd <> SGP30.voc_status ->
        color (labels d wd) = if is_high then COLOR_BLACK else COLOR_WHITE) /\
     color (labels d SGP30.voc_status) =
       (if differs (SGP30.prev_voc (SGP30.prev_values w)) voc
        then (if SGP30.VOC_THRESHOLD <=? voc then COLOR_RED else COLOR_GREEN)
        else (if is_high then COLOR_BLACK else COLOR_WHITE)) /\
     labels d SGP30.icon_label =
       Label (if is_high then ICON_ALERT else ICON_OK)
             (if is_high then COLOR_RED else COLOR_GREEN)).
Proof.
  split.
  - intros co2 temp humidity is_high w Hhi d. subst d.
    rewrite SCD40_Props.scd40_update_labels_run, Hhi.
    destruct w as [n sn pv af lat [p ls]].
    cbn [final SCD40.screen SCD40.with_prev_values SCD40.with_screen
         SCD40.prev_values].
    destruct (differs (SCD40.prev_co2 pv) co2),
             (differs (SCD40.prev_temp pv) temp),
             (differs (SCD40.prev_humidity pv) humidity).
    all: split; [reflexivity|split; [|reflexivity]].
    all: intros [] Hwd; try done; reflexivity.
  - intros co2 voc is_high w Hhi d. subst d.
    rewrite SGP30_Props.sgp30_update_labels_run, Hhi.
    destruct w as [n sn bf sto st lbs af lat pv [p ls] ld].
    cbn [final SGP30.screen SGP30.with_prev_values SGP30.with_screen
         SGP30.with_led SGP30.prev_values].
    destruct (differs (SGP30.prev_co2 pv) co2),
             (differs (SGP30.prev_voc pv) voc).
    all: split; [reflexivity|split; [|split; reflexivity]].
    all: intros [] Hwd Hwd'; try done; reflexivity.
Qed.

(** The second render of the sequence 800, 1200 ppm: white background,
    black CO2 number, red frowning face. *)
Lemma palette_flip_witness :
  palette0 (SCD40.screen Scenario.scd40_shows_1200) = COLOR_WHITE /\
  color (labels (SCD40.screen Scenario.scd40_shows_1200) SCD40.co2_value)
    = COLOR_BLACK /\
  labels (SCD40.screen Scenario.scd40_shows_1200) SCD40.icon_label
    = Label ICON_ALERT COLOR_RED.
Proof.
  destruct (proj1 palette_flip 1200 70 40 true Scenario.scd40_shows_800
              eq_refl) as (Hp & Hc & Hi).
  split; [exact Hp|]. split; [|exact Hi].
  apply (Hc SCD40.co2_value). discriminate.
Defined.

(** Claim C7 as stated fails on which palette is which: rendering 800 ppm
    after 1200 ppm, so with [is_high] false and changed, leaves a black
    background and white text, not a white background with black text. *)
Lemma normal_palette_counterexample :
  differs (SCD40.prev_is_high (SCD40.prev_values Scenario.scd40_shows_1200))
          false = true /\
  palette0 (SCD40.screen
              (final (SCD40.update_labels 800 70 40 false
                        Scenario.scd40_shows_1200))) = COLOR_BLACK /\
  color (labels (SCD40.screen
                   (final (SCD40.update_labels 800 70 40 false
                             Scenario.scd40_shows_1200))) SCD40.co2_value)
    = COLOR_WHITE /\
  COLOR_BLACK <> COLOR_WHITE.
Proof. vm_compute. repeat split; congruence. Qed.

(** * The claims about the warm-up tracker and the baseline store *)

(** Claim C1, as the code has it.  [check_warmup_status] compares the
    elapsed time strictly with both thresholds: the state is NotWarmedUp
    exactly when [elapsed <= WARMUP_TIME], Warmed exactly when
    [WARMUP_TIME < elapsed <= CALIBRATION_TIME], and FullyCalibrated
    exactly when [CALIBRATION_TIME < elapsed]; an elapsed time equal to a
    threshold is still in the state below it. *)
Theorem warmup_classification_strict :
  forall (monotonic : nat -> Q) (w : SGP30.world) (t0 : Q),
    SGP30.start_time w = Some t0 ->
    exists s,
      outcome (SGP30.check_warmup_status monotonic w) = inr s /\
      SGP30.elapsed_time s = (monotonic (SGP30.clock_reads w) - t0)%Q /\
      (SGP30.warmup_state s = SGP30.NotWarmedUp <->
       (SGP30.elapsed_time s <= SGP30.WARMUP_TIME)%Q) /\
      (SGP30.warmup_state s = SGP30.Warmed <->
       (SGP30.WARMUP_TIME < SGP30.elapsed_time s)%Q /\
       (SGP30.elapsed_time s <= SGP30.CALIBRATION_TIME)%Q) /\
      (SGP30.warmup_state s = SGP30.FullyCalibrated <->
       (SGP30.CALIBRATION_TIME < SGP30.elapsed_time s)%Q).
Proof.
  intros monotonic w t0 Hst.
  rewrite (SGP30_Store.sgp30_check_warmup_status_run monotonic w t0 Hst).
  eexists. split; [reflexivity|]. split; [reflexivity|].
  cbn [SGP30.elapsed_time]. unfold SGP30.warmup_state.
  cbn [SGP30.warmed_up SGP30.fully_calibrated].
  set (e := (monotonic (SGP30.clock_reads w) - t0)%Q).
  destruct (Qgt_bool e SGP30.CALIBRATION_TIME) eqn:Hc;
    [apply Qgt_bool_lt in Hc|apply Qgt_bool_le in Hc];
    (destruct (Qgt_bool e SGP30.WARMUP_TIME) eqn:Hw;
     [apply Qgt_bool_lt in Hw|apply Qgt_bool_le in Hw]).
  all: unfold SGP30.CALIBRATION_TIME, SGP30.WARMUP_TIME in *.
  all: repeat split; intros; try discriminate; try lra.
Qed.

(** Sixteen seconds after the start the sensor counts as warmed up. *)
Lemma warmup_classification_strict_witness :
  exists s,
    outcome (SGP30.check_warmup_status (Scenario.stopped 16)
               Scenario.started_at_0) = inr s /\
    SGP30.warmup_state s = SGP30.Warmed.
Proof.
  destruct (warmup_classification_strict (Scenario.stopped 16)
              Scenario.started_at_0 0%Q eq_refl)
    as (s & Ho & He & _ & Hw & _).
  exists s. split; [exact Ho|].
  apply Hw. rewrite He. vm_compute. split; [reflexivity|discriminate].
Defined.

(** Claim C1 as stated fails at both boundaries: exactly 15 s after the
    start the code still reports NotWarmedUp where the claim says Warmed,
    and exactly 12 h after the start it still reports Warmed where the
    claim says FullyCalibrated. *)
Lemma warmup_boundary_counterexample :
  (exists s,
     outcome (SGP30.check_warmup_status (Scenario.stopped 15)
                Scenario.started_at_0) = inr s /\
     SGP30.elapsed_time s = 15%Q /\
     SGP30.warmup_state s = SGP30.NotWarmedUp /\
     SGP30.classify_spec (SGP30.elapsed_time s) = SGP30.Warmed) /\
  (exists s,
     outcome (SGP30.check_warmup_status (Scenario.stopped 43200)
                Scenario.started_at_0) = inr s /\
     SGP30.elapsed_time s = 43200%Q /\
     SGP30.warmup_state s = SGP30.Warmed /\
     SGP30.classify_spec (SGP30.elapsed_time s) = SGP30.FullyCalibrated).
Proof.
  split; eexists; (split; [vm_compute; reflexivity|]);
    vm_compute; repeat split; reflexivity.
Qed.

(** Claim C3, where the code breaks it.  When the baseline file holds a
    text that is not JSON, [json.load] raises [ValueError];
    [load_baseline] catches [OSError] and [KeyError] only, so the
    exception leaves it, with nothing logged.  (For a missing or
    unreadable file, and for a JSON object without one of the two keys,
    the call does return [False] with a console line:
    [sgp30_load_baseline_absent], [sgp30_load_baseline_missing_field].) *)
Theorem load_baseline_not_json_escapes :
  forall w : SGP30.world,
    SGP30.baseline_file w = SGP30.Holds SGP30.NotJSON ->
    SGP30.load_baseline w = Result (inl ValueError) w [].
Proof. exact SGP30_Store.sgp30_load_baseline_not_json. Qed.

(** Started on such a file the script ends with the [ValueError] during
    its initialisation: the LED has been set, the serial number printed
    and the humidity given to the sensor; the loop is never entered. *)
Lemma load_baseline_not_json_escapes_witness :
  outcome (SGP30.load_baseline
             (SGP30.power_on (Scenario.ticking 0 1) (Scenario.air 800 100)
                (SGP30.Holds SGP30.NotJSON))) = inl ValueError /\
  outcome Scenario.boot_on_broken_file = inl ValueError /\
  emitted Scenario.boot_on_broken_file =
    [SetLed false;
     Print "Serial number: ['0x0', '0x1b2', '0xcafe']";
     SetIaqRelativeHumidity 22.1 44].
Proof.
  split.
  - rewrite (load_baseline_not_json_escapes
               (SGP30.power_on (Scenario.ticking 0 1) (Scenario.air 800 100)
                  (SGP30.Holds SGP30.NotJSON)) eq_refl).
    reflexivity.
  - vm_compute. split; reflexivity.
Defined.

(** Claim C4.  A call of [save_baseline] at which the time elapsed since
    [start_time] does not exceed [CALIBRATION_TIME] reads the clock and
    does nothing else: it returns, logs nothing, leaves the baseline file
    and [last_baseline_save] as they are, and a following [load_baseline]
    behaves as one made before the call. *)
Theorem save_baseline_noop_before_calibration :
  forall (monotonic : nat -> Q) (w : SGP30.world) (t0 : Q),
    SGP30.start_time w = Some t0 ->
    (monotonic (SGP30.clock_reads w) - t0 <= SGP30.CALIBRATION_TIME)%Q ->
    let r := SGP30.save_baseline monotonic w in
    r = Result (inr tt) (SGP30.with_clock_reads (S (SGP30.clock_reads w)) w) []
    /\ SGP30.baseline_file (final r) = SGP30.baseline_file w
    /\ SGP30.last_baseline_save (final r) = SGP30.last_baseline_save w
    /\ outcome (SGP30.load_baseline (final r))
       = outcome (SGP30.load_baseline w)
    /\ emitted (SGP30.load_baseline (final r))
       = emitted (SGP30.load_baseline w).
Proof.
  intros monotonic w t0 Hst He r. subst r.
  rewrite (SGP30_Store.sgp30_save_baseline_early monotonic w t0 Hst He).
  cbn [final]. rewrite SGP30_Store.sgp30_load_baseline_clock.
  by destruct w.
Qed.

(** Exactly twelve hours after the start nothing is saved yet. *)
Lemma save_baseline_noop_before_calibration_witness :
  SGP30.save_baseline (Scenario.stopped 43200) Scenario.started_at_0 =
    Result (inr tt)
      (SGP30.with_clock_reads
         (S (SGP30.clock_reads Scenario.started_at_0)) Scenario.started_at_0)
      [].
Proof.
  apply (save_baseline_noop_before_calibration (Scenario.stopped 43200)
           Scenario.started_at_0 0%Q eq_refl).
  vm_compute. discriminate.
Defined.

(** * The claims about the loop *)

Lemma ticking_monotone (start step : Q) :
  (0 <= step)%Q ->
  forall i j, (i <= j)%nat ->
    (Scenario.ticking start step i <= Scenario.ticking start step j)%Q.
Proof.
  intros Hstep i j Hij. unfold Scenario.ticking.
  assert (inject_Z (Z.of_nat i) <= inject_Z (Z.of_nat j))%Q.
  { rewrite <- Zle_Qle. lia. }
  nra.
Qed.

(** [load_baseline] changes nothing in the state of the script, and
    neither sleeps nor writes the file. *)
Lemma sgp30_load_baseline_frame w :
  final (SGP30.load_baseline w) = w /\
  write_times (emitted (SGP30.load_baseline w)) = [] /\
  sleeps (emitted (SGP30.load_baseline w)) = [].
Proof.
  destruct w as [n0 [ec tv bec btv sib] bf sto st lbs af lat pv sc ld].
  destruct bf as [|errno|[|v]]; try by repeat split.
  unfold SGP30.load_baseline. SGP30_Store.run_load.
  destruct (subscript v "eCO2") as [e|x]; SGP30_Store.run_load.
  { by destruct (is_OSError e || is_KeyError e). }
  destruct (subscript v "TVOC") as [e|y]; SGP30_Store.run_load.
  { by destruct (is_OSError e || is_KeyError e). }
  destruct (sib x y) as [e|]; SGP30_Store.run_load.
  { by destruct (is_OSError e || is_KeyError e). }
  destruct (format_x x) as [e|hx]; SGP30_Store.run_load.
  { by destruct (is_OSError e || is_KeyError e). }
  destruct (format_x y) as [e|hy]; SGP30_Store.run_load.
  { by destruct (is_OSError e || is_KeyError e). }
  by repeat split.
Qed.

(** The initialisation code rewrites no file; when it returns,
    [start_time] is set and [last_baseline_save] is as it was. *)
Lemma sgp30_initialization_run monotonic hw w :
  let r := SGP30.initialization monotonic hw w in
  write_times (emitted r) = [] /\
  (outcome r = inr tt ->
   SGP30.start_time (final r) = Some (monotonic (SGP30.clock_reads w)) /\
   SGP30.last_baseline_save (final r) = SGP30.last_baseline_save w).
Proof.
  destruct w as [n0 sn bf sto st lbs af lat pv sc ld].
  destruct hw as [[e|words] [e'|] dsp lf li]; try by repeat split.
  unfold SGP30.initialization.
  cbv beta iota zeta delta
    -[SGP30.load_baseline write_times app String.append repr_str_list
      py_hex map SGP30.FONT_ERROR].
  match goal with |- context [SGP30.load_baseline ?w] =>
    destruct (sgp30_load_baseline_frame w) as (Hf & Hw & _);
    destruct (SGP30.load_baseline w) as [o w2 ev2] end.
  cbn [final emitted] in Hf, Hw. subst w2.
  destruct o as [e|b]; cbn [outcome final emitted].
  { rewrite ?write_times_app, ?Hw; by repeat split. }
  destruct dsp as [e|]; [rewrite ?write_times_app, ?Hw; by repeat split|].
  destruct lf as [e|]; [rewrite ?write_times_app, ?Hw; by repeat split|].
  destruct li as [e|]; rewrite ?write_times_app, ?Hw; by repeat split.
Qed.

(** Claim C5, as the code has it.  Under a monotone clock, every rewrite
    of the baseline file happens more than [BASELINE_SAVE_INTERVAL] after
    the one before it (the first one more than that after the initial
    [last_baseline_save]), in every run of the loop from a state with
    [start_time] set and in every run of the script from its
    initialisation.  Calls of [save_baseline] that do not complete a
    rewrite do not move [last_baseline_save]; of them nothing is said. *)
Theorem baseline_writes_spaced :
  forall monotonic : nat -> Q,
    (forall i j, (i <= j)%nat -> (monotonic i <= monotonic j)%Q) ->
    (forall turns (w : SGP30.world) t0,
       SGP30.start_time w = Some t0 ->
       spaced SGP30.BASELINE_SAVE_INTERVAL (SGP30.last_baseline_save w)
         (write_times (emitted (SGP30.main_loop monotonic turns w)))) /\
    (forall hw turns s file,
       spaced SGP30.BASELINE_SAVE_INTERVAL 0
         (write_times
            (emitted (SGP30.script monotonic hw turns
                        (SGP30.power_on monotonic s file))))).
Proof.
  intros monotonic Hmono.
  assert (Hloop : forall turns (w : SGP30.world) t0,
    SGP30.start_time w = Some t0 ->
    spaced SGP30.BASELINE_SAVE_INTERVAL (SGP30.last_baseline_save w)
      (write_times (emitted (SGP30.main_loop monotonic turns w)))).
  { intros turns w t0 Hst.
    destruct (SGP30_Props.sgp30_main_loop_run monotonic turns w t0 Hst)
      as (w' & evs & k & Hrun & _ & _ & _ & Hsp).
    rewrite Hrun. cbn [emitted]. by apply Hsp. }
  split; [exact Hloop|].
  intros hw turns s file. unfold SGP30.script.
  set (w0 := SGP30.power_on monotonic s file).
  destruct (sgp30_initialization_run monotonic hw w0) as (Hw & Hok).
  destruct (SGP30.initialization monotonic hw w0) as [[e|[]] w1 ev1] eqn:Hinit;
    cbn [outcome final emitted] in Hw, Hok.
  - rewrite (bind_inl _ _ _ _ _ _ Hinit). cbn [emitted]. by rewrite Hw.
  - rewrite (bind_inr _ _ _ _ _ _ Hinit). cbn [emitted].
    destruct (Hok eq_refl) as (Hst & Hlbs).
    rewrite write_times_app, Hw. cbn [app].
    change 0%Q with (SGP30.last_baseline_save w0). rewrite <- Hlbs.
    by eapply Hloop.
Qed.

(** On a board whose clock readings are 20000 s apart the file is
    rewritten in both turns, 80000 s apart. *)
Lemma baseline_writes_spaced_witness :
  write_times (emitted Scenario.two_saves) = [100000%Q; 180000%Q] /\
  spaced SGP30.BASELINE_SAVE_INTERVAL 0
    (write_times (emitted Scenario.two_saves)).
Proof.
  split; [vm_compute; reflexivity|].
  apply (baseline_writes_spaced (Scenario.ticking 0 20000)).
  apply ticking_monotone. vm_compute. discriminate.
Defined.

(** Claim C5 as stated fails: in a script started 4000 s after the board,
    the first two turns that read the sensor both call [save_baseline], at
    clock values 4020 and 4028; the calibration time has not passed, so
    neither call saves and [last_baseline_save] stays 0. *)
Lemma save_invoked_every_turn_counterexample :
  invocations (emitted Scenario.five_turns) = [4020%Q; 4028%Q] /\
  (4028 - 4020 < SGP30.BASELINE_SAVE_INTERVAL)%Q /\
  write_times (emitted Scenario.five_turns) = [].
Proof. vm_compute. repeat split; reflexivity. Qed.

(** Claim C8.  When the calibration time has passed, the sensor delivers
    its baseline and the medium rejects the write with errno 30,
    [save_baseline] returns normally with the one console line for a
    read-only filesystem and leaves [last_baseline_save] as it is.  The
    turn of the loop in which that happens (a save is due, the medium is
    mounted read-only) has exactly these effects: the two console lines
    of the reading, the assignments of [update_labels], the call of
    [save_baseline], the read-only line and the 4 s sleep; the display
    shows the reading, the LED and the cache are set from it, and file
    and [last_baseline_save] are as before.  The script then goes on
    polling and rendering: every turn after the warm-up in which the
    sensor answers, whatever the medium does, makes the display
    assignments of [update_labels] for the reading and no others, leaves
    the display, the LED and the cache showing it, and sleeps 4 s; and
    every run of the loop from a state with [start_time] set completes
    all its turns, whatever the medium and the sensor do. *)
Theorem read_only_storage_tolerated :
  forall monotonic : nat -> Q,
    (forall (w : SGP30.world) t0 e t,
       SGP30.start_time w = Some t0 ->
       (SGP30.CALIBRATION_TIME < monotonic (SGP30.clock_reads w) - t0)%Q ->
       SGP30.baseline_eCO2 (SGP30.sensor w) = inr e ->
       SGP30.baseline_TVOC (SGP30.sensor w) = inr t ->
       SGP30.storage w = SGP30.OpenFails 30 \/
       SGP30.storage w = SGP30.DumpFails 30 ->
       let r := SGP30.save_baseline monotonic w in
       outcome r = inr tt /\
       emitted r =
         [Print "Could not save baseline - filesystem is read-only"] /\
       SGP30.last_baseline_save (final r) = SGP30.last_baseline_save w) /\
    (forall (w : SGP30.world) t0 s co2 voc e t,
       SGP30.start_time w = Some t0 ->
       (SGP30.WARMUP_TIME < monotonic (S (SGP30.clock_reads w)) - t0)%Q ->
       SGP30.eCO2 s = inr co2 ->
       SGP30.TVOC s = inr voc ->
       (SGP30.BASELINE_SAVE_INTERVAL
        < monotonic (S (S (SGP30.clock_reads w)))
          - SGP30.last_baseline_save w)%Q ->
       (SGP30.CALIBRATION_TIME
        < monotonic (S (S (S (SGP30.clock_reads w)))) - t0)%Q ->
       SGP30.baseline_eCO2 s = inr e ->
       SGP30.baseline_TVOC s = inr t ->
       let r := SGP30.iteration monotonic s (SGP30.OpenFails 30) w in
       let shown := SGP30.update_labels co2 voc (CO2_THRESHOLD <=? co2) w in
       outcome r = inr tt /\
       emitted r =
         ([Print ("CO2: " ++ str co2 ++ "ppm");
           Print ("VOC: " ++ str voc ++ "ppb")]
          ++ emitted shown
          ++ [InvokeSave (monotonic (S (S (SGP30.clock_reads w))));
              Print "Could not save baseline - filesystem is read-only";
              Sleep UPDATE_INTERVAL])%list /\
       SGP30.prev_values (final r) =
         SGP30.Cache (Some co2) (Some voc) (Some (CO2_THRESHOLD <=? co2)) /\
       SGP30.screen (final r) = SGP30.screen (final shown) /\
       SGP30.led (final r)
         = (CO2_THRESHOLD <=? co2) || (SGP30.VOC_THRESHOLD <=? voc) /\
       SGP30.baseline_file (final r) = SGP30.baseline_file w /\
       SGP30.last_baseline_save (final r) = SGP30.last_baseline_save w) /\
    (forall (w : SGP30.world) t0 s f co2 voc,
       SGP30.start_time w = Some t0 ->
       (SGP30.WARMUP_TIME < monotonic (S (SGP30.clock_reads w)) - t0)%Q ->
       SGP30.eCO2 s = inr co2 ->
       SGP30.TVOC s = inr voc ->
       let r := SGP30.iteration monotonic s f w in
       let shown := SGP30.update_labels co2 voc (CO2_THRESHOLD <=? co2) w in
       outcome r = inr tt /\
       List.filter is_display_write (emitted r)
         = List.filter is_display_write (emitted shown) /\
       SGP30.prev_values (final r) =
         SGP30.Cache (Some co2) (Some voc) (Some (CO2_THRESHOLD <=? co2)) /\
       SGP30.screen (final r) = SGP30.screen (final shown) /\
       SGP30.led (final r)
         = (CO2_THRESHOLD <=? co2) || (SGP30.VOC_THRESHOLD <=? voc) /\
       sleeps (emitted r) = [UPDATE_INTERVAL]) /\
    (forall turns (w : SGP30.world) t0,
       SGP30.start_time w = Some t0 ->
       let r := SGP30.main_loop monotonic turns w in
       outcome r = inr tt /\
       length (sleeps (emitted r)) = length turns).
Proof.
  intros monotonic. split; [|split; [|split]].
  - intros w t0 e t Hst Hcal He Ht Hsto r. subst r.
    rewrite (SGP30_Store.sgp30_save_baseline_late monotonic w t0 e t
               Hst Hcal He Ht).
    destruct Hsto as [-> | ->]; by destruct w.
  - intros w t0 s co2 voc e t Hst Hwarm Hco2 Hvoc Hdue Hcal He Ht r shown.
    set (w0 := SGP30.with_storage (SGP30.OpenFails 30)
                 (SGP30.with_sensor s w)) in *.
    assert (Hupd := SGP30_Store.sgp30_update_read_only monotonic w0 t0
                      co2 voc e t).
    rewrite (SGP30_Props.sgp30_update_labels_run co2 voc _ w0) in Hupd.
    subst r shown.
    rewrite (SGP30_Props.sgp30_update_labels_run co2 voc _ w).
    destruct w as [n sn bf sto st lbs af lat pv sc ld].
    cbn [SGP30.start_time SGP30.clock_reads SGP30.last_baseline_save
         SGP30.baseline_file] in *.
    specialize (Hupd Hst Hwarm Hco2 Hvoc Hdue Hcal He Ht eq_refl).
    cbn [final emitted] in Hupd |- *.
    rewrite (SGP30_Props.sgp30_iteration_of_update monotonic _ _ _ _ _ Hupd).
    cbn [outcome final emitted]. split; [done|].
    split; [cbn [app]; by rewrite <- ?List.app_assoc|].
    by repeat split.
  - intros w t0 s f co2 voc Hst Hwarm Hco2 Hvoc r shown.
    set (w0 := SGP30.with_storage f (SGP30.with_sensor s w)) in *.
    destruct (SGP30_Store.sgp30_update_warm_effects monotonic w0 t0 co2 voc)
      as (w1 & evs & Hupd & Hquiet & Hsl & Hpv & Hled & Hsc);
      try by destruct w.
    assert (Hshown : SGP30.update_labels co2 voc (CO2_THRESHOLD <=? co2) w0
                     = Result (inr tt)
                         (SGP30.with_storage f
                            (SGP30.with_sensor s (final shown)))
                         (emitted shown)).
    { subst shown w0.
      rewrite !SGP30_Props.sgp30_update_labels_run. by destruct w. }
    rewrite Hshown in Hupd, Hsc. cbn [final emitted] in Hupd, Hsc.
    subst r.
    rewrite (SGP30_Props.sgp30_iteration_of_update monotonic _ _ _ _ _ Hupd).
    cbn [outcome final emitted]. rewrite Hpv. cbn [SGP30.prev_co2].
    split; [done|]. split.
    { rewrite !List.filter_app, Hquiet. cbn [List.filter is_display_write app].
      by rewrite !app_nil_r. }
    split; [done|]. split; [rewrite Hsc; by destruct (final shown)|].
    split; [done|].
    rewrite !sleeps_app, Hsl. subst shown.
    destruct (SGP30_Props.sgp30_update_labels_quiet co2 voc
                (CO2_THRESHOLD <=? co2) w) as [-> _].
    reflexivity.
  - intros turns w t0 Hst r.
    destruct (SGP30_Props.sgp30_main_loop_run monotonic turns w t0 Hst)
      as (w' & evs & k & Hrun & Hk & Hsleeps & _ & _).
    subst r. rewrite Hrun. cbn [outcome emitted]. split; [done|].
    rewrite Hsleeps, length_app, !repeat_length. lia.
Qed.

(** Past the calibration time on a medium mounted read-only, the call
    returns and logs the one line; the turn of the loop made 50000 s
    after the start renders 1200 ppm (white background, LED on) and
    prints the line, and the next turn renders 900 ppm (black
    background, LED off). *)
Lemma read_only_storage_tolerated_witness :
  (outcome (SGP30.save_baseline (Scenario.stopped 50000) Scenario.read_only)
     = inr tt /\
   emitted (SGP30.save_baseline (Scenario.stopped 50000) Scenario.read_only)
     = [Print "Could not save baseline - filesystem is read-only"] /\
   SGP30.last_baseline_save
     (final (SGP30.save_baseline (Scenario.stopped 50000) Scenario.read_only))
     = SGP30.last_baseline_save Scenario.read_only) /\
  (In (Print "Could not save baseline - filesystem is read-only")
      (emitted Scenario.read_only_turn) /\
   palette0 (SGP30.screen (final Scenario.read_only_turn)) = COLOR_WHITE /\
   SGP30.led (final Scenario.read_only_turn) = true) /\
  (palette0 (SGP30.screen (final Scenario.turn_after_read_only)) = COLOR_BLACK
   /\
   text (labels (SGP30.screen (final Scenario.turn_after_read_only))
           SGP30.co2_value) = "900" /\
   SGP30.led (final Scenario.turn_after_read_only) = false).
Proof.
  split; [|split].
  - apply (proj1 (read_only_storage_tolerated (Scenario.stopped 50000))
             Scenario.read_only 0%Q 35000 36000).
    + reflexivity.
    + vm_compute. reflexivity.
    + reflexivity.
    + reflexivity.
    + left. reflexivity.
  - destruct (proj1 (proj2 (read_only_storage_tolerated
                              (Scenario.stopped 50000)))
                Scenario.started_at_0 0%Q (Scenario.air 1200 100) 1200 100
                35000 36000)
      as (_ & Hev & _ & Hsc & Hled & _);
      try reflexivity; try (vm_compute; reflexivity).
    unfold Scenario.read_only_turn. rewrite Hev, Hsc, Hled.
    split; [|split; reflexivity].
    apply in_or_app. right. apply in_or_app. right. cbn. tauto.
  - destruct (proj1 (proj2 (proj2 (read_only_storage_tolerated
                                     (Scenario.stopped 50000))))
                (final Scenario.read_only_turn) 0%Q (Scenario.air 900 100)
                (SGP30.OpenFails 30) 900 100)
      as (_ & _ & _ & Hsc & Hled & _);
      try reflexivity; try (vm_compute; reflexivity).
    unfold Scenario.turn_after_read_only. rewrite Hsc, Hled.
    repeat split; reflexivity.
Defined.

(** Claim C9.  Once the cache holds a CO2 value, every run of the loop
    keeps it holding one and sleeps [UPDATE_INTERVAL] after every turn;
    and whatever the cache holds at first, the sleeps of a run are some
    fast ones followed by slow ones only.  For the SGP30 script this is
    for states with [start_time] set, as the initialisation leaves it. *)
Theorem steady_is_permanent :
  (forall (monotonic : nat -> Q) answers (w : SCD40.world),
     let r := SCD40.main_loop monotonic answers w in
     outcome r = inr tt /\
     (exists k, (k <= length answers)%nat /\
        sleeps (emitted r) =
          (repeat LOADING_PHASE_SLEEP k
           ++ repeat UPDATE_INTERVAL (length answers - k))%list) /\
     (SCD40.prev_co2 (SCD40.prev_values w) <> None ->
      SCD40.prev_co2 (SCD40.prev_values (final r)) <> None /\
      sleeps (emitted r) = repeat UPDATE_INTERVAL (length answers)))
  /\
  (forall (monotonic : nat -> Q) turns (w : SGP30.world) t0,
     SGP30.start_time w = Some t0 ->
     let r := SGP30.main_loop monotonic turns w in
     outcome r = inr tt /\
     (exists k, (k <= length turns)%nat /\
        sleeps (emitted r) =
          (repeat LOADING_PHASE_SLEEP k
           ++ repeat UPDATE_INTERVAL (length turns - k))%list) /\
     (SGP30.prev_co2 (SGP30.prev_values w) <> None ->
      SGP30.prev_co2 (SGP30.prev_values (final r)) <> None /\
      sleeps (emitted r) = repeat UPDATE_INTERVAL (length turns))).
Proof.
  split.
  - intros monotonic answers w r.
    destruct (SCD40_Props.scd40_main_loop_run monotonic answers w)
      as (w' & evs & k & Hrun & Hk & Hsl & Hsteady).
    subst r. rewrite Hrun. cbn [outcome final emitted].
    split; [done|]. split; [by exists k|].
    intros Hw. destruct (Hsteady Hw) as [-> Hw'].
    split; [done|]. rewrite Hsl. cbn. by rewrite Nat.sub_0_r.
  - intros monotonic turns w t0 Hst r.
    destruct (SGP30_Props.sgp30_main_loop_run monotonic turns w t0 Hst)
      as (w' & evs & k & Hrun & Hk & Hsl & Hsteady & _).
    subst r. rewrite Hrun. cbn [outcome final emitted].
    split; [done|]. split; [by exists k|].
    intros Hw. destruct (Hsteady Hw) as [-> Hw'].
    split; [done|]. rewrite Hsl. cbn. by rewrite Nat.sub_0_r.
Qed.

(** From the state that shows 800 ppm, three turns in which the sensor
    has no sample, fails and has a sample again all end in the slow
    sleep. *)
Lemma steady_is_permanent_witness :
  sleeps (emitted (SCD40.main_loop (Scenario.ticking 0 1)
                     [SCD40.Sensor (inr false) (inr 0) (inr 0%float) (inr 0%float);
                      SCD40.Sensor (inl (OSError 5)) (inr 0) (inr 0%float) (inr 0%float);
                      Scenario.room 1200]
                     Scenario.scd40_shows_800))
    = [UPDATE_INTERVAL; UPDATE_INTERVAL; UPDATE_INTERVAL].
Proof.
  apply (proj1 steady_is_permanent (Scenario.ticking 0 1)
           [SCD40.Sensor (inr false) (inr 0) (inr 0%float) (inr 0%float);
            SCD40.Sensor (inl (OSError 5)) (inr 0) (inr 0%float) (inr 0%float);
            Scenario.room 1200]
           Scenario.scd40_shows_800).
  vm_compute. discriminate.
Defined.

(** Claim C10.  The reading [update] builds is high exactly when its CO2
    value is at least 1000, in both scripts: a value of exactly 1000 is
    high.  (The SCD40 script builds a reading when a sample is ready, the
    three reads succeed and [int] accepts the temperature in Fahrenheit
    and the humidity, that is, when they are finite.)  In the SGP30
    script the VOC value counts as high exactly when
    it is at least 250: the LED is lit exactly when one of the two is
    high, and when the VOC value changed, [voc_status] is red exactly when
    it is at least 250. *)
Theorem high_at_threshold :
  (forall (monotonic : nat -> Q) (w : SCD40.world) co2 t h temp humidity,
     SCD40.data_ready (SCD40.scd4x w) = inr true ->
     SCD40.CO2 (SCD40.scd4x w) = inr co2 ->
     SCD40.temperature (SCD40.scd4x w) = inr t ->
     int_of_float (t * (9 / 5) + 32)%float = inr temp ->
     SCD40.relative_humidity (SCD40.scd4x w) = inr h ->
     int_of_float h = inr humidity ->
     exists b,
       SCD40.prev_is_high (SCD40.prev_values (final (SCD40.update monotonic w)))
       = Some b /\
       (b = true <-> 1000 <= co2))
  /\
  (forall (monotonic : nat -> Q) (w : SGP30.world) t0 co2 voc,
     SGP30.start_time w = Some t0 ->
     (SGP30.WARMUP_TIME < monotonic (S (SGP30.clock_reads w)) - t0)%Q ->
     SGP30.eCO2 (SGP30.sensor w) = inr co2 ->
     SGP30.TVOC (SGP30.sensor w) = inr voc ->
     exists b,
       SGP30.prev_is_high (SGP30.prev_values (final (SGP30.update monotonic w)))
       = Some b /\
       (b = true <-> 1000 <= co2) /\
       (SGP30.led (final (SGP30.update monotonic w)) = true <->
        1000 <= co2 \/ 250 <= voc))
  /\
  (forall co2 voc is_high (w : SGP30.world),
     differs (SGP30.prev_voc (SGP30.prev_values w)) voc = true ->
     color (labels (SGP30.screen (final (SGP30.update_labels co2 voc is_high w)))
              SGP30.voc_status) = COLOR_RED
     <-> 250 <= voc).
Proof.
  split; [|split].
  - intros monotonic w co2 t h temp humidity Hr Hc Ht Htemp Hh Hhum.
    rewrite (SCD40_Turn.scd40_update_ready monotonic w co2 t h temp humidity
               Hr Hc Ht Htemp Hh Hhum).
    cbn [final].
    destruct (scd40_update_labels_screen co2 temp humidity
                (CO2_THRESHOLD <=? co2)
                (SCD40.with_clock_reads (S (SCD40.clock_reads w)) w))
      as (_ & _ & ->).
    exists (CO2_THRESHOLD <=? co2). split; [reflexivity|].
    unfold CO2_THRESHOLD. apply Z.leb_le.
  - intros monotonic w t0 co2 voc Hst Hwarm Hc Hv.
    destruct (SGP30_Store.sgp30_update_warm monotonic w t0 co2 voc
                Hst Hwarm Hc Hv) as (w' & evs & -> & Hpv & Hled & _).
    cbn [final]. rewrite Hpv, Hled.
    exists (CO2_THRESHOLD <=? co2). split; [reflexivity|].
    unfold CO2_THRESHOLD, SGP30.VOC_THRESHOLD.
    rewrite orb_true_iff, !Z.leb_le. done.
  - intros co2 voc is_high w Hvoc.
    rewrite SGP30_Props.sgp30_update_labels_run, Hvoc.
    destruct w as [n sn bf sto st lbs af lat pv [p ls] ld].
    cbn [final SGP30.screen SGP30.with_prev_values SGP30.with_screen
         SGP30.with_led SGP30.prev_values].
    unfold SGP30.voc_writes, SGP30.VOC_THRESHOLD.
    destruct (differs (SGP30.prev_is_high pv) is_high),
             (differs (SGP30.prev_co2 pv) co2),
             (Z.leb_spec 250 voc); cbn.
    all: split; intros; try done; try lia.
Qed.

(** A reading of exactly 1000 ppm is cached as high. *)
Lemma high_at_threshold_witness :
  SCD40.prev_is_high
    (SCD40.prev_values
       (final (SCD40.update (Scenario.ticking 0 1)
                 (SCD40.with_scd4x (Scenario.room 1000)
                    Scenario.scd40_shows_800))))
  = Some true.
Proof.
  destruct (proj1 high_at_threshold (Scenario.ticking 0 1)
              (SCD40.with_scd4x (Scenario.room 1000) Scenario.scd40_shows_800)
              1000 21.5%float 40.2%float 70 40
              eq_refl eq_refl eq_refl eq_refl eq_refl eq_refl)
    as (b & Hb & Hiff).
  rewrite Hb. f_equal. apply Hiff. lia.
Defined.

(** * Further properties of the baseline store *)

(** What [load_baseline] does with a file holding a JSON object with both
    keys, by what the driver and the two format codes do. *)
Lemma sgp30_load_baseline_object w fields x y :
  SGP30.baseline_file w = SGP30.Holds (SGP30.JSON (JObj fields)) ->
  fields !! "eCO2" = Some x ->
  fields !! "TVOC" = Some y ->
  SGP30.load_baseline w =
    match SGP30.set_iaq_baseline (SGP30.sensor w) x y with
    | Some e =>
        if is_OSError e || is_KeyError e
        then Result (inr false) w
               [Print "No stored baseline found - starting fresh calibration"]
        else Result (inl e) w []
    | None =>
        match format_x x, format_x y with
        | inr hx, inr hy =>
            Result (inr true) w
              [SetIaqBaseline x y;
               Print "Loaded stored baseline values:";
               Print ("eCO2: 0x" ++ hx ++ ", TVOC: 0x" ++ hy)]
        | inl e, _ | inr _, inl e =>
            Result (inl e) w
              [SetIaqBaseline x y; Print "Loaded stored baseline values:"]
        end
    end.
Proof.
  destruct w as [n0 [ec tv bec btv sib] bf sto st lbs af lat pv sc ld].
  cbn [SGP30.baseline_file SGP30.sensor SGP30.set_iaq_baseline].
  intros -> Hx Hy.
  unfold SGP30.load_baseline. SGP30_Store.run_load.
  cbn [subscript]. rewrite Hx, Hy. SGP30_Store.run_load.
  destruct (sib x y) as [e|]; SGP30_Store.run_load.
  { by destruct (is_OSError e || is_KeyError e). }
  destruct (format_x x) as [e|hx] eqn:Hfx; SGP30_Store.run_load.
  { destruct x; cbn in Hfx; try discriminate Hfx;
      injection Hfx as <-; reflexivity. }
  destruct (format_x y) as [e|hy] eqn:Hfy; SGP30_Store.run_load.
  { destruct y; cbn in Hfy; try discriminate Hfy;
      injection Hfy as <-; reflexivity. }
  reflexivity.
Qed.

(** Property X1 (round trip).  When [save_baseline] completes a save, the
    file holds the two baseline values the sensor reported, and a
    [load_baseline] made afterwards returns [True], hands exactly these
    two values to [sensor.set_iaq_baseline] (if the driver accepts them)
    and logs them in hexadecimal. *)
Theorem saved_baseline_loads_back :
  forall (monotonic : nat -> Q) (w : SGP30.world) t0 e t,
    SGP30.start_time w = Some t0 ->
    (SGP30.CALIBRATION_TIME < monotonic (SGP30.clock_reads w) - t0)%Q ->
    SGP30.baseline_eCO2 (SGP30.sensor w) = inr e ->
    SGP30.baseline_TVOC (SGP30.sensor w) = inr t ->
    SGP30.storage w = SGP30.NoFault ->
    SGP30.set_iaq_baseline (SGP30.sensor w) (JInt e) (JInt t) = None ->
    let w' := final (SGP30.save_baseline monotonic w) in
    outcome (SGP30.save_baseline monotonic w) = inr tt /\
    SGP30.last_baseline_save w' = monotonic (SGP30.clock_reads w) /\
    SGP30.load_baseline w' =
      Result (inr true) w'
        [SetIaqBaseline (JInt e) (JInt t);
         Print "Loaded stored baseline values:";
         Print ("eCO2: 0x" ++ hex e ++ ", TVOC: 0x" ++ hex t)].
Proof.
  intros monotonic w t0 e t Hst Hcal He Ht Hsto Hdrv w'. subst w'.
  rewrite (SGP30_Store.sgp30_save_baseline_late monotonic w t0 e t
             Hst Hcal He Ht), Hsto.
  cbn [outcome final]. split; [done|]. split; [by destruct w|].
  rewrite (sgp30_load_baseline_object _
             (<["eCO2" := JInt e]> (<["TVOC" := JInt t]> ∅))
             (JInt e) (JInt t)).
  - replace (SGP30.sensor _) with (SGP30.sensor w) by by destruct w.
    by rewrite Hdrv.
  - by destruct w.
  - apply lookup_insert_eq.
  - rewrite lookup_insert_ne by done. apply lookup_insert_eq.
Qed.

(** 50000 s after the start, the baseline (35000, 36000) is saved and
    loads back. *)
Lemma saved_baseline_loads_back_witness :
  outcome (SGP30.load_baseline
             (final (SGP30.save_baseline (Scenario.stopped 50000)
                       Scenario.started_at_0))) = inr true.
Proof.
  destruct (saved_baseline_loads_back (Scenario.stopped 50000)
              Scenario.started_at_0 0%Q 35000 36000)
    as (_ & _ & ->); try reflexivity.
Defined.

(** Property X2 (no record).  When the baseline file is missing, cannot be
    opened, or holds a JSON object that lacks the key [eCO2] or the key
    [TVOC], [load_baseline] returns [False], prints the one line "No
    stored baseline found - starting fresh calibration", does not call the
    sensor and leaves the state of the script as it is. *)
Theorem load_baseline_without_record :
  forall w : SGP30.world,
    SGP30.baseline_file w = SGP30.Missing \/
    (exists errno, SGP30.baseline_file w = SGP30.Unreadable errno) \/
    (exists fields,
       SGP30.baseline_file w = SGP30.Holds (SGP30.JSON (JObj fields)) /\
       (fields !! "eCO2" = None \/ fields !! "TVOC" = None)) ->
    SGP30.load_baseline w =
      Result (inr false) w
        [Print "No stored baseline found - starting fresh calibration"].
Proof.
  intros w [H|[H|(fields & Hf & Hk)]].
  - apply SGP30_Store.sgp30_load_baseline_absent. by left.
  - apply SGP30_Store.sgp30_load_baseline_absent. by right.
  - by apply (SGP30_Store.sgp30_load_baseline_missing_field w fields).
Qed.

(** A file with the key [eCO2] only. *)
Lemma load_baseline_without_record_witness :
  SGP30.load_baseline FaultScenario.one_key_file =
    Result (inr false) FaultScenario.one_key_file
      [Print "No stored baseline found - starting fresh calibration"].
Proof.
  apply load_baseline_without_record. right. right.
  exists (<["eCO2" := JInt 35000]> ∅). split; [reflexivity|].
  right. reflexivity.
Defined.

(** Property X3 (when a baseline is restored).  [load_baseline] returns
    [True] exactly when the file holds a JSON object with both keys, the
    driver accepts the two values and both can be formatted with the code
    [x] (they are integers); the sensor then has been given exactly the
    two values of the file.  In no case does [load_baseline] change the
    state of the script. *)
Theorem load_baseline_true_iff :
  forall w : SGP30.world,
    final (SGP30.load_baseline w) = w /\
    (outcome (SGP30.load_baseline w) = inr true <->
     exists fields x y hx hy,
       SGP30.baseline_file w = SGP30.Holds (SGP30.JSON (JObj fields)) /\
       fields !! "eCO2" = Some x /\ fields !! "TVOC" = Some y /\
       SGP30.set_iaq_baseline (SGP30.sensor w) x y = None /\
       format_x x = inr hx /\ format_x y = inr hy /\
       emitted (SGP30.load_baseline w) =
         [SetIaqBaseline x y;
          Print "Loaded stored baseline values:";
          Print ("eCO2: 0x" ++ hx ++ ", TVOC: 0x" ++ hy)]).
Proof.
  intros w. split; [apply sgp30_load_baseline_frame|]. split.
  - intros Ho.
    destruct (SGP30.baseline_file w) as [|errno|[|v]] eqn:Hf.
    + rewrite SGP30_Store.sgp30_load_baseline_absent in Ho by (by left).
      discriminate Ho.
    + rewrite SGP30_Store.sgp30_load_baseline_absent in Ho by (right; eauto).
      discriminate Ho.
    + rewrite SGP30_Store.sgp30_load_baseline_not_json in Ho by done.
      discriminate Ho.
    + destruct v as [| | | | | |fields];
        try (rewrite (SGP30_Store.sgp30_load_baseline_not_object w _ Hf) in Ho
               by done; discriminate Ho).
      destruct (fields !! "eCO2") as [x|] eqn:Hx.
      2:{ rewrite (SGP30_Store.sgp30_load_baseline_missing_field w fields Hf)
            in Ho by (by left). discriminate Ho. }
      destruct (fields !! "TVOC") as [y|] eqn:Hy.
      2:{ rewrite (SGP30_Store.sgp30_load_baseline_missing_field w fields Hf)
            in Ho by (by right). discriminate Ho. }
      rewrite (sgp30_load_baseline_object w fields x y Hf Hx Hy) in Ho |- *.
      destruct (SGP30.set_iaq_baseline (SGP30.sensor w) x y) as [e|] eqn:Hd.
      { destruct (is_OSError e || is_KeyError e); discriminate Ho. }
      destruct (format_x x) as [e|hx] eqn:Hfx; [discriminate Ho|].
      destruct (format_x y) as [e|hy] eqn:Hfy; [discriminate Ho|].
      exists fields, x, y, hx, hy. by repeat split.
  - intros (fields & x & y & hx & hy & Hf & Hx & Hy & Hd & Hfx & Hfy & _).
    rewrite (sgp30_load_baseline_object w fields x y Hf Hx Hy), Hd, Hfx, Hfy.
    reflexivity.
Qed.

(** A file with both keys and a sensor that accepts them. *)
Lemma load_baseline_true_iff_witness :
  outcome (SGP30.load_baseline FaultScenario.saved_file) = inr true.
Proof.
  apply (proj2 (load_baseline_true_iff FaultScenario.saved_file)).
  exists (<["eCO2" := JInt 35000]> (<["TVOC" := JInt 36000]> ∅)),
         (JInt 35000), (JInt 36000), (hex 35000), (hex 36000).
  repeat split; reflexivity.
Defined.

(** Property X4 (a failing driver looks like a missing file).  When the
    file holds both keys and [sensor.set_iaq_baseline] raises, an
    [OSError] (a bus failure) or [KeyError] is swallowed: [load_baseline]
    returns [False] with the line "No stored baseline found - starting
    fresh calibration"; any other exception leaves [load_baseline], with
    nothing logged. *)
Theorem load_baseline_driver_failure :
  forall (w : SGP30.world) fields x y e,
    SGP30.baseline_file w = SGP30.Holds (SGP30.JSON (JObj fields)) ->
    fields !! "eCO2" = Some x ->
    fields !! "TVOC" = Some y ->
    SGP30.set_iaq_baseline (SGP30.sensor w) x y = Some e ->
    SGP30.load_baseline w =
      if is_OSError e || is_KeyError e
      then Result (inr false) w
             [Print "No stored baseline found - starting fresh calibration"]
      else Result (inl e) w [].
Proof.
  intros w fields x y e Hf Hx Hy Hd.
  by rewrite (sgp30_load_baseline_object w fields x y Hf Hx Hy), Hd.
Qed.

(** A saved baseline and a bus that fails with errno 5. *)
Lemma load_baseline_driver_failure_witness :
  SGP30.load_baseline FaultScenario.deaf_with_file =
    Result (inr false) FaultScenario.deaf_with_file
      [Print "No stored baseline found - starting fresh calibration"].
Proof.
  apply (load_baseline_driver_failure FaultScenario.deaf_with_file
           (<["eCO2" := JInt 35000]> (<["TVOC" := JInt 36000]> ∅))
           (JInt 35000) (JInt 36000) (OSError 5)); reflexivity.
Defined.

(** Property X5 (an interrupted save loses the record).  When, past the
    calibration time, the file is opened for writing but [json.dump] fails
    with an [OSError], [save_baseline] reports the error, leaves
    [last_baseline_save] as it was, and the file no longer holds JSON: the
    next [load_baseline] is left by a [ValueError]. *)
Theorem interrupted_save_breaks_next_load :
  forall (monotonic : nat -> Q) (w : SGP30.world) t0 e t errno,
    SGP30.start_time w = Some t0 ->
    (SGP30.CALIBRATION_TIME < monotonic (SGP30.clock_reads w) - t0)%Q ->
    SGP30.baseline_eCO2 (SGP30.sensor w) = inr e ->
    SGP30.baseline_TVOC (SGP30.sensor w) = inr t ->
    SGP30.storage w = SGP30.DumpFails errno ->
    let r := SGP30.save_baseline monotonic w in
    outcome r = inr tt /\
    emitted r =
      [if errno =? 30
       then Print "Could not save baseline - filesystem is read-only"
       else PrintExn "Error saving baseline: " (OSError errno)] /\
    SGP30.last_baseline_save (final r) = SGP30.last_baseline_save w /\
    SGP30.load_baseline (final r) = Result (inl ValueError) (final r) [].
Proof.
  intros monotonic w t0 e t errno Hst Hcal He Ht Hsto r. subst r.
  rewrite (SGP30_Store.sgp30_save_baseline_late monotonic w t0 e t
             Hst Hcal He Ht), Hsto.
  cbn [outcome final emitted].
  split; [reflexivity|]. split; [reflexivity|]. split; [by destruct w|].
  apply SGP30_Store.sgp30_load_baseline_not_json. by destruct w.
Qed.

(** The medium runs full (errno 28) during the save made 50000 s after
    the start. *)
Lemma interrupted_save_breaks_next_load_witness :
  outcome (SGP30.load_baseline
             (final (SGP30.save_baseline (Scenario.stopped 50000)
                       FaultScenario.disk_full))) = inl ValueError.
Proof.
  destruct (interrupted_save_breaks_next_load (Scenario.stopped 50000)
              FaultScenario.disk_full 0%Q 35000 36000 28)
    as (_ & _ & _ & ->); reflexivity.
Defined.

(** Property X6 (the sensor fails while its baseline is read).  When, past
    the calibration time, reading [sensor.baseline_eCO2] or
    [sensor.baseline_TVOC] raises [e], [save_baseline] touches neither the
    file nor [last_baseline_save].  An [OSError] is reported on the
    console, with the text for a read-only filesystem if its number is 30;
    any other exception leaves [save_baseline]. *)
Theorem save_baseline_sensor_failure :
  forall (monotonic : nat -> Q) (w : SGP30.world) t0 e,
    SGP30.start_time w = Some t0 ->
    (SGP30.CALIBRATION_TIME < monotonic (SGP30.clock_reads w) - t0)%Q ->
    SGP30.baseline_eCO2 (SGP30.sensor w) = inl e \/
    ((exists v, SGP30.baseline_eCO2 (SGP30.sensor w) = inr v) /\
     SGP30.baseline_TVOC (SGP30.sensor w) = inl e) ->
    SGP30.save_baseline monotonic w =
      match e with
      | OSError errno =>
          Result (inr tt) (SGP30.with_clock_reads (S (SGP30.clock_reads w)) w)
            [if errno =? 30
             then Print "Could not save baseline - filesystem is read-only"
             else PrintExn "Error saving baseline: " e]
      | _ =>
          Result (inl e) (SGP30.with_clock_reads (S (SGP30.clock_reads w)) w)
            []
      end.
Proof.
  intros monotonic
    [n [ec tv bec btv sib] bf sto st lbs af lat pv sc ld] t0 e.
  cbn [SGP30.start_time SGP30.clock_reads SGP30.sensor
       SGP30.baseline_eCO2 SGP30.baseline_TVOC].
  intros -> Hcal Hs. apply Qgt_bool_lt in Hcal.
  unfold SGP30.save_baseline. SGP30_Props.run_sgp30.
  rewrite Hcal. SGP30_Props.run_sgp30. rewrite Hcal.
  destruct Hs as [-> | [[v ->] ->]];
    (destruct e as [errno| | | | | | |]; [destruct (errno =? 30) eqn:E|..]);
    SGP30_Props.run_sgp30; rewrite ?E; reflexivity.
Qed.

(** The bus fails with errno 5 when the baseline is read 50000 s after
    the start. *)
Lemma save_baseline_sensor_failure_witness :
  emitted (SGP30.save_baseline (Scenario.stopped 50000)
             (SGP30.with_sensor (FaultScenario.mute_air (OSError 5))
                Scenario.started_at_0)) =
    [PrintExn "Error saving baseline: " (OSError 5)].
Proof.
  rewrite (save_baseline_sensor_failure (Scenario.stopped 50000)
             (SGP30.with_sensor (FaultScenario.mute_air (OSError 5))
                Scenario.started_at_0) 0%Q (OSError 5)).
  - reflexivity.
  - reflexivity.
  - vm_compute. reflexivity.
  - left. reflexivity.
Defined.

(** * Further properties of the loops *)

Lemma Qge_bool_le (a b : Q) : Qge_bool a b = true <-> (b <= a)%Q.
Proof. unfold Qge_bool. apply Qle_bool_iff. Qed.

Lemma Qge_bool_lt (a b : Q) : Qge_bool a b = false <-> (a < b)%Q.
Proof.
  unfold Qge_bool. rewrite <- not_true_iff_false, Qle_bool_iff.
  split; [apply Qnot_le_lt|apply Qlt_not_le].
Qed.

Ltac run_spinner :=
  cbv beta iota zeta delta
    -[SCD40.update_labels SGP30.update_labels SGP30.update_baseline
      str hex int_of_float Qge_bool Qgt_bool Qplus Qminus Qmult Qdiv Qlt Qle
      Z.modulo Z.leb Z.eqb Z.add Z.of_nat String.append differs app
      py_index SPINNER_CHARS length LOADING_INTERVAL CO2_THRESHOLD
      SGP30.WARMUP_TIME].

(** Whatever integer [animation_frame] holds, the index handed to
    [update_spinner_animation] is one of the four positions of
    [SPINNER_CHARS]. *)
Lemma spinner_index_in_range (frame : Z) :
  exists c,
    SPINNER_CHARS !! Z.to_nat (frame `mod` 4) = Some c /\
    py_index SPINNER_CHARS (frame `mod` Z.of_nat (length SPINNER_CHARS))
    = Some c.
Proof.
  change (Z.of_nat (length SPINNER_CHARS)) with 4.
  pose proof (Z.mod_pos_bound frame 4 eq_refl) as Hb.
  assert (Hr : frame `mod` 4 = 0 \/ frame `mod` 4 = 1 \/
               frame `mod` 4 = 2 \/ frame `mod` 4 = 3) by lia.
  destruct Hr as [-> | [-> | [-> | ->]]]; eexists; split; reflexivity.
Qed.

(** Property X7 (a failing SCD40).  When [scd4x.data_ready] raises, or a
    sample is ready and reading the CO2 value, the temperature or the
    humidity raises, or [int] rejects the temperature in Fahrenheit or the
    humidity (a NaN or an infinity), [update] returns normally with the
    one console line "Error reading sensor: ..." for that exception:
    nothing is printed of the values read before, and display, cache and
    animation state are as they were. *)
Theorem scd40_sensor_failure_logged :
  forall (monotonic : nat -> Q) (w : SCD40.world) (e : exn),
    SCD40.data_ready (SCD40.scd4x w) = inl e \/
    (SCD40.data_ready (SCD40.scd4x w) = inr true /\
     (SCD40.CO2 (SCD40.scd4x w) = inl e \/
      (exists co2, SCD40.CO2 (SCD40.scd4x w) = inr co2) /\
      (SCD40.temperature (SCD40.scd4x w) = inl e \/
       exists t,
         SCD40.temperature (SCD40.scd4x w) = inr t /\
         (int_of_float (t * (9 / 5) + 32)%float = inl e \/
          (exists temp, int_of_float (t * (9 / 5) + 32)%float = inr temp) /\
          (SCD40.relative_humidity (SCD40.scd4x w) = inl e \/
           exists h,
             SCD40.relative_humidity (SCD40.scd4x w) = inr h /\
             int_of_float h = inl e))))) ->
    SCD40.update monotonic w =
      Result (inr tt)
        (SCD40.with_clock_reads (S (SCD40.clock_reads w)) w)
        [PrintExn "Error reading sensor: " e].
Proof.
  intros monotonic [n [dr c t h] pv af lat sc] e.
  cbn [SCD40.scd4x SCD40.data_ready SCD40.CO2 SCD40.temperature
       SCD40.relative_humidity].
  intros [-> | [-> [-> | [[co2 ->] [-> | (t' & -> & Hconv)]]]]];
    try reflexivity.
  SCD40_Props.run_scd40.
  destruct Hconv as [-> | [[temp ->] [-> | (h' & -> & Hh)]]];
    SCD40_Props.run_scd40; rewrite ?Hh; reflexivity.
Qed.

(** The humidity cannot be read: nothing of the sample is shown. *)
Lemma scd40_sensor_failure_logged_witness :
  emitted (SCD40.update (Scenario.ticking 0 1)
             (SCD40.with_scd4x FaultScenario.half_dead Scenario.scd40_loading))
  = [PrintExn "Error reading sensor: " (OSError 5)].
Proof.
  rewrite (scd40_sensor_failure_logged (Scenario.ticking 0 1)
             (SCD40.with_scd4x FaultScenario.half_dead Scenario.scd40_loading)
             (OSError 5)).
  - reflexivity.
  - right. split; [reflexivity|]. right. split; [by exists 800|].
    right. exists 21.5%float. split; [reflexivity|].
    right. split; [by exists 70|]. left. reflexivity.
Defined.

(** Property X8 (the loading animation of the SCD40 script).  While the
    cache is empty and the sensor has no sample, a call of [update] made
    at least [LOADING_INTERVAL] after [last_animation_time] shows the
    spinner character at position [animation_frame mod 4] on the three
    labels, adds one to [animation_frame] and stores the time of the call
    in [last_animation_time].  The index is in range for every integer
    [animation_frame]: no [IndexError] is logged. *)
Theorem scd40_spinner_step :
  forall (monotonic : nat -> Q) (w : SCD40.world),
    SCD40.data_ready (SCD40.scd4x w) = inr false ->
    SCD40.prev_co2 (SCD40.prev_values w) = None ->
    (LOADING_INTERVAL
     <= monotonic (SCD40.clock_reads w) - SCD40.last_animation_time w)%Q ->
    exists c,
      SPINNER_CHARS !! Z.to_nat (SCD40.animation_frame w `mod` 4) = Some c /\
      SCD40.update monotonic w =
        Result (inr tt)
          (SCD40.World (S (SCD40.clock_reads w)) (SCD40.scd4x w)
             (SCD40.prev_values w) (SCD40.animation_frame w + 1)
             (monotonic (SCD40.clock_reads w))
             (with_text SCD40.humid_label c
                (with_text SCD40.temp_label c
                   (with_text SCD40.co2_label ("Loading " ++ c)
                      (SCD40.screen w)))))
          [SetText SCD40.co2_label ("Loading " ++ c);
           SetText SCD40.temp_label c;
           SetText SCD40.humid_label c].
Proof.
  intros monotonic [n [dr c t h] [pc pt ph phi] af lat sc].
  cbn [SCD40.scd4x SCD40.data_ready SCD40.prev_values SCD40.prev_co2
       SCD40.clock_reads SCD40.last_animation_time SCD40.animation_frame
       SCD40.screen].
  intros -> -> Hgap. apply Qge_bool_le in Hgap.
  destruct (spinner_index_in_range af) as (ch & Hch & Hpy).
  exists ch. split; [exact Hch|].
  run_spinner. rewrite Hgap. run_spinner. rewrite Hpy. reflexivity.
Qed.

(** The first turn of the loop, one second after the start, with no
    sample: the spinner shows its first character. *)
Lemma scd40_spinner_step_witness :
  emitted (SCD40.update (Scenario.ticking 0 1) FaultScenario.scd40_waiting)
  = [SetText SCD40.co2_label "Loading |";
     SetText SCD40.temp_label "|";
     SetText SCD40.humid_label "|"].
Proof.
  destruct (scd40_spinner_step (Scenario.ticking 0 1) FaultScenario.scd40_waiting)
    as (c & Hc & ->).
  - reflexivity.
  - reflexivity.
  - vm_compute. discriminate.
  - injection Hc as <-. reflexivity.
Defined.

(** Property X9 (an idle turn of the SCD40 script).  When the sensor has
    no sample and either a reading has been shown before or less than
    [LOADING_INTERVAL] has passed since [last_animation_time], [update]
    reads the clock and does nothing else: the display keeps the last
    reading (or the last spinner frame), nothing is printed. *)
Theorem scd40_idle_turn :
  forall (monotonic : nat -> Q) (w : SCD40.world),
    SCD40.data_ready (SCD40.scd4x w) = inr false ->
    SCD40.prev_co2 (SCD40.prev_values w) <> None \/
    (monotonic (SCD40.clock_reads w) - SCD40.last_animation_time w
     < LOADING_INTERVAL)%Q ->
    SCD40.update monotonic w =
      Result (inr tt)
        (SCD40.with_clock_reads (S (SCD40.clock_reads w)) w) [].
Proof.
  intros monotonic [n [dr c t h] [pc pt ph phi] af lat sc].
  cbn [SCD40.scd4x SCD40.data_ready SCD40.prev_values SCD40.prev_co2
       SCD40.clock_reads SCD40.last_animation_time].
  intros -> Hidle.
  destruct pc as [c0|]; [reflexivity|].
  destruct Hidle as [Hc | Hgap]; [done|].
  apply Qge_bool_lt in Hgap.
  SCD40_Props.run_scd40. rewrite Hgap. reflexivity.
Qed.

(** After 800 ppm has been shown, a turn without a sample changes
    nothing. *)
Lemma scd40_idle_turn_witness :
  emitted (SCD40.update (Scenario.ticking 0 1)
             (SCD40.with_scd4x FaultScenario.not_ready Scenario.scd40_shows_800))
  = [].
Proof.
  rewrite (scd40_idle_turn (Scenario.ticking 0 1)
             (SCD40.with_scd4x FaultScenario.not_ready Scenario.scd40_shows_800)).
  - reflexivity.
  - reflexivity.
  - left. vm_compute. discriminate.
Defined.

(** Property X10 (a failing SGP30).  Past the warm-up, when reading
    [sensor.eCO2] or [sensor.TVOC] raises, [update] returns normally with
    the one console line "Error reading sensor: ..." for that exception;
    display, LED, cache, baseline file and [last_baseline_save] are as
    they were, and [save_baseline] is not reached. *)
Theorem sgp30_sensor_failure_logged :
  forall (monotonic : nat -> Q) (w : SGP30.world) t0 (e : exn),
    SGP30.start_time w = Some t0 ->
    (SGP30.WARMUP_TIME < monotonic (S (SGP30.clock_reads w)) - t0)%Q ->
    SGP30.eCO2 (SGP30.sensor w) = inl e \/
    ((exists co2, SGP30.eCO2 (SGP30.sensor w) = inr co2) /\
     SGP30.TVOC (SGP30.sensor w) = inl e) ->
    SGP30.update monotonic w =
      Result (inr tt)
        (SGP30.with_clock_reads (S (S (SGP30.clock_reads w))) w)
        [PrintExn "Error reading sensor: " e].
Proof.
  intros monotonic
    [n [ec tv bec btv sib] bf sto st lbs af lat pv sc ld] t0 e.
  cbn [SGP30.start_time SGP30.clock_reads SGP30.sensor SGP30.eCO2 SGP30.TVOC].
  intros -> Hwarm Hs. apply Qgt_bool_lt in Hwarm.
  SGP30_Props.run_sgp30. rewrite Hwarm.
  destruct Hs as [-> | [[co2 ->] ->]]; reflexivity.
Qed.

(** Sixteen seconds after the start the eCO2 register cannot be read. *)
Lemma sgp30_sensor_failure_logged_witness :
  emitted (SGP30.update (Scenario.stopped 16)
             (SGP30.with_sensor FaultScenario.no_eco2
                Scenario.started_at_0))
  = [PrintExn "Error reading sensor: " (OSError 5)].
Proof.
  rewrite (sgp30_sensor_failure_logged (Scenario.stopped 16)
             (SGP30.with_sensor FaultScenario.no_eco2
                Scenario.started_at_0) 0%Q (OSError 5)).
  - reflexivity.
  - reflexivity.
  - vm_compute. reflexivity.
  - left. reflexivity.
Defined.

(** Property X11 (the warm-up of the SGP30 script).  While the elapsed
    time measured by [check_warmup_status] is at most [WARMUP_TIME],
    [update] does not read the sensor: whatever the sensor would answer,
    nothing is printed and cache, LED and baseline file stay as they are.
    If at least [LOADING_INTERVAL] has passed since [last_animation_time]
    (measured with the first clock reading of the call) the spinner
    character at position [animation_frame mod 4] is shown on [co2_label]
    and [voc_label]; otherwise nothing is shown. *)
Theorem sgp30_warmup_turn :
  forall (monotonic : nat -> Q) (w : SGP30.world) t0,
    SGP30.start_time w = Some t0 ->
    (monotonic (S (SGP30.clock_reads w)) - t0 <= SGP30.WARMUP_TIME)%Q ->
    exists c,
      SPINNER_CHARS !! Z.to_nat (SGP30.animation_frame w `mod` 4) = Some c /\
      SGP30.update monotonic w =
        if Qge_bool (monotonic (SGP30.clock_reads w)
                     - SGP30.last_animation_time w) LOADING_INTERVAL
        then
          Result (inr tt)
            (SGP30.with_screen
               (with_text SGP30.voc_label c
                  (with_text SGP30.co2_label ("Loading " ++ c)
                     (SGP30.screen w)))
               (SGP30.with_last_animation_time
                  (monotonic (SGP30.clock_reads w))
                  (SGP30.with_animation_frame (SGP30.animation_frame w + 1)
                     (SGP30.with_clock_reads
                        (S (S (SGP30.clock_reads w))) w))))
            [SetText SGP30.co2_label ("Loading " ++ c);
             SetText SGP30.voc_label c]
        else
          Result (inr tt)
            (SGP30.with_clock_reads (S (S (SGP30.clock_reads w))) w) [].
Proof.
  intros monotonic
    [n [ec tv bec btv sib] bf sto st lbs af lat pv sc ld] t0.
  cbn [SGP30.start_time SGP30.clock_reads SGP30.animation_frame
       SGP30.last_animation_time SGP30.screen].
  intros -> Hcold. apply Qgt_bool_le in Hcold.
  destruct (spinner_index_in_range af) as (ch & Hch & Hpy).
  exists ch. split; [exact Hch|].
  run_spinner. rewrite Hcold.
  destruct (Qge_bool (monotonic n - lat) LOADING_INTERVAL);
    run_spinner; [|reflexivity].
  rewrite Hpy. reflexivity.
Qed.

(** Ten seconds after the start: the spinner turns, the sensor is not
    asked. *)
Lemma sgp30_warmup_turn_witness :
  emitted (SGP30.update (Scenario.stopped 10) Scenario.started_at_0)
  = [SetText SGP30.co2_label "Loading |"; SetText SGP30.voc_label "|"].
Proof.
  destruct (sgp30_warmup_turn (Scenario.stopped 10) Scenario.started_at_0 0%Q)
    as (c & Hc & ->).
  - reflexivity.
  - vm_compute. discriminate.
  - injection Hc as <-. reflexivity.
Defined.

(** * Further properties of the renderers *)

(** Property X12 (rendering is idempotent).  Calling [update_labels] a
    second time with the reading it has just rendered assigns nothing to
    the display and leaves every variable as it is.  In the SGP30 script
    the second call still assigns the LED, with the value it has. *)
Theorem rendering_again_writes_nothing :
  (forall co2 temp humidity is_high (w : SCD40.world),
     SCD40.update_labels co2 temp humidity is_high
       (final (SCD40.update_labels co2 temp humidity is_high w)) =
     Result (inr tt)
       (final (SCD40.update_labels co2 temp humidity is_high w)) [])
  /\
  (forall co2 voc is_high (w : SGP30.world),
     SGP30.update_labels co2 voc is_high
       (final (SGP30.update_labels co2 voc is_high w)) =
     Result (inr tt)
       (final (SGP30.update_labels co2 voc is_high w))
       [SetLed (SGP30.led (final (SGP30.update_labels co2 voc is_high w)))]).
Proof.
  split.
  - intros co2 temp humidity is_high w.
    rewrite (SCD40_Props.scd40_update_labels_run co2 temp humidity is_high w).
    cbn [final]. rewrite SCD40_Props.scd40_update_labels_run.
    destruct w as [n sn pv af lat sc].
    cbn [SCD40.prev_values SCD40.with_prev_values SCD40.with_screen
         SCD40.prev_co2 SCD40.prev_temp SCD40.prev_humidity
         SCD40.prev_is_high SCD40.screen].
    rewrite !differs_same. reflexivity.
  - intros co2 voc is_high w.
    rewrite (SGP30_Props.sgp30_update_labels_run co2 voc is_high w).
    cbn [final]. rewrite SGP30_Props.sgp30_update_labels_run.
    destruct w as [n sn bf sto st lbs af lat pv sc ld].
    cbn [SGP30.prev_values SGP30.with_prev_values SGP30.with_screen
         SGP30.with_led SGP30.prev_co2 SGP30.prev_voc SGP30.prev_is_high
         SGP30.screen SGP30.led].
    rewrite !differs_same. reflexivity.
Qed.

(** Property X13 (a corrupt baseline file stops the script).  When the
    baseline file holds no JSON text, the SGP30 script never enters its
    loop: it is left by an exception, which is the [ValueError] of
    [load_baseline] when the serial number could be read and the humidity
    command was accepted (and else the exception of that earlier step).
    Whatever turns would follow, there is no sleep, nothing is assigned
    to the display (the loading screen is not shown) and the cache stays
    as it was. *)
Theorem script_stops_on_corrupt_file :
  forall (monotonic : nat -> Q) hw turns (w : SGP30.world),
    SGP30.baseline_file w = SGP30.Holds SGP30.NotJSON ->
    let r := SGP30.script monotonic hw turns w in
    (exists e, outcome r = inl e) /\
    (forall words,
       SGP30.serial hw = inr words ->
       SGP30.set_iaq_relative_humidity hw = None ->
       outcome r = inl ValueError) /\
    sleeps (emitted r) = [] /\
    SGP30.screen (final r) = SGP30.screen w /\
    SGP30.prev_values (final r) = SGP30.prev_values w.
Proof.
  intros monotonic [ser hum dsp lf li] turns
    [n sn bf sto st lbs af lat pv sc ld] Hf.
  cbn [SGP30.baseline_file] in Hf. subst bf. cbv zeta.
  cbn [SGP30.serial SGP30.set_iaq_relative_humidity].
  unfold SGP30.script.
  destruct ser as [e|words].
  { erewrite bind_inl by reflexivity.
    split; [by eexists|]. split; [by intros ? [=]|]. by repeat split. }
  destruct hum as [e|].
  { erewrite bind_inl by reflexivity.
    split; [by eexists|]. split; [by intros ? _ [=]|]. by repeat split. }
  erewrite bind_inl by reflexivity.
  split; [by eexists|]. split; [by intros|]. by repeat split.
Qed.

(** The file left by an interrupted save, at the next start. *)
Lemma script_stops_on_corrupt_file_witness :
  outcome Scenario.boot_on_broken_file = inl ValueError /\
  sleeps (emitted Scenario.boot_on_broken_file) = [].
Proof.
  destruct (script_stops_on_corrupt_file (Scenario.ticking 0 1)
              Scenario.board
              (repeat (Scenario.air 800 100, SGP30.NoFault) 3)
              (SGP30.power_on (Scenario.ticking 0 1) (Scenario.air 800 100)
                 (SGP30.Holds SGP30.NotJSON)) eq_refl)
    as (_ & Ho & Hs & _).
  split; [exact (Ho _ eq_refl eq_refl)|exact Hs].
Defined.

(** Property X14 (the warm-up status never goes back).  The flag
    [fully_calibrated] of [check_warmup_status] is never set without
    [warmed_up]; and when a later call reads a clock value that is not
    smaller, with the same [start_time], a flag set by the earlier call is
    set by the later one. *)
Theorem warmup_status_monotone :
  forall (monotonic : nat -> Q) (w w' : SGP30.world) t0 s s',
    SGP30.start_time w = Some t0 ->
    SGP30.start_time w' = Some t0 ->
    (monotonic (SGP30.clock_reads w) <= monotonic (SGP30.clock_reads w'))%Q ->
    outcome (SGP30.check_warmup_status monotonic w) = inr s ->
    outcome (SGP30.check_warmup_status monotonic w') = inr s' ->
    (SGP30.fully_calibrated s = true -> SGP30.warmed_up s = true) /\
    (SGP30.warmed_up s = true -> SGP30.warmed_up s' = true) /\
    (SGP30.fully_calibrated s = true -> SGP30.fully_calibrated s' = true) /\
    (SGP30.elapsed_time s <= SGP30.elapsed_time s')%Q.
Proof.
  intros monotonic w w' t0 s s' Hst Hst' Hle.
  rewrite (SGP30_Store.sgp30_check_warmup_status_run monotonic w t0 Hst),
          (SGP30_Store.sgp30_check_warmup_status_run monotonic w' t0 Hst').
  cbn [outcome]. intros [= <-] [= <-].
  cbn [SGP30.warmed_up SGP30.fully_calibrated SGP30.elapsed_time].
  rewrite !Qgt_bool_lt.
  unfold SGP30.CALIBRATION_TIME, SGP30.WARMUP_TIME.
  repeat split; intros; lra.
Qed.

(** A call 32 s after the start and one 48000 s after it. *)
Lemma warmup_status_monotone_witness :
  SGP30.warmed_up
    {| SGP30.warmed_up := true; SGP30.fully_calibrated := true;
       SGP30.elapsed_time := (Scenario.ticking 0 16 3000 - 0)%Q |} = true.
Proof.
  destruct (warmup_status_monotone (Scenario.ticking 0 16)
              Scenario.started_at_0
              (SGP30.with_clock_reads 3000 Scenario.started_at_0) 0%Q
              {| SGP30.warmed_up := true; SGP30.fully_calibrated := false;
                 SGP30.elapsed_time := (Scenario.ticking 0 16 2 - 0)%Q |}
              {| SGP30.warmed_up := true; SGP30.fully_calibrated := true;
                 SGP30.elapsed_time := (Scenario.ticking 0 16 3000 - 0)%Q |})
    as (_ & H & _ & _).
  - reflexivity.
  - reflexivity.
  - vm_compute. discriminate.
  - reflexivity.
  - reflexivity.
  - exact (H eq_refl).
Defined.

(** * The baseline file during the first twelve hours *)

Section Early.
Variable monotonic : nat -> Q.

(** When the clock reading of [save_baseline] is within the calibration
    time, [update_baseline] reads the clock once or twice and does nothing
    else to the state. *)
Lemma sgp30_update_baseline_early (w : SGP30.world) t0 :
  SGP30.start_time w = Some t0 ->
  (monotonic (S (SGP30.clock_reads w)) - t0 <= SGP30.CALIBRATION_TIME)%Q ->
  exists k evs,
    SGP30.update_baseline monotonic w =
      Result (inr tt) (SGP30.with_clock_reads k w) evs /\
    (SGP30.clock_reads w <= k <= S (S (SGP30.clock_reads w)))%nat /\
    write_times evs = [] /\ sleeps evs = [].
Proof.
  destruct w as [n sn bf sto st lbs af lat pv sc ld].
  cbn [SGP30.start_time SGP30.clock_reads]. intros -> Hearly.
  apply Qgt_bool_le in Hearly.
  unfold SGP30.update_baseline. SGP30_Props.run_sgp30.
  destruct (Qgt_bool (monotonic n - lbs) _); SGP30_Props.run_sgp30.
  - rewrite Hearly. exists (S (S n)). eexists.
    split; [reflexivity|]. split; [lia|]. by split.
  - exists (S n), []. split; [reflexivity|]. split; [lia|]. by split.
Qed.

(** A call of [update] whose clock readings are all within the
    calibration time touches neither the baseline file nor
    [last_baseline_save]. *)
Lemma sgp30_update_early (w : SGP30.world) t0 :
  SGP30.start_time w = Some t0 ->
  (monotonic (S (S (S (SGP30.clock_reads w)))) - t0
   <= SGP30.CALIBRATION_TIME)%Q ->
  exists w' evs,
    SGP30.update monotonic w = Result (inr tt) w' evs /\
    SGP30.start_time w' = Some t0 /\
    SGP30.baseline_file w' = SGP30.baseline_file w /\
    SGP30.last_baseline_save w' = SGP30.last_baseline_save w /\
    (SGP30.clock_reads w' <= S (S (S (S (SGP30.clock_reads w)))))%nat /\
    (SGP30.clock_reads w <= SGP30.clock_reads w')%nat /\
    write_times evs = [].
Proof.
  destruct w as [n [ec tv bec btv sib] bf sto st lbs af lat pv sc ld].
  cbn [SGP30.start_time SGP30.clock_reads SGP30.baseline_file
       SGP30.last_baseline_save]. intros -> Hearly.
  SGP30_Props.run_sgp30.
  destruct (Qgt_bool _ SGP30.WARMUP_TIME); SGP30_Props.run_sgp30.
  - destruct ec as [e|co2]; SGP30_Props.run_sgp30;
      [do 2 eexists; split; [reflexivity|]; cbn; repeat split; lia|].
    destruct tv as [e|voc]; SGP30_Props.run_sgp30;
      [do 2 eexists; split; [reflexivity|]; cbn; repeat split; lia|].
    match goal with |- context [SGP30.update_labels ?a ?b ?c ?w] =>
      destruct (SGP30_Props.sgp30_update_labels_quiet a b c w) as [_ Hw];
      rewrite (SGP30_Props.sgp30_update_labels_run a b c w) in Hw |- * end.
    cbn [emitted] in Hw.
    match type of Hw with write_times ?l = _ => set (L := l) in *; clearbody L end.
    SGP30_Props.run_sgp30.
    match goal with |- context [SGP30.update_baseline monotonic ?w] =>
      destruct (sgp30_update_baseline_early w t0 eq_refl Hearly)
        as (k & ev2 & -> & Hk & Hw2 & _) end.
    cbn [SGP30.clock_reads] in Hk.
    SGP30_Props.run_sgp30.
    do 2 eexists. split; [reflexivity|].
    rewrite ?write_times_app, Hw, Hw2. cbn.
    repeat split; lia.
  - destruct (Qge_bool _ _); SGP30_Props.run_sgp30;
      [|do 2 eexists; split; [reflexivity|]; cbn; repeat split; lia].
    destruct (py_index _ _) as [ch|]; SGP30_Props.run_sgp30;
      do 2 eexists; (split; [reflexivity|]); cbn; repeat split; lia.
Qed.

End Early.



(** * The numbers shown by the SCD40 script *)

(** [int(x)] drops the fractional part of a finite float: the result is
    less than one away from the value of [x] and never further from zero
    than it. *)
Lemma int_of_float_truncates (x : float) (q : Q) :
  float_value x = Some q ->
  exists z,
    int_of_float x = inr z /\
    (inject_Z z - 1 < q)%Q /\
    (q < inject_Z z + 1)%Q /\
    ((0 <= q)%Q -> (inject_Z z <= q)%Q) /\
    ((q <= 0)%Q -> (q <= inject_Z z)%Q).
Proof.
  unfold float_value, int_of_float.
  destruct (Prim2SF x) as [s|s| |s m e]; try discriminate.
  { intros [= <-]. exists 0. by repeat split. }
  intros [= <-]. eexists. split; [reflexivity|].
  rewrite !Qred_correct.
  destruct e as [|p|p]; cbn [Z.leb Z.compare Z.opp].
  - rewrite Z.pow_0_r, !Z.mul_1_r.
    destruct s; unfold Qlt, Qle; cbn; repeat split; intros; lia.
  - assert (Hneg : Z.neg m = - Z.pos m) by reflexivity.
    set (P := 2 ^ Z.pos p). clearbody P.
    destruct s; unfold Qlt, Qle; cbn [Qnum Qden inject_Z Qminus Qplus Qopp];
      change (Z.pos (1 * 1)) with 1; rewrite ?Hneg;
      repeat split; intros; lia.
  - change (- Z.neg p) with (Z.pos p).
    pose proof (Z.div_mod (Z.pos m) (2 ^ Z.pos p)) as Hdm.
    pose proof (Z.mod_pos_bound (Z.pos m) (2 ^ Z.pos p)) as Hmb.
    assert (Hpos : 0 < 2 ^ Z.pos p) by (apply Z.pow_pos_nonneg; lia).
    specialize (Hdm ltac:(lia)). specialize (Hmb Hpos).
    set (d := Z.pos m / 2 ^ Z.pos p) in *.
    set (r := Z.pos m `mod` 2 ^ Z.pos p) in *.
    unfold Qlt, Qle. cbn [Qnum Qden inject_Z Qminus Qplus Qopp].
    rewrite ?Pos2Z.inj_pow, ?Pos.mul_1_l, ?Pos.mul_1_r, ?Z.mul_1_r.
    change (Z.pos 2) with 2.
    assert (Hneg : Z.neg m = - Z.pos m) by reflexivity.
    set (P := 2 ^ Z.pos p) in *. clearbody d r P.
    destruct s; rewrite ?Hneg; repeat split; intros; nia.
Qed.

(** Property X16 (what the SCD40 script shows of a sample).  When a sample
    is ready and read, and the temperature in Fahrenheit, computed as
    [t * (9 / 5) + 32] in binary64 arithmetic, and the humidity are
    finite, the cache holds these two numbers with their fractional
    parts dropped: each cached number is less than one away from the
    float it comes from and never further from zero than it (a float
    69.99 is shown as 69, a float -0.5 as 0). *)
Theorem scd40_reading_truncated :
  forall (monotonic : nat -> Q) (w : SCD40.world) co2 t h fahrenheit percent,
    SCD40.data_ready (SCD40.scd4x w) = inr true ->
    SCD40.CO2 (SCD40.scd4x w) = inr co2 ->
    SCD40.temperature (SCD40.scd4x w) = inr t ->
    SCD40.relative_humidity (SCD40.scd4x w) = inr h ->
    float_value (t * (9 / 5) + 32)%float = Some fahrenheit ->
    float_value h = Some percent ->
    exists temp humidity,
      SCD40.prev_values (final (SCD40.update monotonic w)) =
        SCD40.Cache (Some co2) (Some temp) (Some humidity)
          (Some (CO2_THRESHOLD <=? co2)) /\
      (inject_Z temp - 1 < fahrenheit < inject_Z temp + 1)%Q /\
      ((0 <= fahrenheit)%Q -> (inject_Z temp <= fahrenheit)%Q) /\
      ((fahrenheit <= 0)%Q -> (fahrenheit <= inject_Z temp)%Q) /\
      (inject_Z humidity - 1 < percent < inject_Z humidity + 1)%Q /\
      ((0 <= percent)%Q -> (inject_Z humidity <= percent)%Q) /\
      ((percent <= 0)%Q -> (percent <= inject_Z humidity)%Q).
Proof.
  intros monotonic w co2 t h fahrenheit percent Hr Hc Ht Hh Hf Hp.
  destruct (int_of_float_truncates _ _ Hf) as (temp & Htemp & T1 & T2 & T3 & T4).
  destruct (int_of_float_truncates _ _ Hp) as (hum & Hhum & H1 & H2 & H3 & H4).
  rewrite (SCD40_Turn.scd40_update_ready monotonic w co2 t h temp hum
             Hr Hc Ht Htemp Hh Hhum).
  cbn [final].
  destruct (scd40_update_labels_screen co2 temp hum (CO2_THRESHOLD <=? co2)
              (SCD40.with_clock_reads (S (SCD40.clock_reads w)) w))
    as (_ & _ & ->).
  exists temp, hum. split; [reflexivity|]. repeat split; assumption.
Qed.

(** At 21.11111111111111 degrees Celsius the float arithmetic of the
    script gives exactly 70.0, and 70 is cached. *)
Lemma scd40_reading_truncated_witness :
  exists humidity,
    SCD40.prev_values
      (final (SCD40.update (Scenario.ticking 0 1)
                (SCD40.with_scd4x FaultScenario.warm_room
                   Scenario.scd40_loading)))
    = SCD40.Cache (Some 800) (Some 70) (Some humidity) (Some false).
Proof.
  destruct (scd40_reading_truncated (Scenario.ticking 0 1)
              (SCD40.with_scd4x FaultScenario.warm_room Scenario.scd40_loading)
              800 21.11111111111111%float 40.2%float 70%Q _
              eq_refl eq_refl eq_refl eq_refl eq_refl eq_refl)
    as (temp & humidity & -> & [T1 T2] & _).
  exists humidity.
  assert (temp = 70) as ->; [|reflexivity].
  revert T1 T2. unfold Qlt. cbn [Qnum Qden inject_Z Qminus Qplus Qopp].
  lia.
Defined.

(** * The display and the cache along the loop *)

Ltac run_turn :=
  cbv beta iota zeta delta
    -[SCD40.update SGP30.update str hex int_of_float Qge_bool Qgt_bool
      Qplus Qminus Qmult Qdiv Qlt Qle Z.modulo Z.leb Z.eqb Z.add Z.of_nat
      String.append differs app py_index sleeps write_times
      LOADING_INTERVAL CO2_THRESHOLD LOADING_PHASE_SLEEP UPDATE_INTERVAL].

Section InStep.
Variable monotonic : nat -> Q.

(** Every branch of [update] keeps display and cache in step: a failed
    read and an idle turn change neither, the spinner is drawn only while
    the cache is empty, and a sample goes through [update_labels]. *)
Lemma scd40_update_in_step (w : SCD40.world) :
  SCD40.prev_values w = SCD40.no_reading \/
    SCD40.mirrors (SCD40.prev_values w) (SCD40.screen w) ->
  SCD40.prev_values (final (SCD40.update monotonic w)) = SCD40.no_reading \/
    SCD40.mirrors (SCD40.prev_values (final (SCD40.update monotonic w)))
      (SCD40.screen (final (SCD40.update monotonic w))).
Proof.
  destruct w as [n [dr c t h] pv af lat sc].
  cbn [SCD40.prev_values SCD40.screen]. intros Hinv.
  destruct dr as [e|[|]]; [exact Hinv| |].
  - destruct c as [e|c]; [exact Hinv|].
    destruct t as [e|t]; [exact Hinv|].
    destruct (int_of_float (t * (9 / 5) + 32)%float) as [e|temp] eqn:Htemp.
    { SCD40_Props.run_scd40. rewrite Htemp. exact Hinv. }
    destruct h as [e|h].
    { SCD40_Props.run_scd40. rewrite Htemp. exact Hinv. }
    destruct (int_of_float h) as [e|humidity] eqn:Hhum.
    { SCD40_Props.run_scd40. rewrite Htemp. SCD40_Props.run_scd40.
      rewrite Hhum. exact Hinv. }
    match goal with |- context [SCD40.update monotonic ?w0] =>
      rewrite (SCD40_Turn.scd40_update_ready monotonic w0 c t h temp humidity
                 eq_refl eq_refl eq_refl Htemp eq_refl Hhum) end.
    cbn [final]. right.
    apply SCD40_Props.scd40_update_labels_mirrors. exact Hinv.
  - destruct Hinv as [-> | Hm].
    + left. unfold SCD40.no_reading. run_spinner.
      destruct (Qge_bool _ _); run_spinner; [|reflexivity].
      destruct (py_index _ _); reflexivity.
    + destruct pv as [[c0|] [t0|] [h0|] [hi0|]]; try done.
      right. exact Hm.
Qed.

(** The state after a turn of the loop is the state after its
    [update]. *)
Lemma scd40_iteration_final s (w : SCD40.world) :
  final (SCD40.iteration monotonic s w)
  = final (SCD40.update monotonic (SCD40.with_scd4x s w)).
Proof.
  destruct (SCD40_Props.scd40_update_run monotonic (SCD40.with_scd4x s w))
    as (w' & evs & Hupd & _).
  rewrite Hupd. cbn [final].
  destruct w as [n sn pv af lat sc],
           w' as [n' sn' [pc' pt' ph' phi'] af' lat' sc'].
  revert Hupd. run_turn. intros ->. by destruct pc'.
Qed.

End InStep.



Section InStepSGP30.
Variable monotonic : nat -> Q.
Hypothesis monotone :
  forall i j, (i <= j)%nat -> (monotonic i <= monotonic j)%Q.

(** [update_baseline] reads the clock and never turns it back. *)
Lemma sgp30_update_baseline_clock (w : SGP30.world) :
  (SGP30.clock_reads w
   <= SGP30.clock_reads (final (SGP30.update_baseline monotonic w)))%nat.
Proof using Type.
  destruct w as [n [ec tv bec btv sib] bf sto st lbs af lat pv sc ld].
  unfold SGP30.update_baseline. SGP30_Props.run_sgp30.
  destruct (Qgt_bool (monotonic n - lbs) _); SGP30_Props.run_sgp30; [|lia].
  destruct st as [t0|]; SGP30_Props.run_sgp30; [|lia].
  do 2 (destruct (Qgt_bool _ _); SGP30_Props.run_sgp30; [|lia]).
  destruct bec as [e|e]; SGP30_Props.run_sgp30.
  { destruct e; SGP30_Props.run_sgp30; try lia.
    destruct (Z.eqb _ _); SGP30_Props.run_sgp30; lia. }
  destruct btv as [e'|t]; SGP30_Props.run_sgp30.
  { destruct e'; SGP30_Props.run_sgp30; try lia.
    destruct (Z.eqb _ _); SGP30_Props.run_sgp30; lia. }
  destruct sto as [|errno|errno]; SGP30_Props.run_sgp30; [lia| |].
  all: destruct (Z.eqb _ _); SGP30_Props.run_sgp30; lia.
Qed.

(** Under a clock that never goes back, a reading is cached only after
    the warm-up, and from then on the spinner is not drawn: every branch
    of [update] keeps display and cache in step. *)
Lemma sgp30_update_in_step (w : SGP30.world) t0 :
  SGP30.start_time w = Some t0 ->
  SGP30.prev_values w = SGP30.no_reading \/
    (SGP30.mirrors (SGP30.prev_values w) (SGP30.screen w) /\
     (SGP30.WARMUP_TIME < monotonic (SGP30.clock_reads w) - t0)%Q) ->
  exists w' evs,
    SGP30.update monotonic w = Result (inr tt) w' evs /\
    SGP30.start_time w' = Some t0 /\
    (SGP30.prev_values w' = SGP30.no_reading \/
     (SGP30.mirrors (SGP30.prev_values w') (SGP30.screen w') /\
      (SGP30.WARMUP_TIME < monotonic (SGP30.clock_reads w') - t0)%Q)).
Proof using monotone.
  destruct w as [n [ec tv bec btv sib] bf sto st lbs af lat pv sc ld].
  cbn [SGP30.start_time SGP30.prev_values SGP30.screen SGP30.clock_reads].
  intros -> Hinv.
  assert (Hlater : forall k, (S n <= k)%nat ->
            (SGP30.WARMUP_TIME < monotonic (S n) - t0)%Q ->
            (SGP30.WARMUP_TIME < monotonic k - t0)%Q).
  { intros k Hk Hw. specialize (monotone (S n) k Hk). lra. }
  SGP30_Props.run_sgp30.
  destruct (Qgt_bool (monotonic (S n) - t0) SGP30.WARMUP_TIME) eqn:Hwarm;
    [apply Qgt_bool_lt in Hwarm|apply Qgt_bool_le in Hwarm];
    SGP30_Props.run_sgp30.
  - assert (Hkeep : pv = SGP30.no_reading \/
              (SGP30.mirrors pv sc /\
               (SGP30.WARMUP_TIME < monotonic (S (S n)) - t0)%Q)).
    { destruct Hinv as [?|[? _]]; [by left|right].
      split; [done|]. apply Hlater; [lia|done]. }
    destruct ec as [e|co2]; SGP30_Props.run_sgp30;
      [do 2 eexists; split; [reflexivity|]; split; [reflexivity|exact Hkeep]|].
    destruct tv as [e|voc]; SGP30_Props.run_sgp30;
      [do 2 eexists; split; [reflexivity|]; split; [reflexivity|exact Hkeep]|].
    match goal with |- context [SGP30.update_labels ?a ?b ?c ?w] =>
      pose proof (SGP30_Props.sgp30_update_labels_mirrors a b w) as Hm;
      cbv zeta in Hm;
      rewrite (SGP30_Props.sgp30_update_labels_run a b c w) in Hm |- * end.
    cbn [final] in Hm.
    specialize (Hm ltac:(destruct Hinv as [?|[? _]]; [by left|by right])).
    match type of Hm with
      SGP30.mirrors (SGP30.prev_values ?w2) _ =>
        set (W2 := w2) in *
    end.
    assert (Hst2 : SGP30.start_time W2 = Some t0) by reflexivity.
    assert (Hn2 : SGP30.clock_reads W2 = S (S n)) by reflexivity.
    clearbody W2.
    SGP30_Props.run_sgp30.
    pose proof (SGP30_Props.sgp30_update_baseline_spec monotonic W2) as Hub.
    pose proof (sgp30_update_baseline_clock W2) as Hck.
    cbv zeta in Hub.
    destruct (SGP30.update_baseline monotonic W2) as [o W3 ev3].
    cbn [final emitted] in Hub, Hck.
    destruct Hub as (Hpv & Hsc & _ & Hst3 & _).
    rewrite Hn2 in Hck. rewrite Hst2 in Hst3.
    assert (Hinv3 : SGP30.mirrors (SGP30.prev_values W3) (SGP30.screen W3) /\
              (SGP30.WARMUP_TIME < monotonic (SGP30.clock_reads W3) - t0)%Q).
    { rewrite Hpv, Hsc. split; [exact Hm|]. apply Hlater; [lia|done]. }
    destruct W3 as [n3 sn3 bf3 sto3 st3 lbs3 af3 lat3 pv3 sc3 ld3].
    cbn [SGP30.start_time SGP30.prev_values SGP30.screen SGP30.clock_reads]
      in Hst3, Hinv3.
    destruct o as [e|[]]; SGP30_Props.run_sgp30.
    all: do 2 eexists; split; [reflexivity|]; split; [exact Hst3|].
    all: right; exact Hinv3.
  - destruct Hinv as [-> | [_ Hw]].
    2:{ specialize (monotone n (S n) ltac:(lia)). lra. }
    destruct (Qge_bool _ _); SGP30_Props.run_sgp30;
      [|do 2 eexists; split; [reflexivity|]; split; [reflexivity|by left]].
    destruct (py_index _ _) as [ch|]; SGP30_Props.run_sgp30;
      do 2 eexists; (split; [reflexivity|]); (split; [reflexivity|by left]).
Qed.

End InStepSGP30.



(** * A failing save inside [update] *)

Ltac run_to_save :=
  cbv beta iota zeta delta
    -[SGP30.save_baseline SGP30.baseline_dict str hex Qge_bool Qgt_bool
      Qplus Qminus Qmult Qdiv Qlt Qle Z.leb Z.eqb Z.add Z.of_nat
      String.append app SGP30.WARMUP_TIME SGP30.CALIBRATION_TIME
      SGP30.BASELINE_SAVE_INTERVAL].

(** [save_baseline] past the calibration time when reading the baseline
    of the sensor raises an exception that its handler does not catch. *)
Lemma sgp30_save_baseline_raises (monotonic : nat -> Q)
    (w : SGP30.world) t0 e :
  SGP30.start_time w = Some t0 ->
  (SGP30.CALIBRATION_TIME < monotonic (SGP30.clock_reads w) - t0)%Q ->
  is_OSError e = false ->
  SGP30.baseline_eCO2 (SGP30.sensor w) = inl e \/
  ((exists v, SGP30.baseline_eCO2 (SGP30.sensor w) = inr v) /\
   SGP30.baseline_TVOC (SGP30.sensor w) = inl e) ->
  SGP30.save_baseline monotonic w =
    Result (inl e) (SGP30.with_clock_reads (S (SGP30.clock_reads w)) w) [].
Proof.
  destruct w as [n [ec tv bec btv sib] bf sto st lbs af lat pv sc ld].
  cbn [SGP30.start_time SGP30.clock_reads SGP30.sensor
       SGP30.baseline_eCO2 SGP30.baseline_TVOC].
  intros -> Hcal He Hs. apply Qgt_bool_lt in Hcal.
  unfold SGP30.save_baseline. SGP30_Props.run_sgp30.
  rewrite Hcal. SGP30_Props.run_sgp30. rewrite Hcal.
  destruct Hs as [-> | [[v ->] ->]];
    destruct e; try discriminate He; reflexivity.
Qed.

(** [update_baseline] when a save is due and permitted and the sensor does
    not deliver its baseline. *)
Lemma sgp30_update_baseline_sensor_fails (monotonic : nat -> Q)
    (w : SGP30.world) t0 e :
  SGP30.start_time w = Some t0 ->
  (SGP30.BASELINE_SAVE_INTERVAL
   < monotonic (SGP30.clock_reads w) - SGP30.last_baseline_save w)%Q ->
  (SGP30.CALIBRATION_TIME < monotonic (S (SGP30.clock_reads w)) - t0)%Q ->
  is_OSError e = false ->
  SGP30.baseline_eCO2 (SGP30.sensor w) = inl e \/
  ((exists v, SGP30.baseline_eCO2 (SGP30.sensor w) = inr v) /\
   SGP30.baseline_TVOC (SGP30.sensor w) = inl e) ->
  SGP30.update_baseline monotonic w =
    Result (inl e)
      (SGP30.with_clock_reads (S (S (SGP30.clock_reads w))) w)
      [InvokeSave (monotonic (SGP30.clock_reads w))].
Proof.
  destruct w as [n sn bf sto st lbs af lat pv sc ld].
  cbn [SGP30.start_time SGP30.clock_reads SGP30.sensor
       SGP30.last_baseline_save].
  intros -> Hdue Hcal He Hs. apply Qgt_bool_lt in Hdue.
  unfold SGP30.update_baseline. run_to_save.
  rewrite Hdue. run_to_save.
  match goal with |- context [SGP30.save_baseline monotonic ?w] =>
    rewrite (sgp30_save_baseline_raises monotonic w t0 e eq_refl
               Hcal He Hs) end.
  reflexivity.
Qed.

(** Property X19 (a failure of the save is reported as a sensor error).
    Past the warm-up, when the readings are delivered, a save is due and
    permitted, and reading the baseline of the sensor raises an exception
    that is not an [OSError], the exception leaves [save_baseline] and
    [update_baseline] and is caught by [update], which prints "Error
    reading sensor: ..." although both readings were obtained.  The
    reading has been rendered and cached before; the baseline file and
    [last_baseline_save] are untouched, so the save is attempted again in
    the next turn. *)
Theorem failed_save_reported_as_sensor_error :
  forall (monotonic : nat -> Q) (w : SGP30.world) t0 co2 voc e,
    SGP30.start_time w = Some t0 ->
    (SGP30.WARMUP_TIME < monotonic (S (SGP30.clock_reads w)) - t0)%Q ->
    SGP30.eCO2 (SGP30.sensor w) = inr co2 ->
    SGP30.TVOC (SGP30.sensor w) = inr voc ->
    (SGP30.BASELINE_SAVE_INTERVAL
     < monotonic (S (S (SGP30.clock_reads w))) - SGP30.last_baseline_save w)%Q ->
    (SGP30.CALIBRATION_TIME
     < monotonic (S (S (S (SGP30.clock_reads w)))) - t0)%Q ->
    is_OSError e = false ->
    SGP30.baseline_eCO2 (SGP30.sensor w) = inl e \/
    ((exists v, SGP30.baseline_eCO2 (SGP30.sensor w) = inr v) /\
     SGP30.baseline_TVOC (SGP30.sensor w) = inl e) ->
    exists w',
      SGP30.update monotonic w =
        Result (inr tt) w'
          ([Print ("CO2: " ++ str co2 ++ "ppm");
            Print ("VOC: " ++ str voc ++ "ppb")]
           ++ emitted (SGP30.update_labels co2 voc (CO2_THRESHOLD <=? co2) w)
           ++ [InvokeSave (monotonic (S (S (SGP30.clock_reads w))));
               PrintExn "Error reading sensor: " e]) /\
      SGP30.prev_values w' =
        SGP30.Cache (Some co2) (Some voc) (Some (CO2_THRESHOLD <=? co2)) /\
      SGP30.screen w' =
        SGP30.screen
          (final (SGP30.update_labels co2 voc (CO2_THRESHOLD <=? co2) w)) /\
      SGP30.baseline_file w' = SGP30.baseline_file w /\
      SGP30.last_baseline_save w' = SGP30.last_baseline_save w.
Proof.
  intros monotonic
    [n [ec tv bec btv sib] bf sto st lbs af lat pv sc ld] t0 co2 voc e.
  cbn [SGP30.start_time SGP30.clock_reads SGP30.sensor SGP30.eCO2 SGP30.TVOC
       SGP30.baseline_eCO2 SGP30.baseline_TVOC SGP30.last_baseline_save
       SGP30.baseline_file].
  intros -> Hwarm -> -> Hdue Hcal He Hs.
  apply Qgt_bool_lt in Hwarm.
  rewrite SGP30_Props.sgp30_update_labels_run.
  cbn [final emitted SGP30.prev_values SGP30.screen SGP30.with_prev_values
       SGP30.with_led SGP30.with_screen].
  match goal with |- context [foldl apply_write sc ?l] =>
    remember l as EV eqn:HEV; remember (foldl apply_write sc EV) as SC eqn:HSC
  end.
  unfold SGP30.update. SGP30_Props.run_sgp30. rewrite Hwarm.
  SGP30_Props.run_sgp30.
  match goal with |- context [SGP30.update_labels ?a ?b ?c ?w] =>
    rewrite (SGP30_Props.sgp30_update_labels_run a b c w) end.
  cbn [SGP30.prev_values SGP30.screen SGP30.with_prev_values SGP30.with_led
       SGP30.with_screen].
  rewrite <- HEV, <- HSC. clear HEV HSC.
  SGP30_Props.run_sgp30.
  match goal with |- context [SGP30.update_baseline monotonic ?w] =>
    rewrite (sgp30_update_baseline_sensor_fails monotonic w t0 e eq_refl
               Hdue Hcal He Hs) end.
  SGP30_Props.run_sgp30.
  eexists. split.
  { f_equal. cbn [app]. rewrite <- ?List.app_assoc. reflexivity. }
  by repeat split.
Qed.

(** 50000 s after the start the baseline register answers with a
    checksum error: the last console line blames the sensor reading. *)
Lemma failed_save_reported_as_sensor_error_witness :
  last (emitted (SGP30.update (Scenario.stopped 50000)
                   (SGP30.with_sensor (FaultScenario.mute_air RuntimeError)
                      Scenario.started_at_0)))
  = Some (PrintExn "Error reading sensor: " RuntimeError).
Proof.
  destruct (failed_save_reported_as_sensor_error (Scenario.stopped 50000)
              (SGP30.with_sensor (FaultScenario.mute_air RuntimeError)
                 Scenario.started_at_0) 0%Q 800 100 RuntimeError)
    as (w' & -> & _).
  - reflexivity.
  - vm_compute. reflexivity.
  - reflexivity.
  - reflexivity.
  - vm_compute. reflexivity.
  - vm_compute. reflexivity.
  - reflexivity.
  - left. reflexivity.
  - reflexivity.
Defined.

(** * Starting again on a saved baseline *)

(** Property X20 (a restart restores the saved baseline).  When the
    devices answer the initialisation code without failure, the file
    holds a baseline as [save_baseline] writes it and the driver accepts
    the two values, the initialisation code completes with the effects
    listed, in this order: the sensor is given the saved baseline between
    the humidity command and the set-up of the display.  [start_time] is
    the clock value read by [initialize_baseline_tracking] (so the warm-up
    and the twelve hours of calibration are counted anew), the LED is
    off, the loading text is shown, and file, cache and
    [last_baseline_save] are as they were. *)
Theorem restart_restores_baseline :
  forall (monotonic : nat -> Q) (hw : SGP30.setup) (w : SGP30.world)
         words e t,
    SGP30.serial hw = inr words ->
    SGP30.set_iaq_relative_humidity hw = None ->
    SGP30.display_setup hw = None ->
    SGP30.load_font hw = None ->
    SGP30.load_icons hw = None ->
    SGP30.baseline_file w = SGP30.Holds (SGP30.JSON (SGP30.baseline_dict e t)) ->
    SGP30.set_iaq_baseline (SGP30.sensor w) (JInt e) (JInt t) = None ->
    let r := SGP30.initialization monotonic hw w in
    outcome r = inr tt /\
    emitted r =
      [SetLed false;
       Print ("Serial number: " ++ repr_str_list (map py_hex words));
       SetIaqRelativeHumidity 22.1 44;
       SetIaqBaseline (JInt e) (JInt t);
       Print "Loaded stored baseline values:";
       Print ("eCO2: 0x" ++ hex e ++ ", TVOC: 0x" ++ hex t);
       Print "Waiting for first measurement....";
       SetPalette 0;
       SetText SGP30.co2_label "Loading...";
       SetText SGP30.co2_value "";
       SetText SGP30.voc_status "";
       SetText SGP30.voc_label "";
       SetText SGP30.icon_label ""] /\
    SGP30.start_time (final r) = Some (monotonic (SGP30.clock_reads w)) /\
    SGP30.led (final r) = false /\
    SGP30.baseline_file (final r) = SGP30.baseline_file w /\
    SGP30.prev_values (final r) = SGP30.prev_values w /\
    SGP30.last_baseline_save (final r) = SGP30.last_baseline_save w.
Proof.
  intros monotonic [ser hum dsp lf li]
    [n [ec tv bec btv sib] bf sto st lbs af lat pv sc ld] words e t.
  cbn [SGP30.serial SGP30.set_iaq_relative_humidity SGP30.display_setup
       SGP30.load_font SGP30.load_icons SGP30.baseline_file SGP30.sensor
       SGP30.set_iaq_baseline SGP30.clock_reads SGP30.prev_values
       SGP30.last_baseline_save].
  intros -> -> -> -> -> -> Hd. cbv zeta.
  unfold SGP30.initialization.
  cbv beta iota zeta delta
    -[SGP30.load_baseline SGP30.baseline_dict app String.append hex
      repr_str_list py_hex map].
  match goal with |- context [SGP30.load_baseline ?w0] =>
    rewrite (sgp30_load_baseline_object w0
               (<["eCO2" := JInt e]> (<["TVOC" := JInt t]> ∅))
               (JInt e) (JInt t) eq_refl)
  end.
  - cbn [SGP30.sensor SGP30.set_iaq_baseline]. rewrite Hd.
    cbn [format_x outcome final emitted].
    repeat split.
  - apply lookup_insert_eq.
  - rewrite lookup_insert_ne by done. apply lookup_insert_eq.
Qed.

(** The script started on the baseline (35000, 36000), on a clock that
    reads 8 when [initialize_baseline_tracking] asks. *)
Lemma restart_restores_baseline_witness :
  SGP30.start_time
    (final (SGP30.initialization (Scenario.ticking 7 1) Scenario.board
              (SGP30.power_on (Scenario.ticking 7 1) (Scenario.air 800 100)
                 (SGP30.Holds (SGP30.JSON (SGP30.baseline_dict 35000 36000))))))
  = Some 8%Q /\
  In (SetIaqBaseline (JInt 35000) (JInt 36000))
     (emitted (SGP30.initialization (Scenario.ticking 7 1) Scenario.board
                 (SGP30.power_on (Scenario.ticking 7 1) (Scenario.air 800 100)
                    (SGP30.Holds
                       (SGP30.JSON (SGP30.baseline_dict 35000 36000)))))).
Proof.
  destruct (restart_restores_baseline (Scenario.ticking 7 1) Scenario.board
              (SGP30.power_on (Scenario.ticking 7 1) (Scenario.air 800 100)
                 (SGP30.Holds (SGP30.JSON (SGP30.baseline_dict 35000 36000))))
              [0; 434; 51966] 35000 36000
              eq_refl eq_refl eq_refl eq_refl eq_refl eq_refl eq_refl)
    as (_ & -> & -> & _).
  split; [vm_compute; reflexivity|].
  cbn [In]. do 3 right. left. reflexivity.
Defined.

(** * A font that cannot be loaded *)

(** [load_baseline] looks at the file and the sensor only. *)
Lemma sgp30_load_baseline_reads (w w' : SGP30.world) :
  SGP30.baseline_file w = SGP30.baseline_file w' ->
  SGP30.sensor w = SGP30.sensor w' ->
  outcome (SGP30.load_baseline w) = outcome (SGP30.load_baseline w') /\
  emitted (SGP30.load_baseline w) = emitted (SGP30.load_baseline w').
Proof.
  destruct w as [n0 [ec tv bec btv sib] bf sto st lbs af lat pv sc ld],
           w' as [n0' sn' bf' sto' st' lbs' af' lat' pv' sc' ld'].
  cbn [SGP30.baseline_file SGP30.sensor]. intros <- <-.
  destruct bf as [|errno|[|v]]; try by split.
  unfold SGP30.load_baseline. SGP30_Store.run_load.
  destruct (subscript v "eCO2") as [e|x]; SGP30_Store.run_load.
  { by destruct (is_OSError e || is_KeyError e). }
  destruct (subscript v "TVOC") as [e|y]; SGP30_Store.run_load.
  { by destruct (is_OSError e || is_KeyError e). }
  destruct (sib x y) as [e|]; SGP30_Store.run_load.
  { by destruct (is_OSError e || is_KeyError e). }
  destruct (format_x x) as [e|hx]; SGP30_Store.run_load.
  { by destruct (is_OSError e || is_KeyError e). }
  destruct (format_x y) as [e|hy]; SGP30_Store.run_load.
  { by destruct (is_OSError e || is_KeyError e). }
  by split.
Qed.

(** Property X21 (the handler for the fonts does not keep the script
    alive).  When the steps before it succeed and one of the two
    [bitmap_font.load_font] calls raises, the handler prints the
    exception and the script goes on, but the name [font] (or [icons],
    when only the second call failed) is not bound: the script is left by
    a [NameError] when the first label using it is made.  The loop is
    never entered and the loading screen is never shown. *)
Theorem font_failure_stops_script :
  forall (monotonic : nat -> Q) (hw : SGP30.setup) turns (w : SGP30.world)
         words b e,
    SGP30.serial hw = inr words ->
    SGP30.set_iaq_relative_humidity hw = None ->
    outcome (SGP30.load_baseline w) = inr b ->
    SGP30.display_setup hw = None ->
    SGP30.load_font hw = Some e \/
    (SGP30.load_font hw = None /\ SGP30.load_icons hw = Some e) ->
    let r := SGP30.script monotonic hw turns w in
    outcome r =
      inl (NameError (if SGP30.load_font hw is Some _ then "font"
                      else "icons")) /\
    In (PrintExn SGP30.FONT_ERROR e) (emitted r) /\
    sleeps (emitted r) = [] /\
    (forall wd s, ~ In (SetText wd s) (emitted r)) /\
    SGP30.prev_values (final r) = SGP30.prev_values w.
Proof.
  intros monotonic [ser hum dsp lf li] turns w words b e.
  cbn [SGP30.serial SGP30.set_iaq_relative_humidity SGP30.display_setup
       SGP30.load_font SGP30.load_icons].
  intros -> -> Hload -> Hfont. cbv zeta.
  destruct w as [n sn bf sto st lbs af lat pv sc ld].
  unfold SGP30.script, SGP30.initialization.
  cbv beta iota zeta delta
    -[SGP30.load_baseline app String.append repr_str_list py_hex map
      SGP30.FONT_ERROR sleeps In SGP30.main_loop].
  match goal with |- context [SGP30.load_baseline ?w0] =>
    destruct (sgp30_load_baseline_reads w0
                (SGP30.World n sn bf sto st lbs af lat pv sc ld)
                eq_refl eq_refl) as (Ho & Hev);
    pose proof (sgp30_load_baseline_frame w0) as (Hf & _ & Hsl);
    destruct (SGP30.load_baseline w0) as [o w2 ev2]
  end.
  cbn [outcome final emitted] in Ho, Hev, Hf, Hsl. subst w2.
  rewrite Hload in Ho. subst o.
  assert (Hno : forall wd s, ~ In (SetText wd s) ev2).
  { rewrite Hev. intros wd s. clear.
    destruct sn as [ec tv bec btv sib].
    destruct bf as [|errno|[|v]]; try (cbn; intuition discriminate).
    unfold SGP30.load_baseline. SGP30_Store.run_load.
    destruct (subscript v "eCO2") as [e|x]; SGP30_Store.run_load.
    { destruct (is_OSError e || is_KeyError e); cbn; intuition discriminate. }
    destruct (subscript v "TVOC") as [e|y]; SGP30_Store.run_load.
    { destruct (is_OSError e || is_KeyError e); cbn; intuition discriminate. }
    destruct (sib x y) as [e|]; SGP30_Store.run_load.
    { destruct (is_OSError e || is_KeyError e); cbn; intuition discriminate. }
    destruct (format_x x) as [e|hx]; SGP30_Store.run_load.
    { destruct (is_OSError e || is_KeyError e); cbn; intuition discriminate. }
    destruct (format_x y) as [e|hy]; SGP30_Store.run_load.
    { destruct (is_OSError e || is_KeyError e); cbn; intuition discriminate. }
    cbn; intuition discriminate. }
  destruct Hfont as [-> | [-> ->]]; cbn [outcome final emitted].
  all: split; [reflexivity|].
  all: split; [rewrite ?in_app_iff; cbn [In]; tauto|].
  all: split; [rewrite ?sleeps_app, Hsl; reflexivity|].
  all: split; [|reflexivity].
  all: intros wd s; rewrite ?in_app_iff; cbn [In];
    specialize (Hno wd s); intuition discriminate.
Qed.

(** The file of the icon font is missing (errno 2): the script prints the
    handler's line and ends with [NameError] for [icons]. *)
Lemma font_failure_stops_script_witness :
  outcome (SGP30.script (Scenario.ticking 0 1)
             FaultScenario.no_icon_font
             (repeat (Scenario.air 800 100, SGP30.NoFault) 3)
             (SGP30.power_on (Scenario.ticking 0 1) (Scenario.air 800 100)
                SGP30.Missing))
  = inl (NameError "icons").
Proof.
  destruct (font_failure_stops_script (Scenario.ticking 0 1)
              FaultScenario.no_icon_font
              (repeat (Scenario.air 800 100, SGP30.NoFault) 3)
              (SGP30.power_on (Scenario.ticking 0 1) (Scenario.air 800 100)
                 SGP30.Missing)
              [0; 434; 51966] false (OSError 2)
              eq_refl eq_refl eq_refl eq_refl)
    as (-> & _).
  - right. split; reflexivity.
  - reflexivity.
Defined.
